(** * libde265dec: the HEVC decoder module of VLC (modules/codec/libde265dec.c)

    A shallow embedding of [Open] and [Decode] and of the loops inside
    [Decode]: the extradata probe, the length-prefix demultiplexer, the
    decode/drain loop with its late-frame accounting, and the plane copy.

    libde265 and the VLC core are external to the module.  They are an
    interface here ([External]): every call takes the state of the outside
    world and returns the next one, and the module's own run appends each
    call to a trace, so that "which calls were made, in which order, with
    which arguments" is a statement about a list. *)

From Stdlib Require Import ZArith List Bool Lia String Strings.Byte.
Import ListNotations.
Local Open Scope Z_scope.

Set Implicit Arguments.

(** ** Constants of the module *)

Definition DEFAULT_LENGTH_SIZE : Z := 4.
Definition MAX_THREAD_COUNT : Z := 32.
Definition LATE_FRAMES_DROP_ALWAYS_AGE : Z := 5.
Definition LATE_FRAMES_DROP_DECODER : Z := 4.
Definition LATE_FRAMES_DROP_HARD : Z := 12.

(** ** Machine integers

    [length] in the demultiplexer is a [uint32_t]; dimensions are [unsigned]
    compared after a cast to [int].  The late-frame counter is an [int] that
    moves by one per block or per image; it is kept on [Z] (signed overflow is
    undefined in C). *)

Definition uint32 (x : Z) : Z := x mod 2 ^ 32.
Definition to_int (x : Z) : Z := (x + 2 ^ 31) mod 2 ^ 32 - 2 ^ 31.

Definition byte_val (b : byte) : Z := Z.of_N (Byte.to_N b).

(** [p[i]] for an [unsigned char *] backed by a list. *)
Definition byte_at (p : list byte) (i : nat) : Z := byte_val (nth i p x00).

(** ** Data of the VLC core used by the module *)

Definition mtime_t := Z.

Record block_t := mkBlock {
  i_flags : Z;
  p_buffer : list byte;          (* i_buffer is its length *)
  i_pts : mtime_t
}.

Definition i_buffer (b : block_t) : Z := Z.of_nat (List.length (p_buffer b)).

Record video_format_t := mkVideo {
  i_width : Z;
  i_height : Z;
  i_visible_width : Z;
  i_visible_height : Z
}.

Record es_format_t := mkEs {
  i_cat : Z;
  i_codec : Z;
  b_packetized : bool;
  p_extra : list byte;           (* i_extra is its length; NULL is the empty buffer *)
  video : video_format_t
}.

Definition i_extra (f : es_format_t) : Z := Z.of_nat (List.length (p_extra f)).

Record plane_t := mkPlane {
  p_pixels : list byte;
  i_pitch : Z;
  i_visible_lines : Z
}.

Record picture_t := mkPicture {
  p : list plane_t;              (* i_planes is its length *)
  b_progressive : bool;
  date : mtime_t
}.

(** What the pointer field [dec->p_sys] holds: the value the caller left in
    it, or the address [malloc] returned in [Open].  Whether that address
    is still allocated is told by the session record [Open] returns. *)
Inductive sys_pointer :=
| Ptr_before
| Ptr_malloc.

Record decoder_t := mkDecoder {
  fmt_in : es_format_t;
  fmt_out : es_format_t;
  b_pace_control : bool;
  b_need_packetized : bool;
  pf_decode_video : bool;        (* whether the callback has been installed *)
  p_sys : sys_pointer
}.

Definition set_p_sys (v : sys_pointer) (dec : decoder_t) : decoder_t :=
  mkDecoder (fmt_in dec) (fmt_out dec) (b_pace_control dec) (b_need_packetized dec)
            (pf_decode_video dec) v.

(** ** Data of libde265 used by the module *)

Definition de265_decoder_context := N.

Inductive de265_error :=
| DE265_OK
| DE265_ERROR_IMAGE_BUFFER_FULL
| DE265_ERROR_WAITING_FOR_INPUT_DATA
| DE265_other (code : Z).

Inductive de265_chroma :=
| de265_chroma_mono
| de265_chroma_420
| de265_chroma_422
| de265_chroma_444.

Definition is_420 (c : de265_chroma) : bool :=
  match c with de265_chroma_420 => true | _ => false end.

Record de265_image := mkImage {
  image_width : Z;
  image_height : Z;
  image_chroma : de265_chroma;
  image_PTS : mtime_t;
  image_planes : list (list byte * Z)     (* pixels and stride of each plane *)
}.

Definition de265_get_image_plane (img : de265_image) (plane : nat) : list byte * Z :=
  nth plane (image_planes img) ([], 0).

(** ** The session *)

Record decoder_sys_t := mkSys {
  ctx : de265_decoder_context;
  late_frames_start : mtime_t;
  length_size : Z;
  late_frames : Z;
  check_extra : bool;
  packetized : bool
}.

Definition set_late_frames (v : Z) (s : decoder_sys_t) : decoder_sys_t :=
  mkSys (ctx s) (late_frames_start s) (length_size s) v (check_extra s) (packetized s).
Definition set_late_frames_start (v : mtime_t) (s : decoder_sys_t) : decoder_sys_t :=
  mkSys (ctx s) v (length_size s) (late_frames s) (check_extra s) (packetized s).
Definition set_length_size (v : Z) (s : decoder_sys_t) : decoder_sys_t :=
  mkSys (ctx s) (late_frames_start s) v (late_frames s) (check_extra s) (packetized s).
Definition set_check_extra (v : bool) (s : decoder_sys_t) : decoder_sys_t :=
  mkSys (ctx s) (late_frames_start s) (length_size s) (late_frames s) v (packetized s).
Definition set_packetized (v : bool) (s : decoder_sys_t) : decoder_sys_t :=
  mkSys (ctx s) (late_frames_start s) (length_size s) (late_frames s) (check_extra s) v.

(** ** The outside world

    One abstract state [W] for libde265 and the VLC core together.  The
    constants come from headers that are not part of the module. *)

Class External (W : Type) := {
  (* vlc_block.h, vlc_common.h, vlc_fourcc.h, vlc_es.h *)
  BLOCK_FLAG_DISCONTINUITY : Z;
  BLOCK_FLAG_CORRUPTED : Z;
  BLOCK_FLAG_PREROLL : Z;
  CLOCK_FREQ : Z;
  VLC_CODEC_HEVC : Z;
  VLC_CODEC_I420 : Z;
  VIDEO_ES : Z;
  mdate : W -> mtime_t * W;
  decoder_GetDisplayDate : mtime_t -> W -> mtime_t * W;
  decoder_NewPicture : video_format_t -> W -> option picture_t * W;
  vlc_GetCPUCount : W -> Z * W;
  malloc_sys : W -> option decoder_sys_t * W;    (* contents are not initialised *)
  (* de265.h *)
  LIBDE265_NUMERIC_VERSION : Z;
  de265_isOK : de265_error -> bool;
  de265_new_decoder : W -> option de265_decoder_context * W;
  de265_start_worker_threads : de265_decoder_context -> Z -> W -> de265_error * W;
  de265_reset : de265_decoder_context -> W -> unit * W;
  de265_push_data : de265_decoder_context -> list byte -> mtime_t -> W -> de265_error * W;
  de265_push_NAL : de265_decoder_context -> list byte -> mtime_t -> W -> de265_error * W;
  de265_push_end_of_NAL : de265_decoder_context -> W -> unit * W;
  de265_flush_data : de265_decoder_context -> W -> de265_error * W;
  de265_decode : de265_decoder_context -> W -> (de265_error * Z) * W;
  de265_get_next_picture : de265_decoder_context -> W -> option de265_image * W
}.

(** ** Trace of calls out of the module *)

Inductive vlc_status := VLC_SUCCESS | VLC_EGENERIC | VLC_ENOMEM.

Inductive msg_level := Dbg | Warn | Err.

Inductive event :=
| Ev_reset
| Ev_push_data (data : list byte) (pts : mtime_t)
| Ev_push_NAL (data : list byte) (pts : mtime_t)
| Ev_push_end_of_NAL
| Ev_flush_data
| Ev_decode
| Ev_get_next_picture
| Ev_new_decoder
| Ev_start_worker_threads (threads : Z)
| Ev_block_Release (b : block_t)
| Ev_mdate
| Ev_GetDisplayDate (pts : mtime_t)
| Ev_NewPicture (v : video_format_t)
| Ev_GetCPUCount
| Ev_malloc
| Ev_free
| Ev_msg (lvl : msg_level) (text : string).

(** Calls that enter the decode engine. *)
Definition engine_event (e : event) : bool :=
  match e with
  | Ev_reset | Ev_push_data _ _ | Ev_push_NAL _ _ | Ev_push_end_of_NAL
  | Ev_flush_data | Ev_decode | Ev_get_next_picture
  | Ev_new_decoder | Ev_start_worker_threads _ => true
  | _ => false
  end.

(** Calls that hand stream bytes to the engine. *)
Definition push_event (e : event) : bool :=
  match e with
  | Ev_push_data _ _ | Ev_push_NAL _ _ => true
  | _ => false
  end.

Definition nal_pushes (t : list event) : list (list byte * mtime_t) :=
  flat_map (fun e => match e with Ev_push_NAL d pts => [(d, pts)] | _ => [] end) t.

(** ** Plane copy (the two nested [for] loops at the end of [Decode]) *)

Record memcpy_call := mkCopy {
  copy_dst : Z;        (* offset of the destination pointer in the plane *)
  copy_src : Z;        (* offset of the source pointer in the image plane *)
  copy_size : Z
}.

(** [memcpy(dst + doff, src + soff, size)] on list-backed buffers.  A copy
    that leaves either buffer is undefined in C; here it is clipped. *)
Definition memcpy (dst : list byte) (doff : Z) (src : list byte) (soff size : Z)
  : list byte :=
  let d := Z.to_nat doff in
  let n := Z.to_nat size in
  let chunk := firstn n (skipn (Z.to_nat soff) src) in
  firstn d dst ++ chunk ++ skipn (d + List.length chunk) dst.

(** The inner loop, [lines] iterations left, with the two running pointers. *)
Fixpoint copy_lines (lines : nat) (size src_stride dst_stride : Z)
    (src : list byte) (soff doff : Z) (dst : list byte)
  : list byte * list memcpy_call :=
  match lines with
  | O => (dst, [])
  | S k =>
      let dst1 := memcpy dst doff src soff size in
      let (dst2, log) :=
        copy_lines k size src_stride dst_stride src
                   (soff + src_stride) (doff + dst_stride) dst1 in
      (dst2, mkCopy doff soff size :: log)
  end.

Definition copy_plane (image : de265_image) (plane : nat) (pl : plane_t)
  : plane_t * list memcpy_call :=
  let (src, src_stride) := de265_get_image_plane image plane in
  let dst_stride := i_pitch pl in
  let size := Z.min src_stride dst_stride in
  let (dst, log) :=
    copy_lines (Z.to_nat (i_visible_lines pl)) size src_stride dst_stride
               src 0 0 (p_pixels pl) in
  (mkPlane dst (i_pitch pl) (i_visible_lines pl), log).

(** The outer loop over [pic->p[plane]], starting at index [plane]. *)
Fixpoint copy_planes (image : de265_image) (plane : nat) (pls : list plane_t)
  : list plane_t * list (list memcpy_call) :=
  match pls with
  | [] => ([], [])
  | pl :: rest =>
      let (pl', log) := copy_plane image plane pl in
      let (rest', logs) := copy_planes image (S plane) rest in
      (pl' :: rest', log :: logs)
  end.

(** Total number of bytes handed to [memcpy]. *)
Definition bytes_copied (log : list memcpy_call) : Z :=
  fold_right (fun c acc => copy_size c + acc) 0 log.

(** ** Control flow of [Decode]

    The function has three exits besides falling through: [goto error],
    [return NULL]/[return pic], and (for the model only) the end of the fuel
    that bounds its [while] and [do ... while] loops; that last one keeps the
    state the run had reached. *)

Section Decoder.

Context {W : Type} {ext : External W}.

Record state := mkState {
  st_sys : decoder_sys_t;            (* *dec->p_sys *)
  st_video : video_format_t;         (* dec->fmt_out.video *)
  st_block : option block_t;         (* *pp_block *)
  st_ext : W;
  st_trace : list event
}.

Inductive flow (A : Type) :=
| Next (a : A) (s : state)
| Goto_error (s : state)
| Return (r : option picture_t) (s : state)
| Out_of_fuel (s : state).

Arguments Goto_error {A} s.
Arguments Return {A} r s.
Arguments Out_of_fuel {A} s.

Definition flow_state {A} (f : flow A) : state :=
  match f with
  | Next _ s | Goto_error s | Return _ s | Out_of_fuel s => s
  end.

Definition M (A : Type) := state -> flow A.

Definition ret {A} (a : A) : M A := fun s => Next a s.

Definition bind {A B} (m : M A) (k : A -> M B) : M B :=
  fun s =>
    match m s with
    | Next a s' => k a s'
    | Goto_error s' => Goto_error s'
    | Return r s' => Return r s'
    | Out_of_fuel s' => Out_of_fuel s'
    end.

Notation "x <- m ;; k" := (bind m (fun x => k))
  (at level 61, m at next level, right associativity).
Notation "m ;; k" := (bind m (fun _ => k))
  (at level 61, right associativity).

Definition goto_error {A} : M A := fun s => Goto_error s.
Definition return_ {A} (r : option picture_t) : M A := fun s => Return r s.
Definition out_of_fuel {A} : M A := fun s => Out_of_fuel s.

Definition get_sys : M decoder_sys_t := fun s => Next (st_sys s) s.

Definition modify_sys (f : decoder_sys_t -> decoder_sys_t) : M unit :=
  fun s => Next tt (mkState (f (st_sys s)) (st_video s) (st_block s) (st_ext s) (st_trace s)).

Definition get_video : M video_format_t := fun s => Next (st_video s) s.

Definition set_video (v : video_format_t) : M unit :=
  fun s => Next tt (mkState (st_sys s) v (st_block s) (st_ext s) (st_trace s)).

Definition set_block (b : option block_t) : M unit :=
  fun s => Next tt (mkState (st_sys s) (st_video s) b (st_ext s) (st_trace s)).

(** A call out of the module: run it on the outside world, log it. *)
Definition extern {A} (e : event) (f : W -> A * W) : M A :=
  fun s =>
    let (a, w) := f (st_ext s) in
    Next a (mkState (st_sys s) (st_video s) (st_block s) w (st_trace s ++ [e])).

Definition emit (e : event) : M unit :=
  fun s => Next tt (mkState (st_sys s) (st_video s) (st_block s) (st_ext s) (st_trace s ++ [e])).

Definition msg_Dbg (text : string) : M unit := emit (Ev_msg Dbg text).
Definition msg_Warn (text : string) : M unit := emit (Ev_msg Warn text).
Definition msg_Err (text : string) : M unit := emit (Ev_msg Err text).

Definition flag_set (flags mask : Z) : bool := negb (Z.land flags mask =? 0).

(** [(size_t) x] for an [int x], on a 64-bit [size_t]. *)
Definition to_size_t (x : Z) : Z := x mod 2 ^ 64.

(** *** Lines 102-108: discontinuity and corruption *)

Definition check_flags (block : block_t) : M unit :=
  if flag_set (i_flags block) (Z.lor BLOCK_FLAG_DISCONTINUITY BLOCK_FLAG_CORRUPTED) then
    modify_sys (set_late_frames 0) ;;
    (if flag_set (i_flags block) BLOCK_FLAG_DISCONTINUITY then
       sys <- get_sys ;;
       extern Ev_reset (de265_reset (ctx sys))
     else ret tt) ;;
    goto_error
  else ret tt.

(** *** Lines 110-153: the extradata probe *)

(** The [do ... while (can_decode_more)] loop after the extradata. *)
Fixpoint decode_extra (fuel : nat) : M unit :=
  match fuel with
  | O => out_of_fuel
  | S f =>
      sys <- get_sys ;;
      r <- extern Ev_decode (de265_decode (ctx sys)) ;;
      let (err, more) := (r : de265_error * Z) in
      can_decode_more <-
        match err with
        | DE265_OK => ret more
        | DE265_ERROR_IMAGE_BUFFER_FULL
        | DE265_ERROR_WAITING_FOR_INPUT_DATA => ret 0
        | DE265_other _ =>
            if negb (de265_isOK err) then
              msg_Err "Failed to decode extra data: %s (%d)" ;; goto_error
            else ret more
        end ;;
      if negb (can_decode_more =? 0) then decode_extra f else ret tt
  end.

(** The test of line 115 on the extradata.  [fmt_in.p_extra] is the list of
    its [i_extra] bytes, so the conjunct [extra != NULL] holds whenever
    [extra_length > 3] does: a format with [i_extra > 0] and a NULL
    [p_extra] (which would take the raw branch and hand NULL to
    [de265_push_data]) is outside the embedding. *)
Definition looks_packetized (extra : list byte) : bool :=
  (Z.of_nat (List.length extra) >? 3) &&
  (negb (byte_at extra 0 =? 0) || negb (byte_at extra 1 =? 0) || (byte_at extra 2 >? 1)).

(** Lines 114-129: packetized or raw. *)
Definition probe_extradata (dec : decoder_t) : M unit :=
  sys <- get_sys ;;
  let extra_length := i_extra (fmt_in dec) in
  let extra := p_extra (fmt_in dec) in
  if looks_packetized extra then
    modify_sys (set_packetized true) ;;
    (if extra_length >? 21 then
       modify_sys (set_length_size (Z.land (byte_at extra 21) 3 + 1))
     else ret tt) ;;
    msg_Dbg "Assuming packetized data (%d bytes length)"
  else
    modify_sys (set_packetized false) ;;
    msg_Dbg "Assuming non-packetized data" ;;
    err <- extern (Ev_push_data extra 0) (de265_push_data (ctx sys) extra 0) ;;
    if negb (de265_isOK err) then
      msg_Err "Failed to push extra data: %s (%d)" ;; goto_error
    else ret tt.

Definition check_extradata (fuel : nat) (dec : decoder_t) : M unit :=
  sys <- get_sys ;;
  if check_extra sys then
    let extra_length := i_extra (fmt_in dec) in
    modify_sys (set_check_extra false) ;;
    if extra_length >? 0 then
      probe_extradata dec ;;
      (if 0x00070000 <=? LIBDE265_NUMERIC_VERSION then
         extern Ev_push_end_of_NAL (de265_push_end_of_NAL (ctx sys))
       else ret tt) ;;
      decode_extra fuel
    else ret tt
  else ret tt.

(** *** Lines 155-184: preroll and the late-frame policy *)

Definition check_preroll (block : block_t) : M (bool * bool) :=
  let prerolling := flag_set (i_flags block) BLOCK_FLAG_PREROLL in
  if prerolling then
    modify_sys (set_late_frames 0) ;; ret (prerolling, false)
  else ret (prerolling, true).

(** Lines 162-168.  [mdate() - sys->late_frames_start] is a subtraction of
    two [int64_t]; it is exact here.  The two agree whenever the difference
    is an [int64_t]; where it is not, the C subtraction overflows (undefined
    behaviour), and statements that depend on the outcome of this test carry
    the hypothesis that it does not. *)
Definition drop_always (dec : decoder_t) : M unit :=
  sys <- get_sys ;;
  if negb (b_pace_control dec) && (late_frames sys >? 0) then
    now <- extern Ev_mdate mdate ;;
    if now - late_frames_start sys >? LATE_FRAMES_DROP_ALWAYS_AGE * CLOCK_FREQ then
      modify_sys (fun s => set_late_frames (late_frames s - 1) s) ;;
      msg_Err "more than %d seconds of late video -> dropping frame (computer too slow ?)" ;;
      goto_error
    else ret tt
  else ret tt.

Definition drop_late (dec : decoder_t) (drawpicture : bool) : M bool :=
  sys <- get_sys ;;
  if negb (b_pace_control dec) && (late_frames sys >? LATE_FRAMES_DROP_DECODER) then
    if late_frames sys <? LATE_FRAMES_DROP_HARD then
      ret false
    else
      modify_sys (fun s => set_late_frames (late_frames s - 1) s) ;;
      msg_Warn "More than %d late frames, dropping frame" ;;
      goto_error
  else ret drawpicture.

(** *** Lines 186-226: handing the block to the engine *)

(** The [for] loop that reads the big-endian length prefix. *)
Fixpoint read_length (n : nat) (p_buffer : list byte) (i : nat) (length : Z) : Z :=
  match n with
  | O => length
  | S k =>
      read_length k p_buffer (S i)
        (uint32 (Z.lor (Z.shiftl length 8) (byte_at p_buffer i)))
  end.

(** The [while (i_buffer >= (size_t) sys->length_size)] loop; [p_buffer] is
    what is left of the block, [i_buffer] its length. *)
Fixpoint push_NALs (fuel : nat) (pts : mtime_t) (p_buffer : list byte) : M unit :=
  match fuel with
  | O => out_of_fuel
  | S f =>
      sys <- get_sys ;;
      if to_size_t (length_size sys) <=? Z.of_nat (List.length p_buffer) then
        let length := read_length (Z.to_nat (length_size sys)) p_buffer 0 0 in
        let p_buffer1 := skipn (Z.to_nat (length_size sys)) p_buffer in
        if length >? Z.of_nat (List.length p_buffer1) then
          msg_Err "Buffer underrun while pushing data (%d > %ld)" ;; goto_error
        else
          let nal := firstn (Z.to_nat length) p_buffer1 in
          err <- extern (Ev_push_NAL nal pts) (de265_push_NAL (ctx sys) nal pts) ;;
          if negb (de265_isOK err) then
            msg_Err "Failed to push data: %s (%d)" ;; goto_error
          else push_NALs f pts (skipn (Z.to_nat length) p_buffer1)
      else ret tt
  end.

Definition push_block (fuel : nat) (block : block_t) : M unit :=
  sys <- get_sys ;;
  if i_buffer block >? 0 then
    if packetized sys then
      push_NALs fuel (i_pts block) (p_buffer block)
    else
      err <- extern (Ev_push_data (p_buffer block) (i_pts block))
                    (de265_push_data (ctx sys) (p_buffer block) (i_pts block)) ;;
      if negb (de265_isOK err) then
        msg_Err "Failed to push data: %s (%d)" ;; goto_error
      else ret tt
  else
    err <- extern Ev_flush_data (de265_flush_data (ctx sys)) ;;
    if negb (de265_isOK err) then
      msg_Err "Failed to flush data: %s (%d)" ;; goto_error
    else ret tt.

Definition release_block (block : block_t) : M unit :=
  emit (Ev_block_Release block) ;; set_block None.

(** *** Lines 230-281: the drain loop *)

(** The inner [do ... while (image == NULL && can_decode_more)]. *)
Fixpoint next_image (fuel : nat) : M (option de265_image) :=
  match fuel with
  | O => out_of_fuel
  | S f =>
      sys <- get_sys ;;
      r <- extern Ev_decode (de265_decode (ctx sys)) ;;
      let (err, more) := (r : de265_error * Z) in
      can_decode_more <-
        match err with
        | DE265_OK => ret more
        | DE265_ERROR_IMAGE_BUFFER_FULL
        | DE265_ERROR_WAITING_FOR_INPUT_DATA => ret 0
        | DE265_other _ =>
            if negb (de265_isOK err) then
              msg_Err "Failed to decode frame: %s (%d)" ;; return_ None
            else ret more
        end ;;
      image <- extern Ev_get_next_picture (de265_get_next_picture (ctx sys)) ;;
      match image with
      | None => if negb (can_decode_more =? 0) then next_image f else ret None
      | Some _ => ret image
      end
  end.

(** Lines 268-280: the late-frame accounting for one pulled image. *)
Definition display_date_of (prerolling : bool) (pts : mtime_t) : M mtime_t :=
  if negb prerolling then extern (Ev_GetDisplayDate pts) (decoder_GetDisplayDate pts)
  else ret 0.

Definition is_late (display_date : mtime_t) : M bool :=
  if display_date >? 0 then
    now <- extern Ev_mdate mdate ;;
    ret (display_date <=? now)
  else ret false.

Definition account_late (display_date : mtime_t) : M unit :=
  late <- is_late display_date ;;
  if late then
    modify_sys (fun s => set_late_frames (late_frames s + 1) s) ;;
    sys <- get_sys ;;
    if late_frames sys =? 1 then
      now <- extern Ev_mdate mdate ;;
      modify_sys (set_late_frames_start now)
    else ret tt
  else
    modify_sys (set_late_frames 0).

Definition lateness_step (prerolling : bool) (pts : mtime_t) : M unit :=
  display_date <- display_date_of prerolling pts ;;
  account_late display_date.

(** The outer [do ... while (!drawpicture)]. *)
Fixpoint drain (fuel inner : nat) (prerolling drawpicture : bool)
  : M (de265_image * mtime_t) :=
  match fuel with
  | O => out_of_fuel
  | S f =>
      image <- next_image inner ;;
      match image with
      | None => return_ None
      | Some image =>
          if negb (is_420 (image_chroma image)) then
            msg_Err "Unsupported output colorspace %d" ;; return_ None
          else
            let pts := image_PTS image in
            lateness_step prerolling pts ;;
            if negb drawpicture then drain f inner prerolling drawpicture
            else ret (image, pts)
      end
  end.

(** *** Lines 283-317: the output picture *)

Definition update_geometry (image : de265_image) : M unit :=
  v <- get_video ;;
  let width := image_width image in
  let height := image_height image in
  let v1 :=
    if negb (width =? to_int (i_width v)) || negb (height =? to_int (i_height v)) then
      mkVideo (uint32 width) (uint32 height) (i_visible_width v) (i_visible_height v)
    else v in
  let v2 :=
    if negb (width =? to_int (i_visible_width v1))
       || negb (height =? to_int (i_visible_height v1)) then
      mkVideo (i_width v1) (i_height v1) (uint32 width) (uint32 height)
    else v1 in
  set_video v2.

Definition materialize (image : de265_image) (pts : mtime_t) : M picture_t :=
  update_geometry image ;;
  v <- get_video ;;
  pic <- extern (Ev_NewPicture v) (decoder_NewPicture v) ;;
  match pic with
  | None => return_ None
  | Some pic =>
      let (planes, _) := copy_planes image 0 (p pic) in
      ret (mkPicture planes true pts)
  end.

(** *** [Decode], from line 102 on, for a block that is not NULL *)

(** Lines 102-184: everything that can abandon the block before its bytes
    are looked at; yields [prerolling] and [drawpicture]. *)
Definition admission (fuel : nat) (dec : decoder_t) (block : block_t) : M (bool * bool) :=
  check_flags block ;;
  check_extradata fuel dec ;;
  pd <- check_preroll block ;;
  let (prerolling, drawpicture) := (pd : bool * bool) in
  drop_always dec ;;
  drawpicture <- drop_late dec drawpicture ;;
  ret (prerolling, drawpicture).

(** Lines 230-317: drain the engine and build the picture. *)
Definition output (fuel : nat) (prerolling drawpicture : bool) : M picture_t :=
  ip <- drain fuel fuel prerolling drawpicture ;;
  let (image, pts) := (ip : de265_image * mtime_t) in
  materialize image pts.

Definition Decode_block (fuel : nat) (dec : decoder_t) (block : block_t) : M picture_t :=
  pd <- admission fuel dec block ;;
  let (prerolling, drawpicture) := (pd : bool * bool) in
  push_block fuel block ;;
  release_block block ;;
  output fuel prerolling drawpicture.

(** The [error:] label. *)
Definition at_error (s : state) : state :=
  match st_block s with
  | Some b =>
      mkState (st_sys s) (st_video s) None (st_ext s) (st_trace s ++ [Ev_block_Release b])
  | None => s
  end.

(** [Decode]: the picture returned (or NULL) and the state left behind;
    [None] when the fuel ran out inside one of the loops. *)
Definition finish (f : flow picture_t) : option (option picture_t * state) :=
  match f with
  | Next pic s' => Some (Some pic, s')
  | Return r s' => Some (r, s')
  | Goto_error s' => Some (None, at_error s')
  | Out_of_fuel _ => None
  end.

Definition Decode (fuel : nat) (dec : decoder_t) (s : state)
  : option (option picture_t * state) :=
  match st_block s with
  | None => Some (None, s)
  | Some block => finish (Decode_block fuel dec block s)
  end.

(** The caller: one [Decode] call per block, in order. *)
Definition offer (b : block_t) (s : state) : state :=
  mkState (st_sys s) (st_video s) (Some b) (st_ext s) (st_trace s).

Fixpoint Decode_blocks (fuel : nat) (dec : decoder_t) (s : state) (blocks : list block_t)
  : option (list (option picture_t) * state) :=
  match blocks with
  | [] => Some ([], s)
  | b :: rest =>
      match Decode fuel dec (offer b s) with
      | None => None
      | Some (r, s1) =>
          match Decode_blocks fuel dec s1 rest with
          | None => None
          | Some (rs, s2) => Some (r :: rs, s2)
          end
      end
  end.

(** ** [Open]: probe the decoder

    The result is the status, the decoder (output format, callback and
    [p_sys] as [Open] leaves them), the session record behind [dec->p_sys]
    while it is allocated ([None] both when nothing was allocated and when
    the allocation was freed again), the outside world and the trace.
    After a failed [de265_new_decoder] the record is freed while
    [dec->p_sys] still holds its address: the decoder returned has
    [p_sys = Ptr_malloc] and the record is [None]. *)

(** Line 351, [int threads = __MIN(vlc_GetCPUCount() * 2, MAX_THREAD_COUNT)]:
    the macro is [((a) < (b)) ? (a) : (b)], so the count is read for the
    comparison and, when twice the count is below the maximum, read again
    for the value.  The count is [unsigned], the comparison is made in
    [unsigned], and the value is converted to [int]. *)
Definition thread_count (w : W) : Z * W * list event :=
  let (cpus, w1) := vlc_GetCPUCount w in
  if uint32 (cpus * 2) <? MAX_THREAD_COUNT then
    let (cpus', w2) := vlc_GetCPUCount w1 in
    (to_int (uint32 (cpus' * 2)), w2, [Ev_GetCPUCount; Ev_GetCPUCount])
  else
    (MAX_THREAD_COUNT, w1, [Ev_GetCPUCount]).

Definition Open (dec : decoder_t) (w : W) (t : list event)
  : vlc_status * decoder_t * option decoder_sys_t * W * list event :=
  if negb (i_codec (fmt_in dec) =? VLC_CODEC_HEVC) then
    (VLC_EGENERIC, dec, None, w, t)
  else
    let (m, w1) := malloc_sys w in
    match m with
    | None => (VLC_ENOMEM, dec, None, w1, t ++ [Ev_malloc])
    | Some sys0 =>
        let dec1 := set_p_sys Ptr_malloc dec in
        let t1 := t ++ [Ev_malloc; Ev_msg Dbg "using libde265 version %s"] in
        let (c, w2) := de265_new_decoder w1 in
        match c with
        | None =>
            (VLC_EGENERIC, dec1, None, w2,
             t1 ++ [Ev_new_decoder; Ev_msg Err "Failed to initialize decoder"; Ev_free])
        | Some c =>
            let '(threads, w3, t_cpu) := thread_count w2 in
            let (err, w4) := de265_start_worker_threads c threads w3 in
            let t2 :=
              t1 ++ [Ev_new_decoder] ++ t_cpu
                 ++ [Ev_start_worker_threads threads;
                     if negb (de265_isOK err)
                     then Ev_msg Err "Failed to start worker threads: %s (%d)"
                     else Ev_msg Dbg "started %d worker threads"] in
            let out :=
              mkEs VIDEO_ES VLC_CODEC_I420 (b_packetized (fmt_out dec))
                   (p_extra (fmt_out dec))
                   (mkVideo (i_width (video (fmt_in dec))) (i_height (video (fmt_in dec)))
                            (i_visible_width (video (fmt_out dec)))
                            (i_visible_height (video (fmt_out dec)))) in
            let dec' := mkDecoder (fmt_in dec) out (b_pace_control dec) true true
                                  Ptr_malloc in
            let sys :=
              mkSys c (late_frames_start sys0) DEFAULT_LENGTH_SIZE 0 true
                    (b_packetized (fmt_in dec)) in
            (VLC_SUCCESS, dec', Some sys, w4, t2)
        end
    end.

End Decoder.

Arguments state W : clear implicits.
Arguments flow W A : clear implicits.
Arguments Next {W A} a s.
Arguments Goto_error {W A} s.
Arguments Return {W A} r s.
Arguments Out_of_fuel {W A} s.

(** ** Length-prefixed framing, as the specification words it

    A packetized block is a concatenation of NAL units, each preceded by its
    length written as [ls] big-endian bytes.  This is the sender's side; the
    module's reader is [read_length] and [push_NALs] above. *)

Definition byte_of (v : Z) : byte :=
  match Byte.of_N (Z.to_N v) with
  | Some b => b
  | None => x00
  end.

Fixpoint be_bytes (n : nat) (v : Z) : list byte :=
  match n with
  | O => []
  | S k => byte_of ((v / 256 ^ Z.of_nat k) mod 256) :: be_bytes k v
  end.

Definition frame_nal (ls : nat) (nal : list byte) : list byte :=
  be_bytes ls (Z.of_nat (List.length nal)) ++ nal.

Definition frame (ls : nat) (nals : list (list byte)) : list byte :=
  flat_map (frame_nal ls) nals.

(** The length a prefix declares: its bytes as a big-endian number. *)
Fixpoint be_value (prefix : list byte) : Z :=
  match prefix with
  | [] => 0
  | b :: rest => byte_val b * 256 ^ Z.of_nat (List.length rest) + be_value rest
  end.

(** A length that fits its prefix. *)
Definition fits (ls : nat) (nal : list byte) : Prop :=
  Z.of_nat (List.length nal) < 256 ^ Z.of_nat ls.

(** Whether the engine takes each of [nals] in turn, starting from [w]. *)
Fixpoint accepts_all {W} {ext : External W} (c : de265_decoder_context)
    (pts : mtime_t) (nals : list (list byte)) (w : W) : bool :=
  match nals with
  | [] => true
  | nal :: rest =>
      let (err, w') := de265_push_NAL c nal pts w in
      de265_isOK err && accepts_all c pts rest w'
  end.

(** The outside world after those pushes. *)
Fixpoint after_pushes {W} {ext : External W} (c : de265_decoder_context)
    (pts : mtime_t) (nals : list (list byte)) (w : W) : W :=
  match nals with
  | [] => w
  | nal :: rest => after_pushes c pts rest (snd (de265_push_NAL c nal pts w))
  end.

(** ** A scripted outside world

    An engine that reports progress for a prepared number of decode steps,
    then stalls and hands out a prepared queue of images, and that answers
    every push with a prepared status; a host whose clock advances by a
    fixed amount per reading.  The constants are those of VLC 2.2 and
    libde265 0.8. *)

Module Mock.

Record world := mkWorld {
  now : mtime_t;                   (* next reading of the clock *)
  tick : mtime_t;                  (* advance per reading *)
  delay : mtime_t;                 (* display date = pts + delay *)
  images : list de265_image;       (* decoded images waiting in the engine *)
  push_status : de265_error;       (* answer to push_data and push_NAL *)
  pad : Z;                         (* pitch of a new picture = width + pad *)
  busy : nat                       (* decode steps left before the images show *)
}.

Definition isOK (e : de265_error) : bool :=
  match e with
  | DE265_OK => true
  | DE265_other code => 1000 <=? code
  | _ => false
  end.

Definition blank_plane (width height pad : Z) : plane_t :=
  mkPlane (repeat x00 (Z.to_nat ((width + pad) * height))) (width + pad) height.

Definition new_picture (v : video_format_t) (w : world) : option picture_t * world :=
  (Some (mkPicture
           [blank_plane (i_width v) (i_height v) (pad w);
            blank_plane (i_width v / 2) (i_height v / 2) (pad w);
            blank_plane (i_width v / 2) (i_height v / 2) (pad w)]
           false 0), w).

Definition garbage : decoder_sys_t := mkSys 77%N 123456 9 5 false true.

Definition step (c : de265_decoder_context) (w : world) : (de265_error * Z) * world :=
  match busy w with
  | O => ((DE265_ERROR_WAITING_FOR_INPUT_DATA, 0), w)
  | S n =>
      ((DE265_OK, 1),
       mkWorld (now w) (tick w) (delay w) (images w) (push_status w) (pad w) n)
  end.

Definition pull (c : de265_decoder_context) (w : world) : option de265_image * world :=
  match busy w, images w with
  | O, img :: rest =>
      (Some img, mkWorld (now w) (tick w) (delay w) rest (push_status w) (pad w) O)
  | _, _ => (None, w)
  end.

#[export] Instance external : External world := {|
  BLOCK_FLAG_DISCONTINUITY := 0x0001;
  BLOCK_FLAG_CORRUPTED := 0x1000;
  BLOCK_FLAG_PREROLL := 0x0800;
  CLOCK_FREQ := 1000000;
  VLC_CODEC_HEVC := 0x63766568;
  VLC_CODEC_I420 := 0x30323449;
  VIDEO_ES := 1;
  mdate := fun w =>
    (now w, mkWorld (now w + tick w) (tick w) (delay w) (images w) (push_status w)
                    (pad w) (busy w));
  decoder_GetDisplayDate := fun pts w => (pts + delay w, w);
  decoder_NewPicture := new_picture;
  vlc_GetCPUCount := fun w => (4, w);
  malloc_sys := fun w => (Some garbage, w);
  LIBDE265_NUMERIC_VERSION := 0x00080000;
  de265_isOK := isOK;
  de265_new_decoder := fun w => (Some 1%N, w);
  de265_start_worker_threads := fun _ _ w => (DE265_OK, w);
  de265_reset := fun _ w =>
    (tt, mkWorld (now w) (tick w) (delay w) [] (push_status w) (pad w) O);
  de265_push_data := fun _ _ _ w => (push_status w, w);
  de265_push_NAL := fun _ _ _ w => (push_status w, w);
  de265_push_end_of_NAL := fun _ w => (tt, w);
  de265_flush_data := fun _ w => (DE265_OK, w);
  de265_decode := step;
  de265_get_next_picture := pull
|}.

(** A 4x2 image in 4:2:0 with stride 6 on the luma plane. *)
Definition image0 (pts : mtime_t) : de265_image :=
  mkImage 4 2 de265_chroma_420 pts
    [([x01; x02; x03; x04; xaa; xaa; x05; x06; x07; x08; xaa; xaa], 6);
     ([x10; x11; xbb; xbb], 4);
     ([x20; x21; xcc; xcc], 4)].

Definition dec0 (pace packetized_in : bool) (extra : list byte) : decoder_t :=
  mkDecoder (mkEs 1 0x63766568 packetized_in extra (mkVideo 4 2 4 2))
            (mkEs 1 0x30323449 false [] (mkVideo 4 2 4 2))
            pace true true Ptr_malloc.

Definition sys0 (late : Z) (start : mtime_t) (ls : Z) (chk pk : bool) : decoder_sys_t :=
  mkSys 1%N start ls late chk pk.

Definition world0 (imgs : list de265_image) (st : de265_error) : world :=
  mkWorld 1000 1 100 imgs st 0 O.

Definition start0 (sys : decoder_sys_t) (b : option block_t) (w : world) : state world :=
  mkState sys (mkVideo 4 2 4 2) b w [].

(** Blocks: four raw bytes; no bytes at all; the same with the preroll flag. *)
Definition raw_block : block_t := mkBlock 0 [x00; x00; x01; x42] 500.
Definition empty_block : block_t := mkBlock 0 [] 500.
Definition preroll_block : block_t := mkBlock 0x0800 [x00; x00; x01; x42] 500.

(** A session past the extradata, raw stream, [late] late frames since 900. *)
Definition late_session (late : Z) (b : option block_t) (imgs : list de265_image)
  : state world :=
  start0 (sys0 late 900 4 false false) b (world0 imgs DE265_OK).

(** A packetized session with 2-byte lengths, past the extradata, on time. *)
Definition packetized_session (b : option block_t) (st : de265_error) : state world :=
  start0 (sys0 0 900 2 false true) b (world0 [] st).

(** Two units, "AB" and "C", behind 2-byte lengths; and one unit "A"
    followed by a prefix that declares 5 bytes where 2 follow. *)
Definition framed_block : block_t :=
  mkBlock 0 [x00; x02; x41; x42; x00; x01; x43] 500.
Definition broken_block : block_t :=
  mkBlock 0 [x00; x01; x41; x00; x05; x01; x02] 500.

(** Extradata: 23 bytes of a configuration record whose byte 21 is 01, and
    a single byte. *)
Definition config_extra : list byte := x01 :: repeat x00 20 ++ [x01; x00].
Definition short_extra : list byte := [x01].

(** Extradata of 23 bytes announcing 4-byte lengths, and a block of one
    10-byte unit at 1000. *)
Definition config_extra4 : list byte := x01 :: repeat x00 20 ++ [x03; x00].
Definition unit_block : block_t :=
  mkBlock 0 ([x00; x00; x00; x0a] ++ repeat x42 10) 1000.

(** A session as [Open] leaves it, before the first block. *)
Definition fresh_session (pk : bool) (b : option block_t) : state world :=
  start0 (sys0 0 123456 4 true pk) b (world0 [] DE265_OK).

(** The first block of a session whose engine, after two decode steps, has
    one image stamped 1000. *)
Definition picture_session : state world :=
  mkState (sys0 0 123456 4 true false) (mkVideo 4 2 4 2) (Some unit_block)
          (mkWorld 1000 1 100 [image0 1000] DE265_OK 0 2) [].

(** An engine that refuses every push; a clock that shows six seconds. *)
Definition refusing_world : world := world0 [] (DE265_other 5).
Definition stale_world : world := mkWorld 6000000 1 100 [] DE265_OK 0 O.

(** The unit "AB" behind a 2-byte length, and one byte more. *)
Definition trailing_block : block_t := mkBlock 0 [x00; x02; x41; x42; x00] 500.

(** A decoder for H.264 input. *)
Definition other_dec : decoder_t :=
  mkDecoder (mkEs 1 0x34363268 true [] (mkVideo 4 2 4 2))
            (mkEs 0 0 false [] (mkVideo 0 0 0 0))
            false false false Ptr_before.

Definition free_decoder (c : de265_decoder_context) (w : world) : de265_error * world :=
  (DE265_OK, w).

(** The same world with another engine factory and another CPU count. *)
Definition with_host (new_decoder : world -> option de265_decoder_context * world)
    (cpu_count : world -> Z * world) : External world := {|
  BLOCK_FLAG_DISCONTINUITY := 0x0001;
  BLOCK_FLAG_CORRUPTED := 0x1000;
  BLOCK_FLAG_PREROLL := 0x0800;
  CLOCK_FREQ := 1000000;
  VLC_CODEC_HEVC := 0x63766568;
  VLC_CODEC_I420 := 0x30323449;
  VIDEO_ES := 1;
  mdate := fun w =>
    (now w, mkWorld (now w + tick w) (tick w) (delay w) (images w) (push_status w)
                    (pad w) (busy w));
  decoder_GetDisplayDate := fun pts w => (pts + delay w, w);
  decoder_NewPicture := new_picture;
  vlc_GetCPUCount := cpu_count;
  malloc_sys := fun w => (Some garbage, w);
  LIBDE265_NUMERIC_VERSION := 0x00080000;
  de265_isOK := isOK;
  de265_new_decoder := new_decoder;
  de265_start_worker_threads := fun _ _ w => (DE265_OK, w);
  de265_reset := fun _ w =>
    (tt, mkWorld (now w) (tick w) (delay w) [] (push_status w) (pad w) O);
  de265_push_data := fun _ _ _ w => (push_status w, w);
  de265_push_NAL := fun _ _ _ w => (push_status w, w);
  de265_push_end_of_NAL := fun _ w => (tt, w);
  de265_flush_data := fun _ w => (DE265_OK, w);
  de265_decode := step;
  de265_get_next_picture := pull
|}.

(** A host whose pictures have a pitch of 3 bytes more than their width. *)
Definition padded_session : state world :=
  start0 (sys0 0 900 4 false false) None (mkWorld 1000 1 100 [] DE265_OK 3 O).


(** A decoder for HEVC input that has not been opened. *)
Definition fresh_dec : decoder_t := set_p_sys Ptr_before (dec0 false true []).

(** A host without an engine; and a host whose CPU count goes from 4 to 100
    between two readings (the count is read off the clock field, which each
    reading advances). *)
Definition no_engine : External world :=
  with_host (fun w => (None, w)) (fun w => (4, w)).

Definition cpu_hotplug : External world :=
  with_host (fun w => (Some 1%N, w))
            (fun w => (if now w <=? 1000 then 4 else 100,
                       mkWorld (now w + tick w) (tick w) (delay w) (images w)
                               (push_status w) (pad w) (busy w))).

End Mock.

(** ** Vocabulary of the statements *)

(** A block with none of the three flags [Decode] looks at. *)
Definition plain_block {W} {ext : External W} (b : block_t) : Prop :=
  Z.land (i_flags b) BLOCK_FLAG_DISCONTINUITY = 0
  /\ Z.land (i_flags b) BLOCK_FLAG_CORRUPTED = 0
  /\ Z.land (i_flags b) BLOCK_FLAG_PREROLL = 0.

Definition release_event (e : event) : bool :=
  match e with Ev_block_Release _ => true | _ => false end.

(** The state after the engine took [nals], one [de265_push_NAL] each. *)
Definition pushed {W} {ext : External W} (pts : mtime_t) (nals : list (list byte))
    (s : state W) : state W :=
  mkState (st_sys s) (st_video s) (st_block s)
          (after_pushes (ctx (st_sys s)) pts nals (st_ext s))
          (st_trace s ++ map (fun nal => Ev_push_NAL nal pts) nals).

(** [keeps proj m]: wherever [m] stops (also when it runs out of fuel), the
    part [proj] of the state is what it was.  [emits_only P m]: the trace
    has only grown, and by events that satisfy [P]. *)
Definition keeps {W X A} (proj : state W -> X) (m : M (W := W) A) : Prop :=
  forall s, proj (flow_state (m s)) = proj s.

Definition emits_only {W A} (P : event -> bool) (m : M (W := W) A) : Prop :=
  forall s, exists evs,
    st_trace (flow_state (m s)) = st_trace s ++ evs /\ forallb P evs = true.

(** [extends m m']: wherever [m] ends without running out of fuel, [m']
    ends the same way in the same state. *)
Definition extends {W A} (m m' : M (W := W) A) : Prop :=
  forall s, match m s with
            | Out_of_fuel _ => True
            | f => m' s = f
            end.

(** Sessions in which late frames have been counted have looked at their
    extradata. *)
Definition extra_checked (y : decoder_sys_t) : Prop :=
  late_frames y = 0 \/ check_extra y = false.

Definition not_push (e : event) : bool := negb (push_event e).

Definition not_nal_push (e : event) : bool :=
  match e with Ev_push_NAL _ _ => false | _ => true end.

(** The parts of what [Open] returns. *)
Definition open_status {W} (r : vlc_status * decoder_t * option decoder_sys_t * W * list event)
  : vlc_status := fst (fst (fst (fst r))).
Definition open_p_sys {W} (r : vlc_status * decoder_t * option decoder_sys_t * W * list event)
  : option decoder_sys_t := snd (fst (fst r)).




(** ** [Close]: decoder destruction

    [de265_free_decoder] is the library's; it is a parameter here.  The
    calls made are returned in order. *)

Inductive close_call :=
| Cl_free_decoder (c : de265_decoder_context)
| Cl_free_sys.

Definition Close {W} (de265_free_decoder : de265_decoder_context -> W -> de265_error * W)
    (sys : decoder_sys_t) (w : W) : W * list close_call :=
  let (_, w1) := de265_free_decoder (ctx sys) w in
  (w1, [Cl_free_decoder (ctx sys); Cl_free_sys]).

(** ** Further vocabulary *)

(** [exits g rp m]: [m] takes the error exit only if [g] allows it, and
    returns from [Decode] only with a value that [rp] allows. *)
Definition exits {W A} (g : bool) (rp : option picture_t -> bool) (m : M (W := W) A)
  : Prop :=
  forall s, match m s with
            | Goto_error _ => g = true
            | Return r _ => rp r = true
            | _ => True
            end.

Definition no_value (r : option picture_t) : bool := false.
Definition null_only (r : option picture_t) : bool :=
  match r with None => true | Some _ => false end.

(** [yields P m]: when [m] falls through, its value satisfies [P]. *)
Definition yields {W A} (P : A -> Prop) (m : M (W := W) A) : Prop :=
  forall s a s', m s = Next a s' -> P a.

(** [sys_inv Q m]: a property of the session that holds when [m] starts
    holds wherever [m] stops. *)
Definition sys_inv {W A} (Q : decoder_sys_t -> Prop) (m : M (W := W) A) : Prop :=
  forall s, Q (st_sys s) -> Q (st_sys (flow_state (m s))).

(** The part of the session that is not late-frame accounting. *)
Definition config (y : decoder_sys_t) : de265_decoder_context * Z * bool * bool :=
  (ctx y, length_size y, packetized y, check_extra y).

(** The calls each stage of [Decode] can make. *)
Definition admission_event (e : event) : bool :=
  match e with
  | Ev_reset | Ev_push_data _ _ | Ev_push_end_of_NAL | Ev_decode | Ev_mdate
  | Ev_msg _ _ => true
  | _ => false
  end.

Definition push_stage_event (e : event) : bool :=
  match e with
  | Ev_push_data _ _ | Ev_push_NAL _ _ | Ev_flush_data | Ev_msg _ _ => true
  | _ => false
  end.

Definition output_event (e : event) : bool :=
  match e with
  | Ev_decode | Ev_get_next_picture | Ev_GetDisplayDate _ | Ev_mdate
  | Ev_NewPicture _ | Ev_msg _ _ => true
  | _ => false
  end.

Definition not_release (e : event) : bool := negb (release_event e).

(** The state after lines 227-228 ([block_Release], [*pp_block = NULL]). *)
Definition released {W} (block : block_t) (s : state W) : state W :=
  mkState (st_sys s) (st_video s) None (st_ext s) (st_trace s ++ [Ev_block_Release block]).

(** The decoder and the trace [Open] returns. *)
Definition open_dec {W} (r : vlc_status * decoder_t * option decoder_sys_t * W * list event)
  : decoder_t := snd (fst (fst (fst r))).
Definition open_trace {W} (r : vlc_status * decoder_t * option decoder_sys_t * W * list event)
  : list event := snd r.

Definition free_event (e : event) : bool :=
  match e with Ev_free => true | _ => false end.

(** The thread counts [Open] asked for. *)
Definition thread_requests (t : list event) : list Z :=
  flat_map (fun e => match e with Ev_start_worker_threads n => [n] | _ => [] end) t.

Definition cpu_count_event (e : event) : bool :=
  match e with Ev_GetCPUCount => true | _ => false end.

(** The ranges of a C [int] and of an [int64_t]. *)
Definition int_range (x : Z) : Prop := - 2 ^ 31 <= x < 2 ^ 31.
Definition int64_range (x : Z) : Prop := - 2 ^ 63 <= x < 2 ^ 63.

(** The size of the output format, read the way lines 287 and 291 read it. *)
Definition format_size (v : video_format_t) : Z * Z * Z * Z :=
  (to_int (i_width v), to_int (i_height v),
   to_int (i_visible_width v), to_int (i_visible_height v)).

Definition image_size (image : de265_image) : Z * Z * Z * Z :=
  (image_width image, image_height image, image_width image, image_height image).

(** What the two nested loops of lines 300-312 do to plane [i]: [pl] is the
    plane as the host allocated it, [pl'] the plane after the copy, [log]
    the [memcpy] calls made.  The plane keeps its pitch and its number of
    lines; one call is made per visible line, for min(source stride, pitch)
    bytes, line [k] at [k] strides in the source and at [k] pitches in the
    destination; and, for buffers that hold their lines (a copy that leaves
    a buffer is undefined in C), the bytes of the destination are: in each
    visible line the first min(source stride, pitch) bytes are those of the
    same line of the source, and every other byte of the buffer is what it
    was. *)
Definition plane_copied (image : de265_image) (i : nat) (pl pl' : plane_t)
    (log : list memcpy_call) : Prop :=
  let src := fst (de265_get_image_plane image i) in
  let src_stride := snd (de265_get_image_plane image i) in
  let lines := i_visible_lines pl in
  let size := Z.min src_stride (i_pitch pl) in
  i_pitch pl' = i_pitch pl
  /\ i_visible_lines pl' = lines
  /\ log = map (fun k => mkCopy (Z.of_nat k * i_pitch pl) (Z.of_nat k * src_stride) size)
               (seq 0 (Z.to_nat lines))
  /\ Z.of_nat (List.length log) = lines
  /\ bytes_copied log = size * lines
  /\ (0 <= src_stride -> 0 <= i_pitch pl ->
      lines * src_stride <= Z.of_nat (List.length src) ->
      lines * i_pitch pl <= Z.of_nat (List.length (p_pixels pl)) ->
      List.length (p_pixels pl') = List.length (p_pixels pl)
      /\ (forall line j, 0 <= line < lines -> 0 <= j < size ->
          nth (Z.to_nat (line * i_pitch pl + j)) (p_pixels pl') x00
          = nth (Z.to_nat (line * src_stride + j)) src x00)
      /\ (forall n : nat,
          (forall line, 0 <= line < lines ->
             ~ (line * i_pitch pl <= Z.of_nat n < line * i_pitch pl + size)) ->
          nth n (p_pixels pl') x00 = nth n (p_pixels pl) x00)).

(** A block with neither of the two flags that abandon it at line 102. *)
Definition unflagged {W} {ext : External W} (b : block_t) : Prop :=
  flag_set (i_flags b) (Z.lor BLOCK_FLAG_DISCONTINUITY BLOCK_FLAG_CORRUPTED) = false.

(** * Properties *)

#[local] Arguments Z.mul : simpl never.
#[local] Arguments Z.add : simpl never.
#[local] Arguments Z.sub : simpl never.
#[local] Arguments Z.pow : simpl never.
#[local] Arguments Z.modulo : simpl never.
#[local] Arguments Z.land : simpl never.
#[local] Arguments Z.lor : simpl never.
#[local] Arguments Z.of_nat : simpl never.
#[local] Arguments Z.to_nat : simpl never.

(** ** Small facts about flags and the trace *)

Section Facts.

Context {W : Type} {ext : External W}.

Lemma flag_set_lor (flags a b : Z) :
  flag_set flags (Z.lor a b) = flag_set flags a || flag_set flags b.
Proof.
  unfold flag_set. rewrite Z.land_lor_distr_r.
  destruct (Z.eqb_spec (Z.land flags a) 0) as [Ha | Ha];
    destruct (Z.eqb_spec (Z.land flags b) 0) as [Hb | Hb]; simpl.
  - rewrite Ha, Hb. reflexivity.
  - destruct (Z.eqb_spec (Z.lor (Z.land flags a) (Z.land flags b)) 0) as [H | H];
      [apply Z.lor_eq_0_iff in H; tauto | reflexivity].
  - destruct (Z.eqb_spec (Z.lor (Z.land flags a) (Z.land flags b)) 0) as [H | H];
      [apply Z.lor_eq_0_iff in H; tauto | reflexivity].
  - destruct (Z.eqb_spec (Z.lor (Z.land flags a) (Z.land flags b)) 0) as [H | H];
      [apply Z.lor_eq_0_iff in H; tauto | reflexivity].
Qed.

Lemma flag_set_true (flags mask : Z) :
  flag_set flags mask = true <-> Z.land flags mask <> 0.
Proof.
  unfold flag_set. destruct (Z.eqb_spec (Z.land flags mask) 0); simpl; split;
    congruence.
Qed.

Lemma state_eta (s : state W) :
  mkState (st_sys s) (st_video s) (st_block s) (st_ext s) (st_trace s) = s.
Proof. destruct s; reflexivity. Qed.

End Facts.

(** ** Null blocks, flagged blocks *)

Section Abandon.

Context {W : Type} {ext : External W}.

(** C2 (as amended): a decode call whose block is NULL returns no picture
    and leaves the whole state as it was: session, outside world and trace,
    so it makes no call at all. *)
Theorem Decode_null_block_noop (fuel : nat) (dec : decoder_t) (s : state W) :
  st_block s = None ->
  Decode fuel dec s = Some (None, s).
Proof.
  intros H. unfold Decode. rewrite H. reflexivity.
Qed.

(** C8: a block carrying the discontinuity or the corrupted flag, in any
    session state and with any fuel, ends the call with no picture; the
    late-frame counter is 0, the block has been released, the engine has
    been reset exactly when the discontinuity flag is set, and nothing else
    has been called: no push, no decode step. *)
Theorem Decode_flagged_block (fuel : nat) (dec : decoder_t) (s : state W) (block : block_t) :
  st_block s = Some block ->
  Z.land (i_flags block) BLOCK_FLAG_DISCONTINUITY <> 0
  \/ Z.land (i_flags block) BLOCK_FLAG_CORRUPTED <> 0 ->
  let disc := flag_set (i_flags block) BLOCK_FLAG_DISCONTINUITY in
  Decode fuel dec s =
  Some (None,
        mkState (set_late_frames 0 (st_sys s)) (st_video s) None
                (if disc then snd (de265_reset (ctx (st_sys s)) (st_ext s)) else st_ext s)
                (st_trace s ++ (if disc then [Ev_reset] else [])
                            ++ [Ev_block_Release block])).
Proof.
  intros Hb Hf disc.
  assert (Hm : flag_set (i_flags block)
                 (Z.lor BLOCK_FLAG_DISCONTINUITY BLOCK_FLAG_CORRUPTED) = true).
  { rewrite flag_set_lor. apply orb_true_iff.
    destruct Hf as [Hf | Hf]; [left | right]; apply flag_set_true; exact Hf. }
  unfold Decode. rewrite Hb.
  unfold Decode_block, admission, check_flags, bind. rewrite Hm.
  subst disc. destruct (flag_set (i_flags block) BLOCK_FLAG_DISCONTINUITY).
  - unfold extern. cbn.
    destruct (de265_reset (ctx (st_sys s)) (st_ext s)) as [u w] eqn:E.
    cbn. unfold at_error. cbn. rewrite Hb, <- app_assoc. reflexivity.
  - cbn. unfold at_error. cbn. rewrite Hb. reflexivity.
Qed.

End Abandon.

(** ** The late-frame policy on incoming blocks *)

Section Policy.

Context {W : Type} {ext : External W}.

Lemma flag_set_false (flags mask : Z) :
  Z.land flags mask = 0 -> flag_set flags mask = false.
Proof. intros H. unfold flag_set. rewrite H. reflexivity. Qed.

Lemma plain_block_flags (b : block_t) :
  plain_block b ->
  flag_set (i_flags b) (Z.lor BLOCK_FLAG_DISCONTINUITY BLOCK_FLAG_CORRUPTED) = false
  /\ flag_set (i_flags b) BLOCK_FLAG_PREROLL = false.
Proof.
  intros (Hd & Hc & Hp). rewrite flag_set_lor.
  rewrite (flag_set_false _ _ Hd), (flag_set_false _ _ Hc), (flag_set_false _ _ Hp).
  split; reflexivity.
Qed.

(** Once the extradata has been looked at, a plain block reaches the
    late-frame policy directly. *)
Lemma admission_plain (fuel : nat) (dec : decoder_t) (block : block_t) (s : state W) :
  plain_block block ->
  check_extra (st_sys s) = false ->
  admission fuel dec block s =
  bind (drop_always dec)
       (fun _ => bind (drop_late dec true) (fun dp => ret (false, dp))) s.
Proof.
  intros Hp Hc. destruct (plain_block_flags Hp) as [H1 H2].
  unfold admission, check_flags, check_extradata, check_preroll.
  rewrite H1, H2. unfold bind at 1 2 3. cbn. rewrite Hc. reflexivity.
Qed.

(** One block at or above the hard threshold. *)
Lemma hard_drop_one (fuel : nat) (dec : decoder_t) (s : state W) (block : block_t) :
  st_block s = Some block ->
  plain_block block ->
  b_pace_control dec = false ->
  check_extra (st_sys s) = false ->
  LATE_FRAMES_DROP_HARD <= late_frames (st_sys s) ->
  exists lvl text,
    Decode fuel dec s =
    Some (None,
          mkState (set_late_frames (late_frames (st_sys s) - 1) (st_sys s))
                  (st_video s) None (snd (mdate (st_ext s)))
                  (st_trace s ++ [Ev_mdate; Ev_msg lvl text; Ev_block_Release block])).
Proof.
  intros Hb Hp Hpace Hc Hl. unfold LATE_FRAMES_DROP_HARD in Hl.
  unfold Decode. rewrite Hb. unfold Decode_block.
  unfold bind at 1. rewrite (admission_plain fuel dec s Hp Hc).
  unfold drop_always, drop_late, bind, get_sys, extern, modify_sys, msg_Err,
    msg_Warn, emit, goto_error, ret.
  rewrite Hpace. cbn.
  destruct (Z.gtb_spec (late_frames (st_sys s)) 0) as [_ | Hn]; [ | lia].
  destruct (mdate (st_ext s)) as [now w] eqn:E. cbn.
  destruct (now - late_frames_start (st_sys s)
              >? LATE_FRAMES_DROP_ALWAYS_AGE * CLOCK_FREQ).
  - cbn. unfold at_error. cbn. rewrite Hb. do 2 eexists.
    rewrite <- !app_assoc. reflexivity.
  - cbn. unfold LATE_FRAMES_DROP_DECODER, LATE_FRAMES_DROP_HARD.
    destruct (Z.gtb_spec (late_frames (st_sys s)) 4) as [_ | Hn]; [ | lia].
    destruct (Z.ltb_spec (late_frames (st_sys s)) 12) as [Hn | _]; [lia | ].
    cbn. unfold at_error. cbn. rewrite Hb. do 2 eexists.
    rewrite <- !app_assoc. reflexivity.
Qed.

End Policy.

Section PolicyRun.

Context {W : Type} {ext : External W}.

(** C1 (as amended): with pacing left to the decoder, the extradata already
    looked at and the late-frame counter at 12 or more (so also when it
    exceeds 12), consecutive plain blocks are abandoned one after the other
    for as long as the counter stays at 12 or more: each call returns no
    picture, releases its block, makes no engine call at all and lowers the
    counter by one.  The drops end by that decrement (from L after L - 11
    blocks), not by an on-time image. *)
Theorem hard_drop_run (fuel : nat) (dec : decoder_t) (blocks : list block_t) :
  forall s : state W,
  Forall plain_block blocks ->
  b_pace_control dec = false ->
  check_extra (st_sys s) = false ->
  LATE_FRAMES_DROP_HARD + Z.of_nat (List.length blocks) - 1 <= late_frames (st_sys s) ->
  exists s',
    Decode_blocks fuel dec s blocks = Some (map (fun _ => None) blocks, s')
    /\ late_frames (st_sys s') = late_frames (st_sys s) - Z.of_nat (List.length blocks)
    /\ filter engine_event (st_trace s') = filter engine_event (st_trace s)
    /\ filter release_event (st_trace s')
       = filter release_event (st_trace s) ++ map Ev_block_Release blocks.
Proof.
  induction blocks as [ | b rest IH]; intros s Hplain Hpace Hc Hl.
  - exists s. cbn. rewrite app_nil_r. repeat split; lia.
  - inversion Hplain as [ | ? ? Hb Hrest]; subst.
    cbn [List.length] in Hl. rewrite Nat2Z.inj_succ in Hl.
    destruct (@hard_drop_one W ext fuel dec (offer b s) b) as (lvl & text & Hd);
      [reflexivity | exact Hb | exact Hpace | exact Hc | cbn; lia | ].
    cbn [Decode_blocks]. rewrite Hd. cbn [offer st_sys st_video st_ext st_trace].
    match goal with
    | |- context [Decode_blocks fuel dec ?s1 rest] =>
        destruct (IH s1 Hrest Hpace) as (s' & Hrun & Hlate & Heng & Hrel);
          [exact Hc | cbn; lia | ]
    end.
    exists s'. rewrite Hrun. cbn [st_sys st_trace set_late_frames late_frames] in *.
    repeat split.
    + rewrite Hlate. cbn [List.length]. lia.
    + rewrite Heng, filter_app. cbn. apply app_nil_r.
    + rewrite Hrel, filter_app. cbn. rewrite <- app_assoc. reflexivity.
Qed.

End PolicyRun.

(** ** The two claims on abandoned blocks, run on the scripted world *)

Section AbandonRuns.

Import Mock.

(** C1 (as stated) fails: with the counter at 13 and pacing left to the
    decoder, three plain blocks arrive.  Two are dropped, the counter falls
    to 11 by the two decrements, and the third block is pushed to the engine
    although no image has been pulled in between, so no on-time image has
    reset the counter.  It also fails at once when the host paces the output
    (the block is pushed with the counter still at 13) and for a preroll
    block (the flag resets the counter and the block is pushed). *)
Lemma hard_drop_ends_without_image :
  (exists s',
     Decode_blocks 3 (dec0 false false []) (late_session 13 None [])
                   [raw_block; raw_block; raw_block]
     = Some ([None; None; None], s')
     /\ late_frames (st_sys s') = 11
     /\ st_trace s' =
        [Ev_mdate; Ev_msg Warn "More than %d late frames, dropping frame";
         Ev_block_Release raw_block;
         Ev_mdate; Ev_msg Warn "More than %d late frames, dropping frame";
         Ev_block_Release raw_block;
         Ev_mdate; Ev_push_data [x00; x00; x01; x42] 500;
         Ev_block_Release raw_block; Ev_decode; Ev_get_next_picture])
  /\ (exists s',
        Decode 3 (dec0 true false []) (late_session 13 (Some raw_block) [])
        = Some (None, s')
        /\ late_frames (st_sys s') = 13
        /\ st_trace s' =
           [Ev_push_data [x00; x00; x01; x42] 500;
            Ev_block_Release raw_block; Ev_decode; Ev_get_next_picture])
  /\ (exists s',
        Decode 3 (dec0 false false []) (late_session 13 (Some preroll_block) [])
        = Some (None, s')
        /\ late_frames (st_sys s') = 0
        /\ st_trace s' =
           [Ev_push_data [x00; x00; x01; x42] 500;
            Ev_block_Release preroll_block; Ev_decode; Ev_get_next_picture]).
Proof.
  repeat split; eexists; (split; [vm_compute; reflexivity | split; reflexivity]).
Qed.

(** C2 (as stated) fails for a block that is not NULL but has no bytes: with
    one late image waiting in the engine, the call flushes the engine, runs
    the decode loop, pulls the image, counts it as late (3 becomes 4) and
    returns a picture. *)
Lemma empty_block_is_not_noop :
  exists pic s',
    Decode 3 (dec0 false false []) (late_session 3 (Some empty_block) [image0 700])
    = Some (Some pic, s')
    /\ date pic = 700
    /\ late_frames (st_sys s') = 4
    /\ late_frames (st_sys (late_session 3 (Some empty_block) [image0 700])) = 3
    /\ st_trace s' =
       [Ev_mdate; Ev_flush_data; Ev_block_Release empty_block; Ev_decode;
        Ev_get_next_picture; Ev_GetDisplayDate 700; Ev_mdate;
        Ev_NewPicture (mkVideo 4 2 4 2)].
Proof.
  do 2 eexists. split; [vm_compute; reflexivity | repeat split].
Qed.

(** Witness for C1: the counter at 13, two plain blocks. *)
Lemma hard_drop_run_witness :
  exists s',
    Decode_blocks 3 (dec0 false false []) (late_session 13 None [])
                  [raw_block; raw_block]
    = Some ([None; None], s')
    /\ late_frames (st_sys s') = 13 - 2
    /\ filter engine_event (st_trace s') = []
    /\ filter release_event (st_trace s')
       = [Ev_block_Release raw_block; Ev_block_Release raw_block].
Proof.
  apply (@hard_drop_run world external 3 (dec0 false false [])
           [raw_block; raw_block] (late_session 13 None [])).
  - repeat constructor.
  - reflexivity.
  - reflexivity.
  - vm_compute. discriminate.
Defined.

(** Witness for C2. *)
Lemma Decode_null_block_noop_witness :
  Decode 0 (dec0 false false []) (late_session 3 None [image0 700])
  = Some (None, late_session 3 None [image0 700]).
Proof.
  apply (@Decode_null_block_noop world external). reflexivity.
Defined.

(** Witness for C8: a corrupted block and a discontinuity while 13 frames
    late. *)
Lemma Decode_flagged_block_witness :
  Decode 0 (dec0 false false [])
         (late_session 13 (Some (mkBlock 0x0001 [x42] 500)) [image0 700])
  = Some (None,
          mkState (sys0 0 900 4 false false) (mkVideo 4 2 4 2) None
                  (world0 [] DE265_OK)
                  [Ev_reset; Ev_block_Release (mkBlock 0x0001 [x42] 500)]).
Proof.
  apply (@Decode_flagged_block world external 0 (dec0 false false [])
           (late_session 13 (Some (mkBlock 0x0001 [x42] 500)) [image0 700])
           (mkBlock 0x0001 [x42] 500)).
  - reflexivity.
  - left. vm_compute. discriminate.
Defined.

End AbandonRuns.

(** ** [Open] *)

Section Opening.

Context {W : Type} {ext : External W}.

(** The session [Open] leaves behind, if any, has counted no late frame. *)
Lemma Open_sys_fields (dec : decoder_t) (w : W) (t : list event) :
  open_p_sys (Open dec w t) = None
  \/ exists sys, open_p_sys (Open dec w t) = Some sys /\ late_frames sys = 0.
Proof.
  unfold Open, open_p_sys.
  destruct (negb (i_codec (fmt_in dec) =? VLC_CODEC_HEVC)); [left; reflexivity | ].
  destruct (malloc_sys w) as [[sys0 | ] w1]; [ | left; reflexivity].
  destruct (de265_new_decoder w1) as [[c | ] w2]; [ | left; reflexivity].
  destruct (thread_count w2) as [[threads w3] t_cpu].
  destruct (de265_start_worker_threads c _ w3) as [err w4].
  right. eexists. split; reflexivity.
Qed.

(** C10: for a format whose codec is not HEVC, [Open] returns VLC_EGENERIC
    with the decoder, the outside world and the trace untouched (nothing
    allocated, no engine created, no session state).  And when [Open]
    succeeds, or leaves session state behind, the codec is HEVC and
    [de265_new_decoder] returned an engine, which the session holds. *)
Theorem Open_only_hevc (dec : decoder_t) (w : W) (t : list event) :
  (i_codec (fmt_in dec) <> VLC_CODEC_HEVC ->
   Open dec w t = (VLC_EGENERIC, dec, None, w, t))
  /\ (open_status (Open dec w t) = VLC_SUCCESS \/ open_p_sys (Open dec w t) <> None ->
      i_codec (fmt_in dec) = VLC_CODEC_HEVC
      /\ exists c sys,
           fst (de265_new_decoder (snd (malloc_sys w))) = Some c
           /\ open_p_sys (Open dec w t) = Some sys
           /\ open_status (Open dec w t) = VLC_SUCCESS
           /\ ctx sys = c
           /\ late_frames sys = 0
           /\ check_extra sys = true
           /\ length_size sys = DEFAULT_LENGTH_SIZE
           /\ packetized sys = b_packetized (fmt_in dec)).
Proof.
  unfold Open, open_status, open_p_sys.
  destruct (Z.eqb_spec (i_codec (fmt_in dec)) VLC_CODEC_HEVC) as [He | He]; cbn.
  - split; [intros H; contradiction | ].
    destruct (malloc_sys w) as [[sys0 | ] w1]; cbn.
    + destruct (de265_new_decoder w1) as [[c | ] w2]; cbn.
      * destruct (thread_count w2) as [[threads w3] t_cpu].
        destruct (de265_start_worker_threads c _ w3) as [err w4]. cbn.
        intros _. split; [exact He | ].
        exists c. eexists. repeat split.
      * intros [H | H]; [discriminate | contradiction].
    + intros [H | H]; [discriminate | contradiction].
  - split; [reflexivity | ].
    intros [H | H]; [discriminate | contradiction].
Qed.

End Opening.

(** ** Late-frame accounting per pulled image *)

Section Lateness.

Context {W : Type} {ext : External W}.


End Lateness.

(** ** What a stage leaves alone *)

Section Frames.

Context {W : Type} {ext : External W}.

Lemma keeps_bind {X A B} (proj : state W -> X) (m : M A) (k : A -> M B) :
  keeps (W := W) proj m -> (forall a, keeps (W := W) proj (k a)) -> keeps (W := W) proj (bind m k).
Proof.
  intros Hm Hk s. unfold bind. specialize (Hm s).
  destruct (m s) as [a s1 | s1 | r s1 | s1]; cbn in *; try exact Hm.
  rewrite Hk. exact Hm.
Qed.

Lemma keeps_ret {X A} (proj : state W -> X) (a : A) : keeps (W := W) proj (ret a).
Proof. intros s. reflexivity. Qed.

Lemma keeps_goto {X A} (proj : state W -> X) : keeps (W := W) proj (@goto_error W A).
Proof. intros s. reflexivity. Qed.

Lemma keeps_return {X A} (proj : state W -> X) (r : option picture_t) :
  keeps (W := W) proj (@return_ W A r).
Proof. intros s. reflexivity. Qed.

Lemma keeps_out_of_fuel {X A} (proj : state W -> X) : keeps (W := W) proj (@out_of_fuel W A).
Proof. intros s. reflexivity. Qed.

Lemma keeps_get_sys {X} (proj : state W -> X) : keeps (W := W) proj get_sys.
Proof. intros s. reflexivity. Qed.

Lemma keeps_get_video {X} (proj : state W -> X) : keeps (W := W) proj get_video.
Proof. intros s. reflexivity. Qed.

Lemma keeps_if {X A} (proj : state W -> X) (c : bool) (m1 m2 : M A) :
  keeps (W := W) proj m1 -> keeps (W := W) proj m2 -> keeps (W := W) proj (if c then m1 else m2).
Proof. destruct c; auto. Qed.

Lemma keeps_sys_extern {A} (e : event) (f : W -> A * W) : keeps (W := W) st_sys (extern e f).
Proof. intros s. unfold extern. destruct (f (st_ext s)). reflexivity. Qed.

Lemma keeps_block_extern {A} (e : event) (f : W -> A * W) : keeps (W := W) st_block (extern e f).
Proof. intros s. unfold extern. destruct (f (st_ext s)). reflexivity. Qed.

Lemma keeps_sys_emit (e : event) : keeps (W := W) st_sys (emit e).
Proof. intros s. reflexivity. Qed.

Lemma keeps_block_emit (e : event) : keeps (W := W) st_block (emit e).
Proof. intros s. reflexivity. Qed.

Lemma keeps_block_modify_sys (f : decoder_sys_t -> decoder_sys_t) :
  keeps (W := W) st_block (modify_sys f).
Proof. intros s. reflexivity. Qed.

Lemma keeps_modify_sys {X} (proj : state W -> X) (f : decoder_sys_t -> decoder_sys_t) :
  (forall s, proj (mkState (f (st_sys s)) (st_video s) (st_block s) (st_ext s)
                           (st_trace s)) = proj s) ->
  keeps (W := W) proj (modify_sys f).
Proof. intros H s. apply H. Qed.

Lemma keeps_extern {X A} (proj : state W -> X) (e : event) (f : W -> A * W) :
  (forall s w t, proj (mkState (st_sys s) (st_video s) (st_block s) w t) = proj s) ->
  keeps (W := W) proj (extern e f).
Proof. intros H s. unfold extern. destruct (f (st_ext s)). apply H. Qed.

Lemma keeps_emit {X} (proj : state W -> X) (e : event) :
  (forall s w t, proj (mkState (st_sys s) (st_video s) (st_block s) w t) = proj s) ->
  keeps (W := W) proj (emit e).
Proof. intros H s. apply H. Qed.

Lemma keeps_sys_set_video (v : video_format_t) : keeps (W := W) st_sys (set_video v).
Proof. intros s. reflexivity. Qed.

Lemma keeps_sys_set_block (b : option block_t) : keeps (W := W) st_sys (set_block b).
Proof. intros s. reflexivity. Qed.

Lemma emits_only_bind {A B} (P : event -> bool) (m : M A) (k : A -> M B) :
  emits_only (W := W) P m -> (forall a, emits_only (W := W) P (k a)) -> emits_only (W := W) P (bind m k).
Proof.
  intros Hm Hk s. unfold bind. destruct (Hm s) as (evs & He & HP).
  destruct (m s) as [a s1 | s1 | r s1 | s1]; cbn in *;
    try (exists evs; split; assumption).
  destruct (Hk a s1) as (evs2 & He2 & HP2).
  exists (evs ++ evs2). rewrite He2, He, app_assoc, forallb_app, HP, HP2.
  split; reflexivity.
Qed.

Lemma emits_only_silent {A} (P : event -> bool) (m : M A) :
  keeps st_trace m -> emits_only (W := W) P m.
Proof.
  intros H s. exists []. rewrite (H s), app_nil_r. split; reflexivity.
Qed.

Lemma emits_only_extern {A} (P : event -> bool) (e : event) (f : W -> A * W) :
  P e = true -> emits_only (W := W) P (extern e f).
Proof.
  intros HP s. exists [e]. unfold extern. destruct (f (st_ext s)). cbn.
  rewrite HP. split; reflexivity.
Qed.

Lemma emits_only_emit (P : event -> bool) (e : event) :
  P e = true -> emits_only (W := W) P (emit e).
Proof. intros HP s. exists [e]. cbn. rewrite HP. split; reflexivity. Qed.

Lemma emits_only_if {A} (P : event -> bool) (c : bool) (m1 m2 : M A) :
  emits_only (W := W) P m1 -> emits_only (W := W) P m2 -> emits_only (W := W) P (if c then m1 else m2).
Proof. destruct c; auto. Qed.

Lemma emits_only_ret {A} (P : event -> bool) (a : A) : emits_only (W := W) P (ret a).
Proof. apply emits_only_silent. intros s. reflexivity. Qed.

Lemma emits_only_goto {A} (P : event -> bool) : emits_only (W := W) P (@goto_error W A).
Proof. apply emits_only_silent. intros s. reflexivity. Qed.

Lemma emits_only_return {A} (P : event -> bool) (r : option picture_t) :
  emits_only (W := W) P (@return_ W A r).
Proof. apply emits_only_silent. intros s. reflexivity. Qed.

Lemma emits_only_out_of_fuel {A} (P : event -> bool) : emits_only (W := W) P (@out_of_fuel W A).
Proof. apply emits_only_silent. intros s. reflexivity. Qed.

Lemma emits_only_get_sys (P : event -> bool) : emits_only (W := W) P get_sys.
Proof. apply emits_only_silent. intros s. reflexivity. Qed.

Lemma emits_only_get_video (P : event -> bool) : emits_only (W := W) P get_video.
Proof. apply emits_only_silent. intros s. reflexivity. Qed.

Lemma emits_only_modify_sys (P : event -> bool) (f : decoder_sys_t -> decoder_sys_t) :
  emits_only (W := W) P (modify_sys f).
Proof. apply emits_only_silent. intros s. reflexivity. Qed.

Lemma emits_only_set_video (P : event -> bool) (v : video_format_t) :
  emits_only (W := W) P (set_video v).
Proof. apply emits_only_silent. intros s. reflexivity. Qed.

Lemma emits_only_set_block (P : event -> bool) (b : option block_t) :
  emits_only (W := W) P (set_block b).
Proof. apply emits_only_silent. intros s. reflexivity. Qed.

End Frames.

Create HintDb keeps.
#[global] Hint Resolve keeps_ret keeps_goto keeps_return keeps_out_of_fuel
  keeps_get_sys keeps_get_video keeps_sys_extern keeps_block_extern
  keeps_sys_emit keeps_block_emit keeps_block_modify_sys keeps_sys_set_video
  keeps_sys_set_block : keeps.

Create HintDb emits.
#[global] Hint Resolve emits_only_ret emits_only_goto emits_only_return
  emits_only_out_of_fuel emits_only_get_sys emits_only_get_video
  emits_only_modify_sys emits_only_set_video emits_only_set_block : emits.

(** Walk down a computation built from [bind], [if] and [match]. *)
Ltac keeps :=
  repeat first
    [ apply keeps_bind; [ | intros ? ]
    | apply keeps_if
    | solve [auto with keeps]
    | apply keeps_modify_sys; intros ?; reflexivity
    | apply keeps_extern; intros ? ? ?; reflexivity
    | apply keeps_emit; intros ? ? ?; reflexivity
    | match goal with
      | |- keeps _ (let (_, _) := ?p in _) => destruct p
      | |- keeps _ (match ?e with _ => _ end) => destruct e
      end ].

Ltac emits :=
  repeat first
    [ apply emits_only_bind; [ | intros ? ]
    | apply emits_only_if
    | solve [auto with emits]
    | apply emits_only_extern; reflexivity
    | apply emits_only_emit; reflexivity
    | match goal with
      | |- emits_only _ (let (_, _) := ?p in _) => destruct p
      | |- emits_only _ (match ?e with _ => _ end) => destruct e
      end ].

(** ** The extradata probe *)

Section Extradata.

Context {W : Type} {ext : External W}.

Lemma keeps_sys_decode_extra (fuel : nat) : keeps st_sys (decode_extra (W := W) fuel).
Proof.
  induction fuel as [ | f IH]; cbn [decode_extra].
  - intros s. reflexivity.
  - unfold msg_Err. keeps.
Qed.

(** What the probe leaves in the session, whatever the engine answers and
    however far the decode loop after it gets. *)
Lemma check_extradata_sys (fuel : nat) (dec : decoder_t) (s : state W) :
  check_extra (st_sys s) = true ->
  st_sys (flow_state (check_extradata fuel dec s)) =
  let sys1 := set_check_extra false (st_sys s) in
  if i_extra (fmt_in dec) >? 0 then
    if looks_packetized (p_extra (fmt_in dec)) then
      if i_extra (fmt_in dec) >? 21 then
        set_length_size (Z.land (byte_at (p_extra (fmt_in dec)) 21) 3 + 1)
                        (set_packetized true sys1)
      else set_packetized true sys1
    else set_packetized false sys1
  else sys1.
Proof.
  intros Hc. unfold check_extradata.
  unfold bind at 1. cbn [get_sys]. rewrite Hc.
  unfold bind at 1. cbn [modify_sys].
  destruct (i_extra (fmt_in dec) >? 0); [ | reflexivity].
  set (s1 := mkState _ _ _ _ _).
  assert (Hrest : forall a : unit, keeps st_sys
            (bind (if 0x00070000 <=? LIBDE265_NUMERIC_VERSION
                   then extern Ev_push_end_of_NAL (de265_push_end_of_NAL (ctx (st_sys s)))
                   else ret tt)
                  (fun _ => decode_extra fuel))).
  { intros _. keeps. apply keeps_sys_decode_extra. }
  unfold bind at 1.
  assert (Hprobe :
    st_sys (flow_state (probe_extradata dec s1)) =
    if looks_packetized (p_extra (fmt_in dec)) then
      if i_extra (fmt_in dec) >? 21 then
        set_length_size (Z.land (byte_at (p_extra (fmt_in dec)) 21) 3 + 1)
                        (set_packetized true (st_sys s1))
      else set_packetized true (st_sys s1)
    else set_packetized false (st_sys s1)).
  { unfold probe_extradata, bind, get_sys, modify_sys, msg_Dbg, msg_Err, emit,
      extern, ret, goto_error.
    destruct (looks_packetized (p_extra (fmt_in dec))).
    - destruct (i_extra (fmt_in dec) >? 21); reflexivity.
    - cbn. destruct (de265_push_data _ _ _ _) as [err w1]. cbn.
      destruct (negb (de265_isOK err)); reflexivity. }
  destruct (probe_extradata dec s1) as [a s2 | s2 | r s2 | s2]; cbn in Hprobe |- *;
    try exact Hprobe.
  rewrite (Hrest a s2). exact Hprobe.
Qed.

Lemma land_3_range (x : Z) : 1 <= Z.land x 3 + 1 <= 4.
Proof.
  change 3 with (Z.ones 2). rewrite Z.land_ones by lia.
  pose proof (Z.mod_pos_bound x (2 ^ 2) ltac:(lia)). lia.
Qed.

(** C6 (as amended): on the first block of a session,
    - with no extradata, the packetized flag and length_size keep the values
      [Open] gave them;
    - with 1 to 3 bytes of extradata, length_size keeps its value and the
      stream is classified raw: the packetized flag becomes false, whatever
      the caller declared;
    - with extradata that starts 00 00 00 or 00 00 01, the stream is
      classified raw whatever follows, and length_size keeps its value;
    - with more than 21 bytes classified as packetized, the flag is true and
      length_size is (extradata[21] & 3) + 1, between 1 and 4. *)
Theorem extradata_classification (fuel : nat) (dec : decoder_t) (s : state W) :
  check_extra (st_sys s) = true ->
  let extra := p_extra (fmt_in dec) in
  let sys' := st_sys (flow_state (check_extradata fuel dec s)) in
  (extra = [] ->
   packetized sys' = packetized (st_sys s) /\ length_size sys' = length_size (st_sys s))
  /\ ((1 <= List.length extra <= 3)%nat ->
      packetized sys' = false /\ length_size sys' = length_size (st_sys s))
  /\ (forall b2 rest, extra = x00 :: x00 :: b2 :: rest -> byte_val b2 <= 1 ->
      packetized sys' = false /\ length_size sys' = length_size (st_sys s))
  /\ ((21 < List.length extra)%nat -> looks_packetized extra = true ->
      packetized sys' = true
      /\ length_size sys' = Z.land (byte_at extra 21) 3 + 1
      /\ 1 <= length_size sys' <= 4).
Proof.
  intros Hc extra sys'. subst sys'. rewrite (check_extradata_sys fuel dec s Hc).
  fold extra. unfold i_extra. fold extra. cbn zeta.
  split; [ | split; [ | split]].
  - intros He. rewrite He. cbn. split; reflexivity.
  - intros Hlen.
    destruct (Z.gtb_spec (Z.of_nat (List.length extra)) 0) as [_ | H0]; [ | lia].
    unfold looks_packetized.
    destruct (Z.gtb_spec (Z.of_nat (List.length extra)) 3) as [H3 | _]; [lia | ].
    cbn. split; reflexivity.
  - intros b2 rest He Hb2. rewrite He.
    destruct (Z.gtb_spec (Z.of_nat (List.length (x00 :: x00 :: b2 :: rest))) 0)
      as [_ | H0]; [ | cbn [List.length] in H0; lia].
    unfold looks_packetized, byte_at. cbn [nth].
    change (byte_val x00) with 0. cbn [Z.eqb negb orb].
    destruct (Z.gtb_spec (byte_val b2) 1) as [H1 | _]; [lia | ].
    rewrite andb_false_r. cbn. split; reflexivity.
  - intros Hlen Hp. rewrite Hp.
    destruct (Z.gtb_spec (Z.of_nat (List.length extra)) 0) as [_ | H0]; [ | lia].
    destruct (Z.gtb_spec (Z.of_nat (List.length extra)) 21) as [_ | H21]; [ | lia].
    cbn. split; [reflexivity | split; [reflexivity | apply land_3_range]].
Qed.

End Extradata.

(** ** [Open] and the probe on the scripted world *)

Section ProbeRuns.

Import Mock.

(** C6 (as stated) fails for one byte of extradata when the caller declared
    the stream packetized: [Open] copies the declaration into the session,
    and the first [Decode] call replaces it by "raw". *)
Lemma short_extradata_overrides_declaration :
  exists dec' sys w t s',
    Open (dec0 false true short_extra) (world0 [] DE265_OK) []
    = (VLC_SUCCESS, dec', Some sys, w, t)
    /\ b_packetized (fmt_in (dec0 false true short_extra)) = true
    /\ packetized sys = true
    /\ Decode 3 dec' (mkState sys (video (fmt_out dec')) (Some raw_block) w t)
       = Some (None, s')
    /\ packetized (st_sys s') = false
    /\ In (Ev_push_data short_extra 0) (st_trace s').
Proof.
  do 5 eexists. split; [vm_compute; reflexivity | ].
  split; [reflexivity | split; [reflexivity | ]].
  split; [vm_compute; reflexivity | ].
  split; [reflexivity | ]. cbn. tauto.
Qed.

(** Witness for C6: the 23-byte configuration record gives 2-byte lengths. *)
Lemma extradata_classification_witness :
  let sys' :=
    st_sys (flow_state (check_extradata 3 (dec0 false false config_extra)
                                        (fresh_session false (Some raw_block)))) in
  packetized sys' = true /\ length_size sys' = 2 /\ 1 <= length_size sys' <= 4.
Proof.
  apply (@extradata_classification world external 3 (dec0 false false config_extra)
           (fresh_session false (Some raw_block)) eq_refl).
  - cbn. lia.
  - reflexivity.
Defined.

(** Witness for C10: a format that is not HEVC, and one that is. *)
Lemma Open_only_hevc_witness :
  Open (mkDecoder (mkEs 1 0x34363268 false [] (mkVideo 4 2 4 2))
                  (mkEs 0 0 false [] (mkVideo 0 0 0 0)) false false false Ptr_before)
       (world0 [] DE265_OK) []
  = (VLC_EGENERIC,
     mkDecoder (mkEs 1 0x34363268 false [] (mkVideo 4 2 4 2))
               (mkEs 0 0 false [] (mkVideo 0 0 0 0)) false false false Ptr_before,
     None, world0 [] DE265_OK, [])
  /\ i_codec (fmt_in (dec0 false false [])) = 0x63766568.
Proof.
  split.
  - apply (@Open_only_hevc world external). vm_compute. discriminate.
  - apply (@Open_only_hevc world external (dec0 false false []) (world0 [] DE265_OK) []).
    left. reflexivity.
Defined.

End ProbeRuns.

(** ** Reading a length prefix *)

Section Prefix.

Lemma byte_val_range (b : byte) : 0 <= byte_val b < 256.
Proof.
  unfold byte_val. pose proof (Byte.to_N_bounded b) as H.
  apply N.leb_le in H. destruct (Byte.to_N b) eqn:E.
  - cbn. lia.
  - apply N.leb_le in H. lia.
Qed.

Lemma byte_val_of (v : Z) : 0 <= v < 256 -> byte_val (byte_of v) = v.
Proof.
  intros Hv. unfold byte_val, byte_of.
  destruct (Byte.of_N (Z.to_N v)) as [b | ] eqn:E.
  - apply Byte.to_of_N in E. rewrite E. apply Z2N.id. lia.
  - apply Byte.of_N_None_iff in E. lia.
Qed.

Lemma lor_shiftl_8 (a b : Z) :
  0 <= a -> 0 <= b < 256 -> Z.lor (Z.shiftl a 8) b = a * 256 + b.
Proof.
  intros Ha Hb.
  assert (Hland : Z.land (Z.shiftl a 8) b = 0).
  { apply Z.bits_inj'. intros n Hn. rewrite Z.land_spec, Z.bits_0.
    destruct (Z.ltb_spec n 8) as [H8 | H8].
    - rewrite Z.shiftl_spec_low by lia. reflexivity.
    - rewrite (Z.bits_above_log2 b n); [apply andb_false_r | lia | ].
      destruct (Z.eq_dec b 0) as [-> | Hnz]; [cbn; lia | ].
      apply Z.log2_lt_pow2; [lia | ].
      apply Z.lt_le_trans with (2 ^ 8); [lia | ].
      apply Z.pow_le_mono_r; lia. }
  rewrite <- Z.lxor_lor by exact Hland.
  rewrite <- Z.add_nocarry_lxor by exact Hland.
  rewrite Z.shiftl_mul_pow2 by lia. lia.
Qed.

Lemma length_be_bytes (n : nat) (v : Z) : List.length (be_bytes n v) = n.
Proof. induction n as [ | k IH]; cbn; [reflexivity | rewrite IH; reflexivity]. Qed.

Lemma mod_pow_succ (v : Z) (k : nat) :
  0 <= v ->
  v mod 256 ^ Z.of_nat (S k)
  = (v / 256 ^ Z.of_nat k) mod 256 * 256 ^ Z.of_nat k + v mod 256 ^ Z.of_nat k.
Proof.
  intros Hv. rewrite Nat2Z.inj_succ, Z.pow_succ_r by lia.
  rewrite (Z.mul_comm 256).
  rewrite Z.rem_mul_r by lia. lia.
Qed.

(** The reader undoes the big-endian writer, from any position of the
    buffer and with any accumulator that leaves room in 32 bits. *)
Lemma read_length_be (n : nat) :
  forall (pre rest : list byte) (v acc : Z),
  0 <= v -> 0 <= acc ->
  acc * 256 ^ Z.of_nat n + v mod 256 ^ Z.of_nat n < 2 ^ 32 ->
  read_length n (pre ++ be_bytes n v ++ rest) (List.length pre) acc
  = acc * 256 ^ Z.of_nat n + v mod 256 ^ Z.of_nat n.
Proof.
  induction n as [ | k IH]; intros pre rest v acc Hv Hacc Hroom.
  - cbn [read_length]. change (Z.of_nat 0) with 0.
    rewrite Z.pow_0_r, Z.mod_1_r. lia.
  - cbn [read_length be_bytes].
    set (b := (v / 256 ^ Z.of_nat k) mod 256).
    assert (Hb : 0 <= b < 256) by (subst b; apply Z.mod_pos_bound; lia).
    assert (Hat : byte_at (pre ++ (byte_of b :: be_bytes k v) ++ rest) (List.length pre) = b).
    { unfold byte_at. rewrite app_nth2 by lia. rewrite Nat.sub_diag. cbn.
      apply byte_val_of. exact Hb. }
    rewrite Hat, lor_shiftl_8 by assumption.
    assert (Hp : 0 < 256 ^ Z.of_nat k) by (apply Z.pow_pos_nonneg; lia).
    pose proof (Z.mod_pos_bound v (256 ^ Z.of_nat k) Hp) as Hm.
    rewrite (mod_pow_succ k Hv) in Hroom. fold b in Hroom.
    rewrite Nat2Z.inj_succ, Z.pow_succ_r in Hroom by lia.
    assert (Hsmall : 0 <= acc * 256 + b < 2 ^ 32) by nia.
    unfold uint32. rewrite Z.mod_small by exact Hsmall.
    replace (pre ++ (byte_of b :: be_bytes k v) ++ rest)
      with ((pre ++ [byte_of b]) ++ be_bytes k v ++ rest)
      by (rewrite <- app_assoc; reflexivity).
    replace (S (List.length pre)) with (List.length (pre ++ [byte_of b]))
      by (rewrite length_app; cbn; lia).
    rewrite IH by nia.
    rewrite (mod_pow_succ k Hv). fold b.
    rewrite Nat2Z.inj_succ, Z.pow_succ_r by lia. ring.
Qed.

Lemma pow_256_le (n : nat) : (n <= 4)%nat -> 256 ^ Z.of_nat n <= 2 ^ 32.
Proof.
  intros H. change (2 ^ 32) with (256 ^ 4).
  apply Z.pow_le_mono_r; lia.
Qed.

(** A prefix of at most four bytes reads back as the length it encodes. *)
Lemma read_length_prefix (n : nat) (v : Z) (rest : list byte) :
  (n <= 4)%nat -> 0 <= v < 256 ^ Z.of_nat n ->
  read_length n (be_bytes n v ++ rest) 0 0 = v.
Proof.
  intros Hn Hv. pose proof (pow_256_le Hn) as Hp.
  pose proof (@read_length_be n [] rest v 0) as H. cbn [app List.length] in H.
  rewrite H; rewrite ?Z.mod_small; lia.
Qed.

Lemma byte_of_val (b : byte) : byte_of (byte_val b) = b.
Proof.
  unfold byte_of, byte_val. rewrite N2Z.id, Byte.of_to_N. reflexivity.
Qed.

Lemma be_value_range (prefix : list byte) :
  0 <= be_value prefix < 256 ^ Z.of_nat (List.length prefix).
Proof.
  induction prefix as [ | b rest IH]; cbn [be_value List.length].
  - change (Z.of_nat 0) with 0. rewrite Z.pow_0_r. lia.
  - pose proof (byte_val_range b) as Hb.
    rewrite Nat2Z.inj_succ, Z.pow_succ_r by lia.
    assert (Hp : 0 < 256 ^ Z.of_nat (List.length rest)) by (apply Z.pow_pos_nonneg; lia).
    nia.
Qed.

(** Only the low [n] digits of a length are written. *)
Lemma be_bytes_low (n : nat) (a r : Z) :
  0 <= r -> be_bytes n (a * 256 ^ Z.of_nat n + r) = be_bytes n r.
Proof.
  revert a. induction n as [ | k IH]; intros a Hr; [reflexivity | ].
  cbn [be_bytes]. f_equal.
  - f_equal. rewrite Nat2Z.inj_succ, Z.pow_succ_r by lia.
    assert (Hp : 0 < 256 ^ Z.of_nat k) by (apply Z.pow_pos_nonneg; lia).
    replace (a * (256 * 256 ^ Z.of_nat k) + r)
      with (r + (a * 256) * 256 ^ Z.of_nat k) by ring.
    rewrite Z.div_add by lia.
    rewrite Z.add_mod, Z.mod_mul, Z.add_0_r, Z.mod_mod by lia. reflexivity.
  - rewrite Nat2Z.inj_succ, Z.pow_succ_r by lia.
    replace (a * (256 * 256 ^ Z.of_nat k) + r)
      with ((a * 256) * 256 ^ Z.of_nat k + r) by ring.
    apply IH. exact Hr.
Qed.

(** Every sequence of bytes is the prefix of the length it declares, so the
    statements on [be_bytes] speak of all prefixes. *)
Lemma be_bytes_value (prefix : list byte) :
  be_bytes (List.length prefix) (be_value prefix) = prefix.
Proof.
  induction prefix as [ | b rest IH]; [reflexivity | ].
  cbn [List.length be_bytes be_value].
  pose proof (be_value_range rest) as Hr. pose proof (byte_val_range b) as Hb.
  f_equal.
  - rewrite Z.div_add_l by lia. rewrite Z.div_small by lia.
    rewrite Z.add_0_r, Z.mod_small by lia. apply byte_of_val.
  - rewrite be_bytes_low by lia. exact IH.
Qed.

End Prefix.

(** ** The length-prefix demultiplexer *)

Section Demux.

Context {W : Type} {ext : External W}.

Lemma to_size_t_small (n : nat) : (n <= 4)%nat -> to_size_t (Z.of_nat n) = Z.of_nat n.
Proof. intros H. unfold to_size_t. apply Z.mod_small. lia. Qed.

(** One iteration on a well-framed unit: the unit is handed to the engine,
    and the loop goes on behind it unless the engine refuses. *)
Lemma push_NALs_step (ls : nat) (pts : mtime_t) (nal tail : list byte) (fuel : nat)
    (s : state W) :
  length_size (st_sys s) = Z.of_nat ls ->
  (1 <= ls <= 4)%nat ->
  fits ls nal ->
  push_NALs (S fuel) pts (frame_nal ls nal ++ tail) s
  = bind (extern (Ev_push_NAL nal pts) (de265_push_NAL (ctx (st_sys s)) nal pts))
         (fun err =>
            if negb (de265_isOK err) then
              bind (msg_Err "Failed to push data: %s (%d)") (fun _ => goto_error)
            else push_NALs fuel pts tail) s.
Proof.
  intros Hls Hrange Hfit.
  set (body := nal ++ tail).
  replace (frame_nal ls nal ++ tail)
    with (be_bytes ls (Z.of_nat (List.length nal)) ++ body)
    by (subst body; unfold frame_nal; rewrite <- app_assoc; reflexivity).
  cbn [push_NALs].
  unfold bind at 1. cbn [get_sys]. rewrite Hls, Nat2Z.id.
  rewrite to_size_t_small by lia.
  destruct (Z.leb_spec (Z.of_nat ls)
              (Z.of_nat (List.length (be_bytes ls (Z.of_nat (List.length nal)) ++ body))))
    as [_ | Hshort];
    [ | rewrite length_app, length_be_bytes in Hshort; lia].
  rewrite read_length_prefix by (unfold fits in Hfit; lia).
  replace (skipn ls (be_bytes ls (Z.of_nat (List.length nal)) ++ body)) with body
    by (rewrite skipn_app, length_be_bytes, Nat.sub_diag, skipn_all2;
        [reflexivity | rewrite length_be_bytes; lia]).
  destruct (Z.gtb_spec (Z.of_nat (List.length nal)) (Z.of_nat (List.length body)))
    as [Hlong | _];
    [subst body; rewrite length_app in Hlong; lia | ].
  rewrite Nat2Z.id.
  replace (firstn (List.length nal) body) with nal
    by (subst body; rewrite firstn_app, Nat.sub_diag, firstn_all; cbn;
        rewrite app_nil_r; reflexivity).
  replace (skipn (List.length nal) body) with tail
    by (subst body; rewrite skipn_app, Nat.sub_diag, skipn_all; reflexivity).
  reflexivity.
Qed.

(** One iteration per well-framed NAL unit that the engine takes. *)
Lemma push_NALs_frame (ls : nat) (pts : mtime_t) (nals : list (list byte)) :
  forall (fuel : nat) (tail : list byte) (s : state W),
  length_size (st_sys s) = Z.of_nat ls ->
  (1 <= ls <= 4)%nat ->
  Forall (fits ls) nals ->
  accepts_all (ctx (st_sys s)) pts nals (st_ext s) = true ->
  push_NALs (List.length nals + fuel) pts (frame ls nals ++ tail) s
  = push_NALs fuel pts tail (pushed pts nals s).
Proof.
  induction nals as [ | nal rest IH]; intros fuel tail s Hls Hrange Hfits Hacc.
  - cbn. unfold pushed. cbn. rewrite app_nil_r, state_eta. reflexivity.
  - inversion Hfits as [ | ? ? Hfit Hfits']; subst.
    replace (frame ls (nal :: rest) ++ tail)
      with (frame_nal ls nal ++ frame ls rest ++ tail)
      by (unfold frame; cbn [flat_map]; rewrite <- app_assoc; reflexivity).
    cbn [List.length Nat.add].
    rewrite push_NALs_step by assumption.
    cbn [accepts_all] in Hacc. unfold bind, extern.
    destruct (de265_push_NAL (ctx (st_sys s)) nal pts (st_ext s)) as [err w1] eqn:E.
    apply andb_true_iff in Hacc. destruct Hacc as [Hok Hacc]. rewrite Hok.
    cbn [negb].
    rewrite IH; try assumption.
    unfold pushed. cbn [st_sys st_video st_block st_ext st_trace after_pushes map].
    rewrite E. cbn [snd]. rewrite <- app_assoc. reflexivity.
Qed.

(** Nothing left: the loop ends. *)
Lemma push_NALs_done (fuel : nat) (pts : mtime_t) (s : state W) (ls : nat) :
  length_size (st_sys s) = Z.of_nat ls ->
  (1 <= ls <= 4)%nat ->
  push_NALs (S fuel) pts [] s = Next tt s.
Proof.
  intros Hls Hrange. cbn [push_NALs]. unfold bind at 1. cbn [get_sys].
  rewrite Hls, to_size_t_small by lia. cbn [List.length].
  destruct (Z.leb_spec (Z.of_nat ls) (Z.of_nat 0)) as [H | _]; [lia | reflexivity].
Qed.

(** A prefix that declares more than what follows it: the loop stops there
    with the buffer-underrun message and no push. *)
Lemma push_NALs_underrun (fuel : nat) (pts : mtime_t) (s : state W) (ls : nat)
    (v : Z) (rest : list byte) :
  length_size (st_sys s) = Z.of_nat ls ->
  (1 <= ls <= 4)%nat ->
  Z.of_nat (List.length rest) < v < 256 ^ Z.of_nat ls ->
  push_NALs (S fuel) pts (be_bytes ls v ++ rest) s
  = Goto_error
      (mkState (st_sys s) (st_video s) (st_block s) (st_ext s)
               (st_trace s ++ [Ev_msg Err "Buffer underrun while pushing data (%d > %ld)"])).
Proof.
  intros Hls Hrange Hv. cbn [push_NALs]. unfold bind at 1. cbn [get_sys].
  rewrite Hls, Nat2Z.id, to_size_t_small by lia.
  destruct (Z.leb_spec (Z.of_nat ls) (Z.of_nat (List.length (be_bytes ls v ++ rest))))
    as [_ | Hshort];
    [ | rewrite length_app, length_be_bytes in Hshort; lia].
  rewrite read_length_prefix by lia.
  replace (skipn ls (be_bytes ls v ++ rest)) with rest
    by (rewrite skipn_app, length_be_bytes, Nat.sub_diag, skipn_all2;
        [reflexivity | rewrite length_be_bytes; lia]).
  destruct (Z.gtb_spec v (Z.of_nat (List.length rest))) as [_ | H]; [ | lia].
  reflexivity.
Qed.

(** X12: Whatever the engine answers, the units pushed are the first units of
    the block, in order: the loop stops early only behind a refused one. *)
Lemma push_NALs_prefix (ls : nat) (pts : mtime_t) (nals : list (list byte)) :
  forall (fuel : nat) (s : state W),
  length_size (st_sys s) = Z.of_nat ls ->
  (1 <= ls <= 4)%nat ->
  Forall (fits ls) nals ->
  exists k,
    (k <= List.length nals)%nat
    /\ nal_pushes (st_trace (flow_state
          (push_NALs (List.length nals + S fuel) pts (frame ls nals) s)))
       = nal_pushes (st_trace s) ++ map (fun nal => (nal, pts)) (firstn k nals).
Proof.
  induction nals as [ | nal rest IH]; intros fuel s Hls Hrange Hfits.
  - exists 0%nat. cbn [List.length Nat.add frame flat_map firstn map].
    rewrite (push_NALs_done fuel pts s Hls Hrange). cbn.
    rewrite app_nil_r. split; [lia | reflexivity].
  - inversion Hfits as [ | ? ? Hfit Hfits']; subst.
    replace (frame ls (nal :: rest))
      with (frame_nal ls nal ++ frame ls rest)
      by (unfold frame; cbn [flat_map]; reflexivity).
    cbn [List.length Nat.add].
    rewrite push_NALs_step by assumption.
    unfold bind at 1. unfold extern.
    destruct (de265_push_NAL (ctx (st_sys s)) nal pts (st_ext s)) as [err w1].
    destruct (de265_isOK err); cbn [negb].
    + match goal with
      | |- context [push_NALs _ pts (frame ls rest) ?s1] =>
          destruct (IH fuel s1 Hls Hrange Hfits') as (k & Hk & Hp)
      end.
      exists (S k). split; [cbn; lia | ].
      rewrite Hp. cbn [st_trace firstn map].
      unfold nal_pushes at 1. rewrite flat_map_app. cbn [flat_map].
      rewrite <- app_assoc. reflexivity.
    + exists 1%nat. split; [cbn; lia | ].
      unfold bind, msg_Err, emit, goto_error. cbn [flow_state st_trace firstn map].
      unfold nal_pushes. rewrite !flat_map_app. cbn [flat_map].
      rewrite <- !app_assoc. reflexivity.
Qed.

End Demux.

(** ** What the stages of [Decode] emit *)

Section Stages.

Context {W : Type} {ext : External W}.

Lemma emits_only_weaken {A} (P Q : event -> bool) (m : M (W := W) A) :
  (forall e, P e = true -> Q e = true) -> emits_only P m -> emits_only Q m.
Proof.
  intros HPQ Hm s. destruct (Hm s) as (evs & He & HP).
  exists evs. split; [exact He | ].
  rewrite forallb_forall in *. auto.
Qed.

Lemma not_push_not_nal (e : event) : not_push e = true -> not_nal_push e = true.
Proof. destruct e; cbn; congruence. Qed.

Lemma nal_pushes_app (t1 t2 : list event) :
  nal_pushes (t1 ++ t2) = nal_pushes t1 ++ nal_pushes t2.
Proof. unfold nal_pushes. apply flat_map_app. Qed.

Lemma nal_pushes_none (evs : list event) :
  forallb not_nal_push evs = true -> nal_pushes evs = [].
Proof.
  unfold nal_pushes.
  induction evs as [ | e evs IH]; cbn; [reflexivity | ].
  intros H. apply andb_true_iff in H. destruct H as [He Hevs].
  rewrite (IH Hevs). destruct e; cbn in *; congruence.
Qed.

Lemma nal_pushes_map (pts : mtime_t) (nals : list (list byte)) :
  nal_pushes (map (fun nal => Ev_push_NAL nal pts) nals)
  = map (fun nal => (nal, pts)) nals.
Proof.
  unfold nal_pushes.
  induction nals as [ | nal rest IH]; cbn; [reflexivity | rewrite <- IH; reflexivity].
Qed.

Lemma emits_only_nal_pushes {A} (m : M (W := W) A) (s : state W) :
  emits_only not_nal_push m ->
  nal_pushes (st_trace (flow_state (m s))) = nal_pushes (st_trace s).
Proof.
  intros H. destruct (H s) as (evs & He & HP).
  rewrite He, nal_pushes_app, (nal_pushes_none _ HP). apply app_nil_r.
Qed.

Lemma keeps_block_decode_extra (fuel : nat) : keeps st_block (decode_extra (W := W) fuel).
Proof.
  induction fuel as [ | f IH]; cbn [decode_extra]; unfold msg_Err; keeps.
Qed.

Lemma keeps_block_admission (fuel : nat) (dec : decoder_t) (block : block_t) :
  keeps st_block (admission (W := W) fuel dec block).
Proof.
  unfold admission, check_flags, check_extradata, probe_extradata, check_preroll,
    drop_always, drop_late, msg_Err, msg_Warn, msg_Dbg.
  keeps. apply keeps_block_decode_extra.
Qed.

Lemma admission_block (fuel : nat) (dec : decoder_t) (block : block_t) (s s1 : state W)
    (pd : bool * bool) :
  st_block s = Some block ->
  admission fuel dec block s = Next pd s1 ->
  st_block s1 = Some block.
Proof.
  intros Hb Ha. pose proof (keeps_block_admission fuel dec block s) as H.
  rewrite Ha in H. cbn in H. congruence.
Qed.

Lemma emits_decode_extra (fuel : nat) :
  emits_only not_nal_push (decode_extra (W := W) fuel).
Proof.
  induction fuel as [ | f IH]; cbn [decode_extra]; unfold msg_Err; emits.
Qed.

(** Before the block's bytes are looked at, no NAL unit is pushed (the raw
    extradata goes through [de265_push_data]). *)
Lemma emits_admission (fuel : nat) (dec : decoder_t) (block : block_t) :
  emits_only not_nal_push (admission (W := W) fuel dec block).
Proof.
  unfold admission, check_flags, check_extradata, probe_extradata, check_preroll,
    drop_always, drop_late, msg_Err, msg_Warn, msg_Dbg.
  emits. apply emits_decode_extra.
Qed.

Lemma emits_next_image (fuel : nat) : emits_only not_push (next_image (W := W) fuel).
Proof.
  induction fuel as [ | f IH]; cbn [next_image]; unfold msg_Err; emits.
Qed.

Lemma emits_lateness_step (prerolling : bool) (pts : mtime_t) :
  emits_only not_push (lateness_step (W := W) prerolling pts).
Proof.
  unfold lateness_step, display_date_of, account_late, is_late. emits.
Qed.

Lemma emits_drain (inner : nat) (prerolling drawpicture : bool) (fuel : nat) :
  emits_only not_push (drain (W := W) fuel inner prerolling drawpicture).
Proof.
  induction fuel as [ | f IH]; cbn [drain]; unfold msg_Err; emits;
    first [apply emits_next_image | apply emits_lateness_step].
Qed.

(** After the block has been handed over, nothing more is pushed. *)
Lemma emits_output (fuel : nat) (prerolling drawpicture : bool) :
  emits_only not_push (output (W := W) fuel prerolling drawpicture).
Proof.
  unfold output, materialize, update_geometry. emits.
  apply emits_drain.
Qed.

Lemma emits_release (block : block_t) :
  emits_only not_push (release_block (W := W) block).
Proof. unfold release_block. emits. Qed.

End Stages.

(** ** A packetized block through [Decode] *)

Section Packetized.

Context {W : Type} {ext : External W}.

(** The demultiplexer configuration of a session. *)
Lemma keeps_ctx_decode_extra (fuel : nat) :
  keeps (fun s => ctx (st_sys s)) (decode_extra (W := W) fuel).
Proof.
  induction fuel as [ | f IH]; cbn [decode_extra]; unfold msg_Err; keeps.
Qed.

(** [Decode] never replaces the engine handle. *)
Lemma keeps_ctx_admission (fuel : nat) (dec : decoder_t) (block : block_t) :
  keeps (fun s => ctx (st_sys s)) (admission (W := W) fuel dec block).
Proof.
  unfold admission, check_flags, check_extradata, probe_extradata, check_preroll,
    drop_always, drop_late, msg_Err, msg_Warn, msg_Dbg.
  keeps. apply keeps_ctx_decode_extra.
Qed.

(** Past the first block, the admission stage leaves the demultiplexer
    configuration alone. *)
Lemma admission_config (fuel : nat) (dec : decoder_t) (block : block_t) (s s1 : state W)
    (pd : bool * bool) :
  admission fuel dec block s = Next pd s1 ->
  check_extra (st_sys s) = false ->
  length_size (st_sys s1) = length_size (st_sys s)
  /\ packetized (st_sys s1) = packetized (st_sys s)
  /\ check_extra (st_sys s1) = false.
Proof.
  intros Ha Hc.
  set (cfg := fun s : state W =>
                (length_size (st_sys s), packetized (st_sys s), check_extra (st_sys s))).
  assert (Hflags : keeps cfg (check_flags block))
    by (unfold check_flags; keeps).
  assert (Hrest : keeps cfg
            (bind (check_preroll block)
               (fun pd : bool * bool =>
                  let (prerolling, drawpicture) := pd in
                  bind (drop_always dec)
                    (fun _ => bind (drop_late dec drawpicture)
                                (fun dp => ret (prerolling, dp))))))
    by (unfold check_preroll, drop_always, drop_late, msg_Err, msg_Warn; keeps).
  unfold admission in Ha. unfold bind at 1 in Ha.
  specialize (Hflags s).
  destruct (check_flags block s) as [[] s0 | s0 | r s0 | s0]; try discriminate.
  cbn in Hflags. unfold bind at 1 in Ha.
  assert (Hc0 : check_extra (st_sys s0) = false)
    by (unfold cfg in Hflags; congruence).
  unfold check_extradata in Ha at 1. unfold bind at 1 in Ha. cbn [get_sys] in Ha.
  rewrite Hc0 in Ha. cbn [ret] in Ha.
  specialize (Hrest s0). rewrite Ha in Hrest. cbn in Hrest.
  unfold cfg in *. rewrite Hc in Hflags.
  assert (Heq : (length_size (st_sys s1), packetized (st_sys s1), check_extra (st_sys s1))
                = (length_size (st_sys s), packetized (st_sys s), false))
    by congruence.
  inversion Heq. auto.
Qed.

Lemma finish_nal_pushes (f : flow W picture_t) (r : option picture_t) (s' : state W) :
  finish f = Some (r, s') ->
  nal_pushes (st_trace s') = nal_pushes (st_trace (flow_state f)).
Proof.
  destruct f as [pic s1 | s1 | r1 s1 | s1]; cbn; intros H; inversion H; subst;
    try reflexivity.
  unfold at_error. destruct (st_block s1); [ | reflexivity].
  cbn. rewrite nal_pushes_app. cbn. apply app_nil_r.
Qed.

Lemma frame_nonempty (ls : nat) (nals : list (list byte)) :
  (1 <= ls)%nat -> nals <> [] -> (0 < List.length (frame ls nals))%nat.
Proof.
  intros Hls Hn. destruct nals as [ | nal rest]; [congruence | ].
  unfold frame. cbn [flat_map]. unfold frame_nal.
  rewrite !length_app, length_be_bytes. lia.
Qed.

Lemma emits_push_block_empty (fuel : nat) (block : block_t) :
  p_buffer block = [] -> emits_only not_push (push_block (W := W) fuel block).
Proof.
  intros He. unfold push_block, i_buffer, msg_Err. rewrite He. cbn [List.length].
  change (Z.of_nat 0 >? 0) with false. cbn iota. emits.
Qed.

(** The loop of a well-framed block whose units the engine takes. *)
Lemma push_block_frame (fuel : nat) (block : block_t) (s1 : state W) (ls : nat)
    (nals : list (list byte)) :
  packetized (st_sys s1) = true ->
  length_size (st_sys s1) = Z.of_nat ls ->
  (1 <= ls <= 4)%nat ->
  p_buffer block = frame ls nals ->
  Forall (fits ls) nals ->
  accepts_all (ctx (st_sys s1)) (i_pts block) nals (st_ext s1) = true ->
  (List.length nals < fuel)%nat ->
  nals <> [] ->
  push_block fuel block s1 = Next tt (pushed (i_pts block) nals s1).
Proof.
  intros Hpk Hls Hrange Hbuf Hfits Hacc Hfuel Hne.
  unfold push_block. unfold bind at 1. cbn [get_sys].
  unfold i_buffer. rewrite Hbuf.
  pose proof (@frame_nonempty ls nals ltac:(lia) Hne) as Hlen.
  destruct (Z.gtb_spec (Z.of_nat (List.length (frame ls nals))) 0) as [_ | H0]; [ | lia].
  rewrite Hpk.
  replace fuel with (List.length nals + S (fuel - List.length nals - 1))%nat by lia.
  rewrite <- (app_nil_r (frame ls nals)).
  rewrite push_NALs_frame by assumption.
  apply push_NALs_done with (ls := ls); [exact Hls | exact Hrange].
Qed.

(** C3: a block that reaches the push stage of a packetized session and
    whose buffer is N NAL units, each behind its length written as
    length_size big-endian bytes, makes [Decode] call [de265_push_NAL]
    exactly N times, the i-th call with the bytes of the i-th unit and the
    block's timestamp, provided the engine takes each unit; for N > 0 the
    loop ends normally with exactly these calls in the trace. *)
Theorem demux_round_trip (fuel : nat) (dec : decoder_t) (s s1 : state W)
    (block : block_t) (prerolling drawpicture : bool) (ls : nat)
    (nals : list (list byte)) :
  st_block s = Some block ->
  admission fuel dec block s = Next (prerolling, drawpicture) s1 ->
  packetized (st_sys s1) = true ->
  length_size (st_sys s1) = Z.of_nat ls ->
  (1 <= ls <= 4)%nat ->
  p_buffer block = frame ls nals ->
  Forall (fits ls) nals ->
  accepts_all (ctx (st_sys s1)) (i_pts block) nals (st_ext s1) = true ->
  (List.length nals < fuel)%nat ->
  (nals <> [] -> push_block fuel block s1 = Next tt (pushed (i_pts block) nals s1))
  /\ nal_pushes (st_trace (flow_state (Decode_block fuel dec block s)))
     = nal_pushes (st_trace s) ++ map (fun nal => (nal, i_pts block)) nals
  /\ (forall r s', Decode fuel dec s = Some (r, s') ->
      nal_pushes (st_trace s')
      = nal_pushes (st_trace s) ++ map (fun nal => (nal, i_pts block)) nals).
Proof.
  intros Hb Ha Hpk Hls Hrange Hbuf Hfits Hacc Hfuel.
  assert (Hloop : nals <> [] ->
                  push_block fuel block s1 = Next tt (pushed (i_pts block) nals s1))
    by (intros Hne; apply push_block_frame with (ls := ls); assumption).
  assert (Hadm : nal_pushes (st_trace s1) = nal_pushes (st_trace s)).
  { pose proof (emits_only_nal_pushes s (emits_admission fuel dec block)) as H.
    rewrite Ha in H. exact H. }
  assert (Hafter : emits_only not_nal_push
                     (bind (release_block (W := W) block)
                           (fun _ => output fuel prerolling drawpicture))).
  { apply emits_only_weaken with (P := not_push); [apply not_push_not_nal | ].
    apply emits_only_bind; [apply emits_release | intros _; apply emits_output]. }
  assert (Hall : nal_pushes (st_trace (flow_state (Decode_block fuel dec block s)))
                 = nal_pushes (st_trace s) ++ map (fun nal => (nal, i_pts block)) nals).
  { unfold Decode_block. unfold bind at 1. rewrite Ha.
    destruct nals as [ | nal rest].
    - cbn [map]. rewrite app_nil_r, <- Hadm.
      apply emits_only_nal_pushes.
      apply emits_only_bind; [ | intros _; exact Hafter].
      apply emits_only_weaken with (P := not_push); [apply not_push_not_nal | ].
      apply emits_push_block_empty. exact Hbuf.
    - unfold bind at 1. rewrite Hloop by discriminate.
      rewrite (emits_only_nal_pushes _ Hafter).
      unfold pushed. cbn [st_trace].
      rewrite nal_pushes_app, nal_pushes_map, Hadm. reflexivity. }
  split; [exact Hloop | split; [exact Hall | ]].
  intros r s' Hd. unfold Decode in Hd. rewrite Hb in Hd.
  rewrite (finish_nal_pushes _ Hd). exact Hall.
Qed.

(** C4: when, after any number of well-framed units that the engine takes,
    the block of a packetized session has a length prefix that declares
    more bytes than follow it, [Decode] stops at that prefix: the units
    before it have been pushed, the buffer-underrun error is logged, nothing
    is pushed or decoded after it, the block is released, no picture is
    returned, and the session is what it was when the loop started, with
    the engine handle it had at the call (and, past the first block, the
    length size and packetized flag it had at the call). *)
Theorem framing_violation (fuel : nat) (dec : decoder_t) (s s1 : state W)
    (block : block_t) (prerolling drawpicture : bool) (ls : nat)
    (nals : list (list byte)) (v : Z) (rest : list byte) :
  st_block s = Some block ->
  admission fuel dec block s = Next (prerolling, drawpicture) s1 ->
  packetized (st_sys s1) = true ->
  length_size (st_sys s1) = Z.of_nat ls ->
  (1 <= ls <= 4)%nat ->
  p_buffer block = frame ls nals ++ be_bytes ls v ++ rest ->
  Z.of_nat (List.length rest) < v < 256 ^ Z.of_nat ls ->
  Forall (fits ls) nals ->
  accepts_all (ctx (st_sys s1)) (i_pts block) nals (st_ext s1) = true ->
  (List.length nals < fuel)%nat ->
  Decode fuel dec s =
  Some (None,
        mkState (st_sys s1) (st_video s1) None
                (after_pushes (ctx (st_sys s1)) (i_pts block) nals (st_ext s1))
                (st_trace s1
                 ++ map (fun nal => Ev_push_NAL nal (i_pts block)) nals
                 ++ [Ev_msg Err "Buffer underrun while pushing data (%d > %ld)";
                     Ev_block_Release block]))
  /\ ctx (st_sys s1) = ctx (st_sys s)
  /\ (check_extra (st_sys s) = false ->
      length_size (st_sys s1) = length_size (st_sys s)
      /\ packetized (st_sys s1) = packetized (st_sys s)
      /\ check_extra (st_sys s1) = false).
Proof.
  intros Hb Ha Hpk Hls Hrange Hbuf Hv Hfits Hacc Hfuel.
  split; [ | split].
  - assert (Hb1 : st_block s1 = Some block) by (eapply admission_block; eassumption).
    unfold Decode. rewrite Hb. unfold Decode_block. unfold bind at 1. rewrite Ha.
    unfold bind at 1. unfold push_block. unfold bind at 1. cbn [get_sys].
    unfold i_buffer. rewrite Hbuf.
    destruct (Z.gtb_spec
                (Z.of_nat (List.length (frame ls nals ++ be_bytes ls v ++ rest))) 0)
      as [_ | H0];
      [ | rewrite !length_app, length_be_bytes in H0; lia].
    rewrite Hpk.
    replace fuel with (List.length nals + S (fuel - List.length nals - 1))%nat by lia.
    rewrite push_NALs_frame by assumption.
    rewrite push_NALs_underrun by (cbn [pushed st_sys]; assumption).
    cbn [finish]. unfold at_error, pushed. cbn [st_block st_sys st_video st_ext st_trace].
    rewrite Hb1. rewrite <- !app_assoc. reflexivity.
  - pose proof (keeps_ctx_admission fuel dec block s) as H. rewrite Ha in H. exact H.
  - intros Hc. eapply admission_config; eassumption.
Qed.

End Packetized.

(** ** A block without bytes *)

Section EmptyBlock.

Context {W : Type} {ext : External W}.

Lemma finish_trace_not_push (f : flow W picture_t) (r : option picture_t)
    (s0 s' : state W) :
  (exists evs, st_trace (flow_state f) = st_trace s0 ++ evs
               /\ forallb not_push evs = true) ->
  finish f = Some (r, s') ->
  exists evs, st_trace s' = st_trace s0 ++ evs /\ forallb not_push evs = true.
Proof.
  intros (evs & He & HP) Hf.
  destruct f as [pic s1 | s1 | r1 s1 | s1]; cbn in *; inversion Hf; subst;
    try (exists evs; split; assumption).
  unfold at_error. destruct (st_block s1) as [b | ];
    [ | exists evs; split; assumption].
  exists (evs ++ [Ev_block_Release b]). cbn [st_trace].
  rewrite He, app_assoc, forallb_app, HP. split; reflexivity.
Qed.

(** What [Decode] does with a block past admission that has no bytes. *)
Lemma Decode_empty_block (fuel : nat) (dec : decoder_t) (s s1 : state W)
    (block : block_t) (prerolling drawpicture : bool) :
  st_block s = Some block ->
  p_buffer block = [] ->
  admission fuel dec block s = Next (prerolling, drawpicture) s1 ->
  let (err, w2) := de265_flush_data (ctx (st_sys s1)) (st_ext s1) in
  (if de265_isOK err then
     Decode fuel dec s =
     finish (output fuel prerolling drawpicture
               (mkState (st_sys s1) (st_video s1) None w2
                        (st_trace s1 ++ [Ev_flush_data; Ev_block_Release block])))
   else
     Decode fuel dec s =
     Some (None,
           mkState (st_sys s1) (st_video s1) None w2
                   (st_trace s1 ++ [Ev_flush_data;
                                    Ev_msg Err "Failed to flush data: %s (%d)";
                                    Ev_block_Release block])))
  /\ (forall r s', Decode fuel dec s = Some (r, s') ->
      exists evs, st_trace s' = st_trace s1 ++ Ev_flush_data :: evs
                  /\ forallb not_push evs = true).
Proof.
  intros Hb He Ha.
  assert (Hb1 : st_block s1 = Some block) by (eapply admission_block; eassumption).
  destruct (de265_flush_data (ctx (st_sys s1)) (st_ext s1)) as [err w2] eqn:E.
  assert (Hrun :
    if de265_isOK err then
      Decode fuel dec s =
      finish (output fuel prerolling drawpicture
                (mkState (st_sys s1) (st_video s1) None w2
                         (st_trace s1 ++ [Ev_flush_data; Ev_block_Release block])))
    else
      Decode fuel dec s =
      Some (None,
            mkState (st_sys s1) (st_video s1) None w2
                    (st_trace s1 ++ [Ev_flush_data;
                                     Ev_msg Err "Failed to flush data: %s (%d)";
                                     Ev_block_Release block]))).
  { destruct (de265_isOK err) eqn:Hok;
      unfold Decode; rewrite Hb; unfold Decode_block; unfold bind at 1; rewrite Ha;
      unfold bind at 1; unfold push_block; unfold bind at 1; cbn [get_sys];
      unfold i_buffer; rewrite He; cbn [List.length];
      change (Z.of_nat 0 >? 0) with false; cbn iota;
      unfold bind at 1; unfold extern at 1; rewrite E, Hok; cbn [negb].
    - cbn [ret]. unfold release_block, bind, emit, set_block.
      cbn [st_sys st_video st_block st_ext st_trace].
      rewrite <- app_assoc. reflexivity.
    - unfold bind, msg_Err, emit, goto_error. cbn [finish]. unfold at_error.
      cbn [st_sys st_video st_block st_ext st_trace].
      rewrite Hb1, <- !app_assoc. reflexivity. }
  split; [exact Hrun | ].
  intros r s' Hd. destruct (de265_isOK err).
  - rewrite Hrun in Hd.
    set (s2 := mkState (st_sys s1) (st_video s1) None w2 (st_trace s1 ++ [Ev_flush_data])).
    assert (Hex : exists evs, st_trace s' = st_trace s2 ++ evs
                              /\ forallb not_push evs = true);
      [eapply finish_trace_not_push; [ | exact Hd] | ].
    + destruct (emits_output fuel prerolling drawpicture
                  (mkState (st_sys s1) (st_video s1) None w2
                     (st_trace s1 ++ [Ev_flush_data; Ev_block_Release block])))
        as (evs & Ht & HP).
      exists (Ev_block_Release block :: evs). subst s2. cbn [st_trace] in *.
      rewrite Ht, <- !app_assoc. split; [reflexivity | exact HP].
    + destruct Hex as (evs & Ht & HP).
      exists evs. subst s2. cbn [st_trace] in Ht.
      rewrite Ht, <- app_assoc. split; [reflexivity | exact HP].
  - rewrite Hrun in Hd. inversion Hd; subst. cbn [st_trace].
    eexists. split; reflexivity.
Qed.

End EmptyBlock.

(** C9: a block that is not NULL, has no bytes and passes the admission
    stage makes [Decode] call [de265_flush_data] and push nothing; when the
    engine accepts the flush the block is released and the call goes on
    with the ordinary drain loop and picture construction, and no push
    happens in the whole call after admission.  So such a block can return
    a picture: with one image waiting in the scripted engine it does. *)
Theorem empty_block_flush_then_drain :
  (forall (W : Type) (ext : External W) (fuel : nat) (dec : decoder_t)
          (s s1 : state W) (block : block_t) (prerolling drawpicture : bool),
     st_block s = Some block ->
     p_buffer block = [] ->
     admission fuel dec block s = Next (prerolling, drawpicture) s1 ->
     de265_isOK (fst (de265_flush_data (ctx (st_sys s1)) (st_ext s1))) = true ->
     Decode fuel dec s =
     finish (output fuel prerolling drawpicture
               (mkState (st_sys s1) (st_video s1) None
                        (snd (de265_flush_data (ctx (st_sys s1)) (st_ext s1)))
                        (st_trace s1 ++ [Ev_flush_data; Ev_block_Release block])))
     /\ (forall r s', Decode fuel dec s = Some (r, s') ->
         exists evs, st_trace s' = st_trace s1 ++ Ev_flush_data :: evs
                     /\ forallb not_push evs = true))
  /\ (exists pic s',
        Decode (ext := Mock.external) 3 (Mock.dec0 false false [])
               (Mock.late_session 0 (Some Mock.empty_block) [Mock.image0 5000])
        = Some (Some pic, s')
        /\ date pic = 5000
        /\ st_trace s' =
           [Ev_flush_data; Ev_block_Release Mock.empty_block; Ev_decode;
            Ev_get_next_picture; Ev_GetDisplayDate 5000; Ev_mdate;
            Ev_NewPicture (mkVideo 4 2 4 2)]).
Proof.
  split.
  - intros W ext fuel dec s s1 block pr dp Hb He Ha Hok.
    pose proof (@Decode_empty_block W ext fuel dec s s1 block pr dp Hb He Ha) as H.
    destruct (de265_flush_data (ctx (st_sys s1)) (st_ext s1)) as [err w2].
    cbn [fst snd] in *. rewrite Hok in H. exact H.
  - do 2 eexists. split; [vm_compute; reflexivity | split; reflexivity].
Qed.

(** ** The plane copy *)

Section Materializer.

Lemma copy_lines_log (lines : nat) (size src_stride dst_stride : Z) (src : list byte) :
  forall (soff doff : Z) (dst : list byte),
  snd (copy_lines lines size src_stride dst_stride src soff doff dst)
  = map (fun k => mkCopy (doff + Z.of_nat k * dst_stride)
                         (soff + Z.of_nat k * src_stride) size)
        (seq 0 lines).
Proof.
  induction lines as [ | n IH]; intros soff doff dst; [reflexivity | ].
  cbn [copy_lines].
  specialize (IH (soff + src_stride) (doff + dst_stride)
                 (memcpy dst doff src soff size)).
  destruct (copy_lines n size src_stride dst_stride src (soff + src_stride)
              (doff + dst_stride) (memcpy dst doff src soff size)) as [dst2 log].
  cbn [snd] in *. rewrite IH. cbn [seq map].
  f_equal; [f_equal; lia | ].
  rewrite <- seq_shift, map_map. apply map_ext. intros k.
  f_equal; lia.
Qed.

Lemma bytes_copied_const (size : Z) (f g : nat -> Z) (ks : list nat) :
  bytes_copied (map (fun k => mkCopy (f k) (g k) size) ks)
  = size * Z.of_nat (List.length ks).
Proof.
  induction ks as [ | k ks IH]; cbn [map bytes_copied fold_right List.length copy_size].
  - lia.
  - unfold bytes_copied in IH. rewrite IH. lia.
Qed.

Lemma copy_planes_nth (image : de265_image) (pls : list plane_t) :
  forall (start i : nat) (pl : plane_t),
  nth_error pls i = Some pl ->
  nth_error (fst (copy_planes image start pls)) i
  = Some (fst (copy_plane image (start + i) pl))
  /\ nth_error (snd (copy_planes image start pls)) i
     = Some (snd (copy_plane image (start + i) pl)).
Proof.
  induction pls as [ | pl0 rest IH]; intros start i pl Hnth.
  - destruct i; discriminate.
  - cbn [copy_planes].
    destruct (copy_plane image start pl0) as [pl0' log0] eqn:E0.
    specialize (IH (S start)).
    destruct (copy_planes image (S start) rest) as [rest' logs].
    destruct i as [ | i].
    + cbn in Hnth. inversion Hnth; subst. rewrite Nat.add_0_r, E0. split; reflexivity.
    + cbn in Hnth. cbn [fst snd nth_error] in *.
      replace (start + S i)%nat with (S start + i)%nat by lia.
      apply IH. exact Hnth.
Qed.

(** The calls of the inner loop on one plane: [memcpy] once per visible
    line and not once more, each time for min(source stride, destination
    pitch) bytes, line [k] reading at [k] source strides and writing at [k]
    destination pitches from the start of the planes. *)
Lemma copy_plane_calls (image : de265_image) (i : nat) (pl : plane_t) :
  0 <= i_visible_lines pl ->
  let src_stride := snd (de265_get_image_plane image i) in
  let size := Z.min src_stride (i_pitch pl) in
  let pl' := fst (copy_plane image i pl) in
  let log := snd (copy_plane image i pl) in
  i_pitch pl' = i_pitch pl
  /\ i_visible_lines pl' = i_visible_lines pl
  /\ log = map (fun k => mkCopy (Z.of_nat k * i_pitch pl)
                                (Z.of_nat k * src_stride) size)
               (seq 0 (Z.to_nat (i_visible_lines pl)))
  /\ Z.of_nat (List.length log) = i_visible_lines pl
  /\ bytes_copied log = size * i_visible_lines pl.
Proof.
  intros Hlines src_stride size pl' log. subst pl' log.
  unfold copy_plane. subst size src_stride.
  destruct (de265_get_image_plane image i) as [src ss]. cbn [snd].
  pose proof (copy_lines_log (Z.to_nat (i_visible_lines pl)) (Z.min ss (i_pitch pl))
                ss (i_pitch pl) src 0 0 (p_pixels pl)) as Hl.
  destruct (copy_lines (Z.to_nat (i_visible_lines pl)) (Z.min ss (i_pitch pl)) ss
              (i_pitch pl) src 0 0 (p_pixels pl)) as [dst log].
  cbn [fst snd i_pitch i_visible_lines] in *.
  split; [reflexivity | split; [reflexivity | ]].
  rewrite Hl. split; [ | split].
  - apply map_ext. intros k. f_equal; lia.
  - rewrite length_map, length_seq. lia.
  - rewrite bytes_copied_const, length_seq. rewrite Z2Nat.id by lia. reflexivity.
Qed.

Lemma copy_planes_length (image : de265_image) (pls : list plane_t) :
  forall start, List.length (fst (copy_planes image start pls)) = List.length pls.
Proof.
  induction pls as [ | pl rest IH]; intros start; [reflexivity | ].
  cbn [copy_planes]. destruct (copy_plane image start pl) as [pl' log].
  specialize (IH (S start)).
  destruct (copy_planes image (S start) rest) as [rest' logs].
  cbn [fst List.length] in *. rewrite IH. reflexivity.
Qed.

End Materializer.

(** ** The demultiplexer and the empty block on the scripted world *)

Section DemuxRuns.

Import Mock.

(** Witness for C3: two units, two pushes. *)
Lemma demux_round_trip_witness :
  nal_pushes (st_trace (flow_state
     (Decode_block 3 (dec0 false false []) framed_block
                   (packetized_session (Some framed_block) DE265_OK))))
  = [([x41; x42], 500); ([x43], 500)].
Proof.
  refine (proj1 (proj2
    (@demux_round_trip world external 3 (dec0 false false [])
       (packetized_session (Some framed_block) DE265_OK)
       (packetized_session (Some framed_block) DE265_OK)
       framed_block false true 2 [[x41; x42]; [x43]] _ _ _ _ _ _ _ _ _))).
  - reflexivity.
  - reflexivity.
  - reflexivity.
  - reflexivity.
  - lia.
  - reflexivity.
  - repeat constructor.
  - reflexivity.
  - cbn. lia.
Defined.

(** Witness for C4: the unit "A" is pushed, the prefix 00 05 stops the
    block. *)
Lemma framing_violation_witness :
  Decode 3 (dec0 false false []) (packetized_session (Some broken_block) DE265_OK)
  = Some (None,
          mkState (sys0 0 900 2 false true) (mkVideo 4 2 4 2) None (world0 [] DE265_OK)
                  [Ev_push_NAL [x41] 500;
                   Ev_msg Err "Buffer underrun while pushing data (%d > %ld)";
                   Ev_block_Release broken_block]).
Proof.
  refine (proj1
    (@framing_violation world external 3 (dec0 false false [])
       (packetized_session (Some broken_block) DE265_OK)
       (packetized_session (Some broken_block) DE265_OK)
       broken_block false true 2 [[x41]] 5 [x01; x02] _ _ _ _ _ _ _ _ _ _)).
  - reflexivity.
  - reflexivity.
  - reflexivity.
  - reflexivity.
  - lia.
  - reflexivity.
  - cbn. lia.
  - repeat constructor.
  - reflexivity.
  - cbn. lia.
Defined.

(** Witness for C9: the general half of the statement at the empty block
    with one on-time image waiting. *)
Lemma empty_block_flush_then_drain_witness :
  Decode 3 (dec0 false false []) (late_session 0 (Some empty_block) [image0 5000])
  = finish (output 3 false true
              (mkState (sys0 0 900 4 false false) (mkVideo 4 2 4 2) None
                       (world0 [image0 5000] DE265_OK)
                       [Ev_flush_data; Ev_block_Release empty_block])).
Proof.
  refine (proj1
    (proj1 empty_block_flush_then_drain world external 3%nat (dec0 false false [])
       (late_session 0 (Some empty_block) [image0 5000])
       (late_session 0 (Some empty_block) [image0 5000])
       empty_block false true _ _ _ _)).
  - reflexivity.
  - reflexivity.
  - reflexivity.
  - reflexivity.
Defined.

End DemuxRuns.

(** ** Late frames are only counted after the extradata has been examined *)

Section Invariant.

Context {W : Type} {ext : External W}.

Let checked := fun s : state W => check_extra (st_sys s).

Lemma keeps_checked_decode_extra (fuel : nat) : keeps checked (decode_extra fuel).
Proof.
  induction fuel as [ | f IH]; cbn [decode_extra]; unfold msg_Err; keeps.
Qed.

Lemma keeps_checked_push_NALs (pts : mtime_t) (fuel : nat) :
  forall p_buffer, keeps checked (push_NALs fuel pts p_buffer).
Proof.
  induction fuel as [ | f IH]; intros p_buffer; cbn [push_NALs]; unfold msg_Err; keeps.
Qed.

Lemma keeps_checked_next_image (fuel : nat) : keeps checked (next_image fuel).
Proof.
  induction fuel as [ | f IH]; cbn [next_image]; unfold msg_Err; keeps.
Qed.

Lemma keeps_checked_drain (inner : nat) (prerolling drawpicture : bool) (fuel : nat) :
  keeps checked (drain fuel inner prerolling drawpicture).
Proof.
  induction fuel as [ | f IH]; cbn [drain];
    unfold msg_Err, lateness_step, display_date_of, account_late, is_late; keeps;
    apply keeps_checked_next_image.
Qed.

(** Everything in [Decode] after the extradata probe. *)
Lemma keeps_checked_rest (fuel : nat) (dec : decoder_t) (block : block_t) :
  keeps checked
    (bind (bind (check_preroll block)
             (fun pd : bool * bool =>
                let (prerolling, drawpicture) := pd in
                bind (drop_always dec)
                  (fun _ => bind (drop_late dec drawpicture)
                              (fun dp => ret (prerolling, dp)))))
       (fun pd : bool * bool =>
          let (prerolling, drawpicture) := pd in
          bind (push_block fuel block)
            (fun _ => bind (release_block block)
                        (fun _ => output fuel prerolling drawpicture)))).
Proof.
  unfold check_preroll, drop_always, drop_late, push_block, release_block, output,
    materialize, update_geometry, set_block, set_video, msg_Err, msg_Warn.
  keeps;
    first [ apply keeps_checked_push_NALs | apply keeps_checked_drain
          | intros s; reflexivity ].
Qed.

Lemma bind_assoc {A B C} (m : M (W := W) A) (k : A -> M B) (h : B -> M C) (s : state W) :
  bind (bind m k) h s = bind m (fun a => bind (k a) h) s.
Proof. unfold bind. destruct (m s); reflexivity. Qed.

(** Wherever a [Decode] call stops, the counter is 0 or the extradata has
    been examined. *)
Lemma Decode_block_extra_checked (fuel : nat) (dec : decoder_t) (block : block_t)
    (s : state W) :
  extra_checked (st_sys (flow_state (Decode_block fuel dec block s))).
Proof.
  unfold Decode_block, admission.
  rewrite !bind_assoc.
  unfold bind at 1. unfold check_flags.
  destruct (flag_set (i_flags block)
              (Z.lor BLOCK_FLAG_DISCONTINUITY BLOCK_FLAG_CORRUPTED)).
  - left. unfold bind, modify_sys, get_sys, extern, goto_error, ret.
    destruct (flag_set (i_flags block) BLOCK_FLAG_DISCONTINUITY); cbn.
    + destruct (de265_reset _ _). reflexivity.
    + reflexivity.
  - right. cbn [ret]. rewrite bind_assoc.
    pose proof (keeps_checked_rest fuel dec block) as Hrest.
    unfold bind at 1.
    destruct (check_extra (st_sys s)) eqn:Hc.
    + pose proof (check_extradata_sys fuel dec s Hc) as Hsys.
      assert (Hce : check_extra (st_sys (flow_state (check_extradata fuel dec s))) = false).
      { rewrite Hsys. cbn zeta.
        destruct (i_extra (fmt_in dec) >? 0); [ | reflexivity].
        destruct (looks_packetized (p_extra (fmt_in dec))); [ | reflexivity].
        destruct (i_extra (fmt_in dec) >? 21); reflexivity. }
      destruct (check_extradata fuel dec s) as [[] s0 | s0 | r s0 | s0];
        cbn [flow_state] in *; try exact Hce.
      rewrite <- Hce. exact (Hrest s0).
    + unfold check_extradata. unfold bind at 1. cbn [get_sys]. rewrite Hc.
      cbn [ret]. rewrite <- Hc. exact (Hrest s).
Qed.

(** [Open] starts a session with the counter at 0, and every [Decode] call
    keeps the counter at 0 or leaves the extradata examined: the hypothesis
    [check_extra = false] of the late-frame statements holds in every
    session that has counted a late frame. *)
Lemma Decode_extra_checked (fuel : nat) (dec : decoder_t) (s s' : state W)
    (r : option picture_t) :
  extra_checked (st_sys s) ->
  Decode fuel dec s = Some (r, s') ->
  extra_checked (st_sys s').
Proof.
  intros Hinv Hd. unfold Decode in Hd.
  destruct (st_block s) as [block | ]; [ | inversion Hd; subst; exact Hinv].
  pose proof (Decode_block_extra_checked fuel dec block s) as H.
  destruct (Decode_block fuel dec block s) as [pic s1 | s1 | r1 s1 | s1];
    cbn in Hd, H; inversion Hd; subst; try exact H.
  unfold at_error. destruct (st_block s1); exact H.
Qed.

Lemma Open_extra_checked (dec dec' : decoder_t) (w w' : W) (t t' : list event)
    (st : vlc_status) (sys : decoder_sys_t) :
  Open dec w t = (st, dec', Some sys, w', t') -> extra_checked sys.
Proof.
  intros H.
  destruct (Open_sys_fields dec w t) as [Hn | (sys0 & Hs & Hl)].
  - unfold open_p_sys in Hn. rewrite H in Hn. discriminate.
  - unfold open_p_sys in Hs. rewrite H in Hs. cbn in Hs. inversion Hs; subst.
    left. exact Hl.
Qed.

End Invariant.

(** ** What the plane copy writes *)

Section CopyContent.

Variable x : byte.

Lemma memcpy_length (dst src : list byte) (doff soff size : Z) :
  (Z.to_nat doff + Z.to_nat size <= List.length dst)%nat ->
  List.length (memcpy dst doff src soff size) = List.length dst.
Proof.
  intros H. unfold memcpy.
  rewrite !length_app, length_skipn, !length_firstn, length_skipn. lia.
Qed.

Lemma memcpy_nth_copied (dst src : list byte) (doff soff size : Z) (j : nat) :
  (Z.to_nat doff + Z.to_nat size <= List.length dst)%nat ->
  (Z.to_nat soff + Z.to_nat size <= List.length src)%nat ->
  (j < Z.to_nat size)%nat ->
  nth (Z.to_nat doff + j) (memcpy dst doff src soff size) x
  = nth (Z.to_nat soff + j) src x.
Proof.
  intros Hd Hs Hj. unfold memcpy.
  rewrite app_nth2 by (rewrite length_firstn; lia).
  rewrite length_firstn.
  replace (Z.to_nat doff + j - Nat.min (Z.to_nat doff) (List.length dst))%nat
    with j by lia.
  rewrite app_nth1 by (rewrite length_firstn, length_skipn; lia).
  rewrite nth_firstn.
  destruct (Nat.ltb_spec j (Z.to_nat size)) as [_ | H]; [ | lia].
  apply nth_skipn.
Qed.

Lemma memcpy_nth_other (dst src : list byte) (doff soff size : Z) (i : nat) :
  (Z.to_nat doff + Z.to_nat size <= List.length dst)%nat ->
  (Z.to_nat soff + Z.to_nat size <= List.length src)%nat ->
  (i < Z.to_nat doff \/ Z.to_nat doff + Z.to_nat size <= i)%nat ->
  nth i (memcpy dst doff src soff size) x = nth i dst x.
Proof.
  intros Hd Hs Hi. unfold memcpy.
  assert (Hchunk : List.length (firstn (Z.to_nat size) (skipn (Z.to_nat soff) src))
                   = Z.to_nat size)
    by (rewrite length_firstn, length_skipn; lia).
  rewrite Hchunk.
  destruct Hi as [Hi | Hi].
  - rewrite app_nth1 by (rewrite length_firstn; lia).
    rewrite nth_firstn.
    destruct (Nat.ltb_spec i (Z.to_nat doff)) as [_ | H]; [reflexivity | lia].
  - rewrite app_nth2 by (rewrite length_firstn; lia).
    rewrite length_firstn.
    rewrite app_nth2 by (rewrite Hchunk; lia).
    rewrite Hchunk, nth_skipn. f_equal. lia.
Qed.

(** Line by line: the first [size] bytes of each destination line are those
    of the source line, every other byte of the destination is untouched,
    and the destination keeps its length.  The lines must lie inside the two
    buffers and must not overlap ([size <= dst_stride]). *)
Lemma copy_lines_content (lines : nat) (size src_stride dst_stride : Z)
    (src : list byte) :
  0 <= size <= dst_stride -> 0 <= src_stride ->
  forall (soff doff : Z) (dst : list byte),
  0 <= soff -> 0 <= doff ->
  (forall k, (k < lines)%nat ->
     soff + Z.of_nat k * src_stride + size <= Z.of_nat (List.length src)
     /\ doff + Z.of_nat k * dst_stride + size <= Z.of_nat (List.length dst)) ->
  let dst' := fst (copy_lines lines size src_stride dst_stride src soff doff dst) in
  List.length dst' = List.length dst
  /\ (forall k j, (k < lines)%nat -> 0 <= j < size ->
      nth (Z.to_nat (doff + Z.of_nat k * dst_stride + j)) dst' x
      = nth (Z.to_nat (soff + Z.of_nat k * src_stride + j)) src x)
  /\ (forall i,
      (forall k, (k < lines)%nat ->
         ~ (doff + Z.of_nat k * dst_stride <= Z.of_nat i
            < doff + Z.of_nat k * dst_stride + size)) ->
      nth i dst' x = nth i dst x).
Proof.
  intros Hsize Hss.
  induction lines as [ | n IH]; intros soff doff dst Hso Hdo Hin.
  - cbn. split; [reflexivity | split; [intros; lia | reflexivity]].
  - cbn [copy_lines].
    destruct (Hin 0%nat ltac:(lia)) as [Hs0 Hd0].
    assert (Hd : (Z.to_nat doff + Z.to_nat size <= List.length dst)%nat) by lia.
    assert (Hs : (Z.to_nat soff + Z.to_nat size <= List.length src)%nat) by lia.
    pose proof (memcpy_length dst src doff soff size Hd) as Hlen1.
    specialize (IH (soff + src_stride) (doff + dst_stride)
                   (memcpy dst doff src soff size) ltac:(lia) ltac:(lia)).
    destruct (copy_lines n size src_stride dst_stride src (soff + src_stride)
                (doff + dst_stride) (memcpy dst doff src soff size)) as [dst2 log].
    cbn [fst] in *.
    destruct IH as (Hlen & Hcopied & Hother).
    { intros k Hk. specialize (Hin (S k) ltac:(lia)).
      rewrite Nat2Z.inj_succ in Hin. rewrite Hlen1. lia. }
    split; [congruence | split].
    + intros k j Hk Hj. destruct k as [ | k].
      * rewrite Hother.
        -- replace (Z.to_nat (doff + Z.of_nat 0 * dst_stride + j))
             with (Z.to_nat doff + Z.to_nat j)%nat by lia.
           replace (Z.to_nat (soff + Z.of_nat 0 * src_stride + j))
             with (Z.to_nat soff + Z.to_nat j)%nat by lia.
           apply memcpy_nth_copied; lia.
        -- intros k Hk'. nia.
      * specialize (Hcopied k j ltac:(lia) Hj).
        rewrite Nat2Z.inj_succ.
        replace (doff + Z.succ (Z.of_nat k) * dst_stride + j)
          with (doff + dst_stride + Z.of_nat k * dst_stride + j) by lia.
        replace (soff + Z.succ (Z.of_nat k) * src_stride + j)
          with (soff + src_stride + Z.of_nat k * src_stride + j) by lia.
        exact Hcopied.
    + intros i Hi. rewrite Hother.
      * apply memcpy_nth_other; [exact Hd | exact Hs | ].
        specialize (Hi 0%nat ltac:(lia)). lia.
      * intros k Hk. specialize (Hi (S k) ltac:(lia)).
        rewrite Nat2Z.inj_succ in Hi. lia.
Qed.

(** X13: The same for one plane of the picture against the image plane of the
    same index, both allocated to their full stride times the visible
    lines. *)
Lemma copy_plane_content (image : de265_image) (plane : nat) (pl : plane_t) :
  let src := fst (de265_get_image_plane image plane) in
  let src_stride := snd (de265_get_image_plane image plane) in
  let size := Z.min src_stride (i_pitch pl) in
  let pl' := fst (copy_plane image plane pl) in
  0 <= src_stride -> 0 <= i_pitch pl -> 0 <= i_visible_lines pl ->
  i_visible_lines pl * src_stride <= Z.of_nat (List.length src) ->
  i_visible_lines pl * i_pitch pl <= Z.of_nat (List.length (p_pixels pl)) ->
  List.length (p_pixels pl') = List.length (p_pixels pl)
  /\ (forall line j, 0 <= line < i_visible_lines pl -> 0 <= j < size ->
      nth (Z.to_nat (line * i_pitch pl + j)) (p_pixels pl') x
      = nth (Z.to_nat (line * src_stride + j)) src x)
  /\ (forall line j, 0 <= line < i_visible_lines pl -> size <= j < i_pitch pl ->
      nth (Z.to_nat (line * i_pitch pl + j)) (p_pixels pl') x
      = nth (Z.to_nat (line * i_pitch pl + j)) (p_pixels pl) x).
Proof.
  intros src src_stride size pl' Hss Hds Hlines Hsrc Hdst.
  subst pl'. unfold copy_plane. subst src src_stride size.
  destruct (de265_get_image_plane image plane) as [src ss]. cbn [fst snd] in *.
  pose proof (@copy_lines_content (Z.to_nat (i_visible_lines pl))
                (Z.min ss (i_pitch pl)) ss (i_pitch pl) src ltac:(lia) Hss
                0 0 (p_pixels pl) ltac:(lia) ltac:(lia)) as H.
  destruct (copy_lines (Z.to_nat (i_visible_lines pl)) (Z.min ss (i_pitch pl)) ss
              (i_pitch pl) src 0 0 (p_pixels pl)) as [dst log].
  cbn [fst p_pixels] in *.
  destruct H as (Hlen & Hcopied & Hother).
  { intros k Hk. split; nia. }
  split; [exact Hlen | split].
  - intros line j Hline Hj.
    specialize (Hcopied (Z.to_nat line) j ltac:(lia) Hj).
    rewrite Z2Nat.id in Hcopied by lia. exact Hcopied.
  - intros line j Hline Hj. apply Hother.
    intros k Hk.
    assert (Hmin : 0 <= Z.min ss (i_pitch pl)) by lia.
    assert (Hpos : 0 <= line * i_pitch pl) by nia.
    rewrite Z2Nat.id by lia.
    destruct (Z.le_gt_cases (Z.of_nat k) line) as [Hle | Hgt].
    + assert (Z.of_nat k * i_pitch pl <= line * i_pitch pl)
        by (apply Z.mul_le_mono_nonneg_r; lia).
      lia.
    + assert ((line + 1) * i_pitch pl <= Z.of_nat k * i_pitch pl)
        by (apply Z.mul_le_mono_nonneg_r; lia).
      lia.
Qed.

End CopyContent.

(** ** More fuel never changes an outcome *)

Section Fuel.

Context {W : Type} {ext : External W}.

Lemma extends_refl {A} (m : M (W := W) A) : extends m m.
Proof. intros s. destruct (m s); reflexivity. Qed.

Lemma extends_bind {A B} (m m' : M (W := W) A) (k k' : A -> M B) :
  extends m m' -> (forall a, extends (k a) (k' a)) -> extends (bind m k) (bind m' k').
Proof.
  intros Hm Hk s. unfold bind. specialize (Hm s).
  destruct (m s) as [a s1 | s1 | r s1 | s1]; try (rewrite Hm; reflexivity); [ | exact I].
  rewrite Hm. specialize (Hk a s1). destruct (k a s1); try exact Hk; exact I.
Qed.

Lemma extends_if {A} (c : bool) (m1 m1' m2 m2' : M (W := W) A) :
  extends m1 m1' -> extends m2 m2' ->
  extends (if c then m1 else m2) (if c then m1' else m2').
Proof. destruct c; auto. Qed.

Lemma extends_out_of_fuel {A} (m : M (W := W) A) : extends out_of_fuel m.
Proof. intros s. exact I. Qed.

Ltac fuel_step :=
  repeat first
    [ apply extends_refl
    | apply extends_bind; [ | intros ? ]
    | apply extends_if
    | match goal with
      | |- extends (let (_, _) := ?p in _) _ => destruct p
      | |- extends (match ?e with _ => _ end) _ => destruct e
      end ].

Lemma decode_extra_fuel (n : nat) :
  forall m, (n <= m)%nat -> extends (decode_extra (W := W) n) (decode_extra m).
Proof.
  induction n as [ | n IH]; intros m Hm; [apply extends_out_of_fuel | ].
  destruct m as [ | m]; [lia | ]. cbn [decode_extra].
  fuel_step. apply IH. lia.
Qed.

Lemma push_NALs_fuel (pts : mtime_t) (n : nat) :
  forall m p_buffer, (n <= m)%nat ->
  extends (push_NALs (W := W) n pts p_buffer) (push_NALs m pts p_buffer).
Proof.
  induction n as [ | n IH]; intros m p_buffer Hm; [apply extends_out_of_fuel | ].
  destruct m as [ | m]; [lia | ]. cbn [push_NALs].
  fuel_step. apply IH. lia.
Qed.

Lemma next_image_fuel (n : nat) :
  forall m, (n <= m)%nat -> extends (next_image (W := W) n) (next_image m).
Proof.
  induction n as [ | n IH]; intros m Hm; [apply extends_out_of_fuel | ].
  destruct m as [ | m]; [lia | ]. cbn [next_image].
  fuel_step. apply IH. lia.
Qed.

Lemma drain_fuel (prerolling drawpicture : bool) (i i' : nat) (n : nat) :
  (i <= i')%nat ->
  forall m, (n <= m)%nat ->
  extends (drain (W := W) n i prerolling drawpicture) (drain m i' prerolling drawpicture).
Proof.
  intros Hi.
  induction n as [ | n IH]; intros m Hm; [apply extends_out_of_fuel | ].
  destruct m as [ | m]; [lia | ]. cbn [drain].
  apply extends_bind; [apply next_image_fuel; exact Hi | intros image].
  fuel_step. apply IH. lia.
Qed.

Lemma Decode_block_fuel (dec : decoder_t) (block : block_t) (n m : nat) :
  (n <= m)%nat ->
  extends (Decode_block (W := W) n dec block) (Decode_block m dec block).
Proof.
  intros Hnm. unfold Decode_block, admission, check_extradata, push_block, output.
  fuel_step;
    first [ apply decode_extra_fuel | apply push_NALs_fuel | apply drain_fuel ];
    exact Hnm.
Qed.

(** A result of [Decode] obtained with some fuel is its result with any
    larger fuel. *)
Lemma Decode_fuel (dec : decoder_t) (s : state W) (n m : nat)
    (r : option picture_t * state W) :
  (n <= m)%nat ->
  Decode n dec s = Some r ->
  Decode m dec s = Some r.
Proof.
  intros Hnm Hd. unfold Decode in *.
  destruct (st_block s) as [block | ]; [ | exact Hd].
  pose proof (Decode_block_fuel dec block Hnm s) as H.
  destruct (Decode_block n dec block s) as [pic s1 | s1 | r1 s1 | s1];
    try (rewrite H; exact Hd).
  discriminate.
Qed.

End Fuel.

(** ** Two sessions from start to picture *)

Section Scenarios.

Import Mock.

(** Extradata announcing packetized data with 4-byte lengths, then one
    block holding a single 10-byte unit at 1000; the engine needs two decode
    steps and then has one 4:2:0 image with that timestamp, due at 1100
    while the clock shows 1000.  One unit is pushed, one picture comes back
    at 1000, and no late frame is counted. *)
Example packetized_session_yields_picture :
  exists pic s',
    Decode 4 (dec0 false false config_extra4)
           (mkState (sys0 0 123456 4 true false) (mkVideo 4 2 4 2) (Some unit_block)
                    (mkWorld 1000 1 100 [image0 1000] DE265_OK 0 2) [])
    = Some (Some pic, s')
    /\ date pic = 1000
    /\ b_progressive pic = true
    /\ late_frames (st_sys s') = 0
    /\ length_size (st_sys s') = 4
    /\ packetized (st_sys s') = true
    /\ nal_pushes (st_trace s') = [(repeat x42 10, 1000)].
Proof.
  do 2 eexists. split; [vm_compute; reflexivity | ].
  repeat split.
Qed.

(** The same block offered to a session that is 13 frames late since a
    moment ago: it is dropped, the counter goes to 12, the engine is not
    called. *)
Example overloaded_session_drops_block :
  exists s',
    Decode 0 (dec0 false false [])
           (start0 (sys0 13 999 4 false true) (Some unit_block) (world0 [] DE265_OK))
    = Some (None, s')
    /\ late_frames (st_sys s') = 12
    /\ filter engine_event (st_trace s') = []
    /\ st_block s' = None.
Proof.
  eexists. split; [vm_compute; reflexivity | ].
  repeat split.
Qed.

End Scenarios.

(** * Further properties of the module *)

(** ** Exits and values of the stages *)

Section Exits.

Context {W : Type} {ext : External W}.

Lemma exits_bind {A B} (g : bool) (rp : option picture_t -> bool)
    (m : M (W := W) A) (k : A -> M B) :
  exits g rp m -> (forall a, exits g rp (k a)) -> exits g rp (bind m k).
Proof.
  intros Hm Hk s. unfold bind. specialize (Hm s).
  destruct (m s) as [a s1 | s1 | r s1 | s1]; try exact Hm.
  apply Hk.
Qed.

Lemma exits_if {A} (g : bool) (rp : option picture_t -> bool) (c : bool)
    (m1 m2 : M (W := W) A) :
  exits g rp m1 -> exits g rp m2 -> exits g rp (if c then m1 else m2).
Proof. destruct c; auto. Qed.

Lemma exits_ret {A} (g : bool) (rp : option picture_t -> bool) (a : A) :
  exits (W := W) g rp (ret a).
Proof. intros s. exact I. Qed.

Lemma exits_goto {A} (rp : option picture_t -> bool) :
  exits true rp (@goto_error W A).
Proof. intros s. reflexivity. Qed.

Lemma exits_return_null {A} (g : bool) : exits g null_only (@return_ W A None).
Proof. intros s. reflexivity. Qed.

Lemma exits_out_of_fuel {A} (g : bool) (rp : option picture_t -> bool) :
  exits g rp (@out_of_fuel W A).
Proof. intros s. exact I. Qed.

Lemma exits_extern {A} (g : bool) (rp : option picture_t -> bool) (e : event)
    (f : W -> A * W) :
  exits g rp (extern e f).
Proof. intros s. unfold extern. destruct (f (st_ext s)). exact I. Qed.

Lemma exits_emit (g : bool) (rp : option picture_t -> bool) (e : event) :
  exits (W := W) g rp (emit e).
Proof. intros s. exact I. Qed.

Lemma exits_modify_sys (g : bool) (rp : option picture_t -> bool)
    (f : decoder_sys_t -> decoder_sys_t) :
  exits (W := W) g rp (modify_sys f).
Proof. intros s. exact I. Qed.

Lemma exits_get_sys (g : bool) (rp : option picture_t -> bool) :
  exits (W := W) g rp get_sys.
Proof. intros s. exact I. Qed.

Lemma exits_get_video (g : bool) (rp : option picture_t -> bool) :
  exits (W := W) g rp get_video.
Proof. intros s. exact I. Qed.

Lemma exits_set_video (g : bool) (rp : option picture_t -> bool) (v : video_format_t) :
  exits (W := W) g rp (set_video v).
Proof. intros s. exact I. Qed.

Lemma exits_set_block (g : bool) (rp : option picture_t -> bool) (b : option block_t) :
  exits (W := W) g rp (set_block b).
Proof. intros s. exact I. Qed.

Lemma exits_weaken {A} (g g' : bool) (rp rp' : option picture_t -> bool)
    (m : M (W := W) A) :
  (g = true -> g' = true) -> (forall r, rp r = true -> rp' r = true) ->
  exits g rp m -> exits g' rp' m.
Proof.
  intros Hg Hr Hm s. specialize (Hm s).
  destruct (m s); auto.
Qed.

Lemma yields_bind {A B} (P : B -> Prop) (m : M (W := W) A) (k : A -> M B) :
  (forall a, yields P (k a)) -> yields P (bind m k).
Proof.
  intros Hk s b s' H. unfold bind in H.
  destruct (m s) as [a s1 | s1 | r s1 | s1]; try discriminate.
  exact (Hk a s1 b s' H).
Qed.

Lemma sys_inv_bind {A B} (Q : decoder_sys_t -> Prop) (m : M (W := W) A) (k : A -> M B) :
  sys_inv Q m -> (forall a, sys_inv Q (k a)) -> sys_inv Q (bind m k).
Proof.
  intros Hm Hk s HQ. unfold bind. specialize (Hm s HQ).
  destruct (m s) as [a s1 | s1 | r s1 | s1]; cbn in *; try exact Hm.
  apply Hk. exact Hm.
Qed.

Lemma sys_inv_keeps {A} (Q : decoder_sys_t -> Prop) (m : M (W := W) A) :
  keeps st_sys m -> sys_inv Q m.
Proof. intros H s HQ. rewrite (H s). exact HQ. Qed.

Lemma sys_inv_if {A} (Q : decoder_sys_t -> Prop) (c : bool) (m1 m2 : M (W := W) A) :
  sys_inv Q m1 -> sys_inv Q m2 -> sys_inv Q (if c then m1 else m2).
Proof. destruct c; auto. Qed.

Lemma sys_inv_modify (Q : decoder_sys_t -> Prop) (f : decoder_sys_t -> decoder_sys_t) :
  (forall y, Q y -> Q (f y)) -> sys_inv (W := W) Q (modify_sys f).
Proof. intros H s HQ. apply H. exact HQ. Qed.

End Exits.

Create HintDb exits.
#[global] Hint Resolve exits_ret exits_goto exits_return_null exits_out_of_fuel
  exits_extern exits_emit exits_modify_sys exits_get_sys exits_get_video
  exits_set_video exits_set_block : exits.

Ltac exits_walk :=
  repeat first
    [ apply exits_bind; [ | intros ? ]
    | apply exits_if
    | solve [auto with exits]
    | match goal with
      | |- exits _ _ (let (_, _) := ?p in _) => destruct p
      | |- exits _ _ (match ?e with _ => _ end) => destruct e
      end ].

Ltac sys_inv_walk :=
  repeat first
    [ apply sys_inv_bind; [ | intros ? ]
    | apply sys_inv_if
    | solve [apply sys_inv_keeps; auto with keeps]
    | match goal with
      | |- sys_inv _ (let (_, _) := ?p in _) => destruct p
      | |- sys_inv _ (match ?e with _ => _ end) => destruct e
      end ].

(** ** Which calls each stage makes, and how it ends *)

Section StageCalls.

Context {W : Type} {ext : External W}.

Lemma calls_decode_extra (fuel : nat) :
  emits_only admission_event (decode_extra (W := W) fuel).
Proof.
  induction fuel as [ | f IH]; cbn [decode_extra]; unfold msg_Err; emits.
Qed.

Lemma calls_admission (fuel : nat) (dec : decoder_t) (block : block_t) :
  emits_only admission_event (admission (W := W) fuel dec block).
Proof.
  unfold admission, check_flags, check_extradata, probe_extradata, check_preroll,
    drop_always, drop_late, msg_Err, msg_Warn, msg_Dbg.
  emits. apply calls_decode_extra.
Qed.

Lemma calls_push_NALs (pts : mtime_t) (fuel : nat) :
  forall p_buffer, emits_only push_stage_event (push_NALs (W := W) fuel pts p_buffer).
Proof.
  induction fuel as [ | f IH]; intros p_buffer; cbn [push_NALs]; unfold msg_Err; emits.
Qed.

Lemma calls_push_block (fuel : nat) (block : block_t) :
  emits_only push_stage_event (push_block (W := W) fuel block).
Proof.
  unfold push_block, msg_Err. emits. apply calls_push_NALs.
Qed.

Lemma calls_next_image (fuel : nat) : emits_only output_event (next_image (W := W) fuel).
Proof.
  induction fuel as [ | f IH]; cbn [next_image]; unfold msg_Err; emits.
Qed.

Lemma calls_drain (inner : nat) (prerolling drawpicture : bool) (fuel : nat) :
  emits_only output_event (drain (W := W) fuel inner prerolling drawpicture).
Proof.
  induction fuel as [ | f IH]; cbn [drain];
    unfold msg_Err, lateness_step, display_date_of, account_late, is_late; emits;
    apply calls_next_image.
Qed.

Lemma calls_output (fuel : nat) (prerolling drawpicture : bool) :
  emits_only output_event (output (W := W) fuel prerolling drawpicture).
Proof.
  unfold output, materialize, update_geometry. emits. apply calls_drain.
Qed.

Lemma keeps_block_push_NALs (pts : mtime_t) (fuel : nat) :
  forall p_buffer, keeps st_block (push_NALs (W := W) fuel pts p_buffer).
Proof.
  induction fuel as [ | f IH]; intros p_buffer; cbn [push_NALs]; unfold msg_Err; keeps.
Qed.

Lemma keeps_block_push_block (fuel : nat) (block : block_t) :
  keeps st_block (push_block (W := W) fuel block).
Proof.
  unfold push_block, msg_Err. keeps. apply keeps_block_push_NALs.
Qed.

Lemma keeps_block_next_image (fuel : nat) : keeps st_block (next_image (W := W) fuel).
Proof.
  induction fuel as [ | f IH]; cbn [next_image]; unfold msg_Err; keeps.
Qed.

Lemma keeps_block_drain (inner : nat) (prerolling drawpicture : bool) (fuel : nat) :
  keeps st_block (drain (W := W) fuel inner prerolling drawpicture).
Proof.
  induction fuel as [ | f IH]; cbn [drain];
    unfold msg_Err, lateness_step, display_date_of, account_late, is_late; keeps;
    apply keeps_block_next_image.
Qed.

Lemma keeps_block_output (fuel : nat) (prerolling drawpicture : bool) :
  keeps st_block (output (W := W) fuel prerolling drawpicture).
Proof.
  unfold output, materialize, update_geometry, set_video. keeps;
    first [apply keeps_block_drain | intros s; reflexivity].
Qed.

(** The stages before the release end by falling through or by the error
    exit, never by a [return]. *)
Lemma exits_decode_extra (fuel : nat) :
  exits true no_value (decode_extra (W := W) fuel).
Proof.
  induction fuel as [ | f IH]; cbn [decode_extra]; unfold msg_Err; exits_walk.
Qed.

Lemma exits_admission (fuel : nat) (dec : decoder_t) (block : block_t) :
  exits true no_value (admission (W := W) fuel dec block).
Proof.
  unfold admission, check_flags, check_extradata, probe_extradata, check_preroll,
    drop_always, drop_late, msg_Err, msg_Warn, msg_Dbg.
  exits_walk. apply exits_decode_extra.
Qed.

Lemma exits_push_NALs (pts : mtime_t) (fuel : nat) :
  forall p_buffer, exits true no_value (push_NALs (W := W) fuel pts p_buffer).
Proof.
  induction fuel as [ | f IH]; intros p_buffer; cbn [push_NALs]; unfold msg_Err;
    exits_walk.
Qed.

Lemma exits_push_block (fuel : nat) (block : block_t) :
  exits true no_value (push_block (W := W) fuel block).
Proof.
  unfold push_block, msg_Err. exits_walk. apply exits_push_NALs.
Qed.

(** The stage after the release never takes the error exit, and returns
    only NULL. *)
Lemma exits_next_image (fuel : nat) : exits false null_only (next_image (W := W) fuel).
Proof.
  induction fuel as [ | f IH]; cbn [next_image]; unfold msg_Err; exits_walk.
Qed.

Lemma exits_drain (inner : nat) (prerolling drawpicture : bool) (fuel : nat) :
  exits false null_only (drain (W := W) fuel inner prerolling drawpicture).
Proof.
  induction fuel as [ | f IH]; cbn [drain];
    unfold msg_Err, lateness_step, display_date_of, account_late, is_late; exits_walk;
    apply exits_next_image.
Qed.

Lemma exits_output (fuel : nat) (prerolling drawpicture : bool) :
  exits false null_only (output (W := W) fuel prerolling drawpicture).
Proof.
  unfold output, materialize, update_geometry. exits_walk. apply exits_drain.
Qed.

End StageCalls.

(** ** The ways a [Decode] call ends *)

Section Outcomes.

Context {W : Type} {ext : External W}.

(** A call on a block either is abandoned before the release (by the
    admission stage or while handing over the bytes), or hands the block
    over, releases it and ends in the drain stage, with a picture or with
    NULL. *)
Lemma Decode_outcome (fuel : nat) (dec : decoder_t) (s s' : state W) (block : block_t)
    (r : option picture_t) :
  st_block s = Some block ->
  Decode fuel dec s = Some (r, s') ->
  (exists s1,
     (admission fuel dec block s = Goto_error s1
      \/ exists pd s0, admission fuel dec block s = Next pd s0
                       /\ push_block fuel block s0 = Goto_error s1)
     /\ r = None /\ s' = at_error s1)
  \/ (exists prerolling drawpicture s0 s2,
        admission fuel dec block s = Next (prerolling, drawpicture) s0
        /\ push_block fuel block s0 = Next tt s2
        /\ ((exists pic, output fuel prerolling drawpicture (released block s2)
                         = Next pic s' /\ r = Some pic)
            \/ (output fuel prerolling drawpicture (released block s2) = Return None s'
                /\ r = None))).
Proof.
  intros Hb Hd. unfold Decode in Hd. rewrite Hb in Hd.
  unfold Decode_block in Hd. unfold bind at 1 in Hd.
  pose proof (exits_admission fuel dec block s) as Hea.
  destruct (admission fuel dec block s) as [[pr dp] s0 | s1 | r1 s1 | s1] eqn:Ea.
  - unfold bind at 1 in Hd.
    pose proof (exits_push_block fuel block s0) as Hep.
    destruct (push_block fuel block s0) as [[] s2 | s1 | r1 s1 | s1] eqn:Ep.
    + right. exists pr, dp, s0, s2. split; [reflexivity | split; [exact Ep | ]].
      unfold bind at 1 in Hd. unfold release_block, bind, emit, set_block in Hd.
      cbn [st_sys st_video st_block st_ext st_trace] in Hd.
      fold (released block s2) in Hd.
      pose proof (exits_output fuel pr dp (released block s2)) as Heo.
      destruct (output fuel pr dp (released block s2)) as [pic s3 | s3 | r3 s3 | s3];
        cbn in Hd.
      * inversion Hd; subst. left. exists pic. split; reflexivity.
      * discriminate Heo.
      * inversion Hd; subst. destruct r; [discriminate Heo | ].
        right. split; reflexivity.
      * discriminate.
    + left. exists s1. cbn in Hd. inversion Hd; subst.
      split; [right; exists (pr, dp), s0; split; [reflexivity | exact Ep]
             | split; reflexivity].
    + discriminate Hep.
    + discriminate.
  - left. exists s1. cbn in Hd. inversion Hd; subst.
    split; [left; reflexivity | split; reflexivity].
  - discriminate Hea.
  - discriminate.
Qed.

End Outcomes.

(** ** The block is released exactly once *)

Section Release.

Context {W : Type} {ext : External W}.

Lemma filter_release_none (P : event -> bool) (evs : list event) :
  (forall e, P e = true -> release_event e = false) ->
  forallb P evs = true ->
  filter release_event evs = [].
Proof.
  intros HP. induction evs as [ | e evs IH]; cbn; [reflexivity | ].
  intros H. apply andb_true_iff in H. destruct H as [He Hevs].
  rewrite (HP e He). apply IH. exact Hevs.
Qed.

(** A stage that keeps [*pp_block] and makes none of the release calls. *)
Lemma stage_quiet {A} (P : event -> bool) (m : M (W := W) A) (s : state W) :
  (forall e, P e = true -> release_event e = false) ->
  emits_only P m -> keeps st_block m ->
  st_block (flow_state (m s)) = st_block s
  /\ exists evs, st_trace (flow_state (m s)) = st_trace s ++ evs
                 /\ filter release_event evs = [].
Proof.
  intros HP He Hk. split; [apply Hk | ].
  destruct (He s) as (evs & Ht & Hall).
  exists evs. split; [exact Ht | ].
  apply filter_release_none with (P := P); assumption.
Qed.

Lemma admission_event_not_release (e : event) :
  admission_event e = true -> release_event e = false.
Proof. destruct e; cbn; congruence. Qed.

Lemma push_stage_event_not_release (e : event) :
  push_stage_event e = true -> release_event e = false.
Proof. destruct e; cbn; congruence. Qed.

Lemma output_event_not_release (e : event) :
  output_event e = true -> release_event e = false.
Proof. destruct e; cbn; congruence. Qed.

(** X1: Every [Decode] call on a block that comes back has released that block
    exactly once and has set [*pp_block] to NULL, whether it decoded, dropped
    the block or failed: the block is never leaked and never released
    twice. *)
Theorem Decode_releases_block_once (fuel : nat) (dec : decoder_t) (s s' : state W)
    (block : block_t) (r : option picture_t) :
  st_block s = Some block ->
  Decode fuel dec s = Some (r, s') ->
  st_block s' = None
  /\ exists evs, st_trace s' = st_trace s ++ evs
                 /\ filter release_event evs = [Ev_block_Release block].
Proof.
  intros Hb Hd.
  pose proof (stage_quiet s admission_event_not_release
                (calls_admission fuel dec block) (keeps_block_admission fuel dec block))
    as (Hba & evs1 & Ht1 & Hf1).
  destruct (@Decode_outcome W ext fuel dec s s' block r Hb Hd)
    as [(s1 & Hwhere & _ & Hs') | (pr & dp & s0 & s2 & Ea & Ep & Hout)].
  - assert (Hs1 : st_block s1 = Some block
                  /\ exists evs, st_trace s1 = st_trace s ++ evs
                                 /\ filter release_event evs = []).
    { destruct Hwhere as [Ea | (pd & s0 & Ea & Ep)].
      - rewrite Ea in Hba, Ht1. cbn in Hba, Ht1.
        split; [congruence | exists evs1; split; assumption].
      - rewrite Ea in Hba, Ht1. cbn in Hba, Ht1.
        pose proof (stage_quiet s0 push_stage_event_not_release
                      (calls_push_block fuel block) (keeps_block_push_block fuel block))
          as (Hbp & evs2 & Ht2 & Hf2).
        rewrite Ep in Hbp, Ht2. cbn in Hbp, Ht2.
        split; [congruence | ].
        exists (evs1 ++ evs2). rewrite Ht2, Ht1, app_assoc, filter_app, Hf1, Hf2.
        split; reflexivity. }
    destruct Hs1 as (Hb1 & evs & Ht & Hf).
    subst s'. unfold at_error. rewrite Hb1. cbn [st_block st_trace].
    split; [reflexivity | ].
    exists (evs ++ [Ev_block_Release block]).
    rewrite Ht, app_assoc, filter_app, Hf. split; reflexivity.
  - rewrite Ea in Hba, Ht1. cbn in Hba, Ht1.
    pose proof (stage_quiet s0 push_stage_event_not_release
                  (calls_push_block fuel block) (keeps_block_push_block fuel block))
      as (Hbp & evs2 & Ht2 & Hf2).
    rewrite Ep in Hbp, Ht2. cbn in Hbp, Ht2.
    pose proof (stage_quiet (released block s2) output_event_not_release
                  (calls_output fuel pr dp) (keeps_block_output fuel pr dp))
      as (Hbo & evs3 & Ht3 & Hf3).
    assert (Hs' : flow_state (output fuel pr dp (released block s2)) = s')
      by (destruct Hout as [(pic & Ho & _) | (Ho & _)]; rewrite Ho; reflexivity).
    rewrite Hs' in Hbo, Ht3. cbn [released st_block st_trace] in Hbo, Ht3.
    split; [exact Hbo | ].
    exists (evs1 ++ evs2 ++ [Ev_block_Release block] ++ evs3).
    rewrite Ht3, Ht2, Ht1, <- !app_assoc. split; [reflexivity | ].
    rewrite !filter_app, Hf1, Hf2, Hf3. reflexivity.
Qed.

End Release.

(** ** When a picture is shown *)

Section Shown.

Context {W : Type} {ext : External W}.

Lemma flag_set_zero (flags mask : Z) :
  flag_set flags mask = false -> Z.land flags mask = 0.
Proof.
  unfold flag_set. destruct (Z.eqb_spec (Z.land flags mask) 0); [auto | discriminate].
Qed.

Lemma keeps_late_decode_extra (fuel : nat) :
  keeps (fun s => late_frames (st_sys s)) (decode_extra (W := W) fuel).
Proof.
  induction fuel as [ | f IH]; cbn [decode_extra]; unfold msg_Err; keeps.
Qed.

(** The extradata probe does no late-frame accounting. *)
Lemma keeps_late_check_extradata (fuel : nat) (dec : decoder_t) :
  keeps (fun s => late_frames (st_sys s)) (check_extradata (W := W) fuel dec).
Proof.
  unfold check_extradata, probe_extradata, msg_Err, msg_Dbg.
  keeps. apply keeps_late_decode_extra.
Qed.

(** A block comes out of the admission stage as displayable only if it has
    none of the three flags and, unless the host paces the output, at most
    four late frames are counted; the count is then what it was. *)
Lemma admission_shows (fuel : nat) (dec : decoder_t) (block : block_t) (s s0 : state W)
    (prerolling : bool) :
  admission fuel dec block s = Next (prerolling, true) s0 ->
  plain_block block
  /\ prerolling = false
  /\ (b_pace_control dec = true \/ late_frames (st_sys s) <= LATE_FRAMES_DROP_DECODER)
  /\ late_frames (st_sys s0) = late_frames (st_sys s).
Proof.
  intros H. unfold admission in H. unfold bind at 1 in H.
  unfold check_flags in H.
  destruct (flag_set (i_flags block)
              (Z.lor BLOCK_FLAG_DISCONTINUITY BLOCK_FLAG_CORRUPTED)) eqn:Hf.
  { exfalso. unfold bind, modify_sys, get_sys, extern, goto_error, ret in H.
    destruct (flag_set (i_flags block) BLOCK_FLAG_DISCONTINUITY); cbn in H;
      [destruct (de265_reset _ _) | ]; discriminate. }
  cbn [ret] in H. unfold bind at 1 in H.
  pose proof (keeps_late_check_extradata fuel dec s) as Hlate.
  destruct (check_extradata fuel dec s) as [[] s1 | s1 | r1 s1 | s1]; try discriminate.
  cbn in Hlate. unfold bind at 1 in H. unfold check_preroll in H.
  rewrite flag_set_lor in Hf. apply orb_false_iff in Hf. destruct Hf as [Hd Hc].
  destruct (flag_set (i_flags block) BLOCK_FLAG_PREROLL) eqn:Hp.
  { exfalso.
    unfold bind, modify_sys, ret, drop_always, drop_late, get_sys in H. cbn in H.
    unfold LATE_FRAMES_DROP_DECODER in H.
    destruct (b_pace_control dec); cbn in H; inversion H. }
  cbn [ret] in H.
  unfold drop_always, drop_late, bind, get_sys, extern, modify_sys, msg_Err, msg_Warn,
    emit, goto_error, ret in H.
  assert (Hplain : plain_block block)
    by (repeat split; apply flag_set_zero; assumption).
  destruct (b_pace_control dec) eqn:Hpace; cbn in H.
  - inversion H; subst.
    split; [exact Hplain | split; [reflexivity | split; [left; reflexivity | exact Hlate]]].
  - destruct (Z.gtb_spec (late_frames (st_sys s1)) 0) as [Hpos | Hpos]; cbn in H.
    + destruct (mdate (st_ext s1)) as [now w1]. cbn in H.
      destruct (now - late_frames_start (st_sys s1)
                >? LATE_FRAMES_DROP_ALWAYS_AGE * CLOCK_FREQ); cbn in H;
        [discriminate | ].
      destruct (Z.gtb_spec (late_frames (st_sys s1)) LATE_FRAMES_DROP_DECODER)
        as [H4 | H4]; cbn in H.
      * destruct (late_frames (st_sys s1) <? LATE_FRAMES_DROP_HARD); cbn in H;
          inversion H.
      * inversion H; subst. cbn [st_sys].
        split; [exact Hplain | split; [reflexivity | split; [right; lia | exact Hlate]]].
    + destruct (Z.gtb_spec (late_frames (st_sys s1)) LATE_FRAMES_DROP_DECODER)
        as [H4 | H4]; cbn in H.
      * unfold LATE_FRAMES_DROP_DECODER in H4. lia.
      * inversion H; subst.
        split; [exact Hplain | split; [reflexivity | split; [right; lia | exact Hlate]]].
Qed.

(** With [drawpicture] false the drain loop never hands an image on. *)
Lemma drain_hidden (inner : nat) (prerolling : bool) (fuel : nat) :
  yields (fun _ => False) (drain (W := W) fuel inner prerolling false).
Proof.
  induction fuel as [ | f IH]; cbn [drain]; [intros s a s' H; discriminate | ].
  apply yields_bind. intros [image | ]; [ | intros s a s' H; discriminate].
  destruct (negb (is_420 (image_chroma image))).
  - apply yields_bind. intros _ s a s' H. discriminate.
  - apply yields_bind. intros _. exact IH.
Qed.

Lemma output_progressive (fuel : nat) (prerolling drawpicture : bool) :
  yields (fun pic => b_progressive pic = true)
         (output (W := W) fuel prerolling drawpicture).
Proof.
  unfold output, materialize. apply yields_bind. intros [image pts].
  apply yields_bind. intros _. apply yields_bind. intros v.
  apply yields_bind. intros [pic | ]; [ | intros s1 x s' H; discriminate].
  destruct (copy_planes image 0 (p pic)) as [planes logs].
  intros s1 x s' H. inversion H; subst. reflexivity.
Qed.

(** X2: Whenever [Decode] returns a picture, the block carried none of the
    discontinuity, corrupted and preroll flags, and either the host paces
    the output or at most four late frames were counted when the call
    started; the picture is marked progressive. *)
Theorem picture_only_when_shown (fuel : nat) (dec : decoder_t) (s s' : state W)
    (block : block_t) (pic : picture_t) :
  st_block s = Some block ->
  Decode fuel dec s = Some (Some pic, s') ->
  plain_block block
  /\ (b_pace_control dec = true \/ late_frames (st_sys s) <= LATE_FRAMES_DROP_DECODER)
  /\ b_progressive pic = true.
Proof.
  intros Hb Hd.
  destruct (@Decode_outcome W ext fuel dec s s' block (Some pic) Hb Hd)
    as [(s1 & _ & Hr & _) | (pr & dp & s0 & s2 & Ea & Ep & Hout)];
    [discriminate | ].
  destruct Hout as [(pic' & Ho & Hr) | (_ & Hr)]; [ | discriminate].
  inversion Hr; subst pic'.
  destruct dp.
  - destruct (admission_shows _ _ _ _ Ea) as (Hplain & _ & Hlate & _).
    split; [exact Hplain | split; [exact Hlate | ]].
    eapply (output_progressive fuel pr true). exact Ho.
  - exfalso. unfold output in Ho. unfold bind in Ho.
    destruct (drain fuel fuel pr false (released block s2)) as [ip s3 | | | ] eqn:Edr;
      try discriminate.
    eapply (drain_hidden fuel pr fuel). exact Edr.
Qed.

End Shown.

(** ** The late-frame counter never goes below zero *)

Section Counter.

Context {W : Type} {ext : External W}.

Let nonneg := fun y : decoder_sys_t => 0 <= late_frames y.

Lemma nonneg_keeps_late {A} (m : M (W := W) A) :
  keeps (fun s => late_frames (st_sys s)) m -> sys_inv nonneg m.
Proof. intros H s HQ. unfold nonneg in *. rewrite (H s). exact HQ. Qed.

Lemma keeps_sys_push_NALs (pts : mtime_t) (fuel : nat) :
  forall p_buffer, keeps st_sys (push_NALs (W := W) fuel pts p_buffer).
Proof.
  induction fuel as [ | f IH]; intros p_buffer; cbn [push_NALs]; unfold msg_Err; keeps.
Qed.

Lemma keeps_sys_push_block (fuel : nat) (block : block_t) :
  keeps st_sys (push_block (W := W) fuel block).
Proof.
  unfold push_block, msg_Err. keeps. apply keeps_sys_push_NALs.
Qed.

Lemma keeps_sys_next_image (fuel : nat) : keeps st_sys (next_image (W := W) fuel).
Proof.
  induction fuel as [ | f IH]; cbn [next_image]; unfold msg_Err; keeps.
Qed.

Lemma keeps_sys_materialize (image : de265_image) (pts : mtime_t) :
  keeps st_sys (materialize (W := W) image pts).
Proof. unfold materialize, update_geometry. keeps. Qed.

Lemma nonneg_drop_always (dec : decoder_t) : sys_inv nonneg (drop_always (W := W) dec).
Proof.
  intros s HQ. unfold nonneg in *.
  unfold drop_always, bind, get_sys, extern, modify_sys, msg_Err, emit, goto_error, ret.
  destruct (negb (b_pace_control dec)); cbn; [ | exact HQ].
  destruct (Z.gtb_spec (late_frames (st_sys s)) 0) as [Hpos | _]; cbn; [ | exact HQ].
  destruct (mdate (st_ext s)) as [now w1]. cbn.
  destruct (now - late_frames_start (st_sys s)
            >? LATE_FRAMES_DROP_ALWAYS_AGE * CLOCK_FREQ); cbn; lia.
Qed.

Lemma nonneg_drop_late (dec : decoder_t) (drawpicture : bool) :
  sys_inv nonneg (drop_late (W := W) dec drawpicture).
Proof.
  intros s HQ. unfold nonneg in *.
  unfold drop_late, bind, get_sys, modify_sys, msg_Warn, emit, goto_error, ret.
  destruct (negb (b_pace_control dec)); cbn; [ | exact HQ].
  unfold LATE_FRAMES_DROP_DECODER.
  destruct (Z.gtb_spec (late_frames (st_sys s)) 4) as [Hpos | _]; cbn; [ | exact HQ].
  destruct (late_frames (st_sys s) <? LATE_FRAMES_DROP_HARD); cbn; lia.
Qed.

Lemma nonneg_lateness_step (prerolling : bool) (pts : mtime_t) :
  sys_inv nonneg (lateness_step (W := W) prerolling pts).
Proof.
  intros s HQ. unfold nonneg in *.
  unfold lateness_step, display_date_of, account_late, is_late, bind, extern,
    modify_sys, get_sys, ret.
  destruct prerolling; cbn; [lia | ].
  destruct (decoder_GetDisplayDate pts (st_ext s)) as [dd w1]. cbn.
  destruct (dd >? 0); cbn; [ | lia].
  destruct (mdate w1) as [now w2]. cbn.
  destruct (dd <=? now); cbn; [ | lia].
  destruct (late_frames (st_sys s) + 1 =? 1); cbn; [ | lia].
  destruct (mdate w2) as [now2 w3]. cbn. lia.
Qed.

Lemma nonneg_drain (inner : nat) (prerolling drawpicture : bool) (fuel : nat) :
  sys_inv nonneg (drain (W := W) fuel inner prerolling drawpicture).
Proof.
  induction fuel as [ | f IH]; cbn [drain]; [intros s HQ; exact HQ | ].
  apply sys_inv_bind; [apply sys_inv_keeps, keeps_sys_next_image | ].
  intros [image | ]; [ | apply sys_inv_keeps; auto with keeps].
  apply sys_inv_if.
  - unfold msg_Err. apply sys_inv_keeps. keeps.
  - apply sys_inv_bind; [apply nonneg_lateness_step | intros _].
    apply sys_inv_if; [exact IH | apply sys_inv_keeps; auto with keeps].
Qed.

Lemma nonneg_Decode_block (fuel : nat) (dec : decoder_t) (block : block_t) :
  sys_inv nonneg (Decode_block (W := W) fuel dec block).
Proof.
  assert (Hzero : sys_inv (W := W) (A := unit) nonneg (modify_sys (set_late_frames 0)))
    by (apply sys_inv_modify; intros y _; unfold nonneg; cbn; lia).
  unfold Decode_block. apply sys_inv_bind.
  - unfold admission.
    apply sys_inv_bind.
    { unfold check_flags. apply sys_inv_if; [ | apply sys_inv_keeps; auto with keeps].
      apply sys_inv_bind; [exact Hzero | intros _].
      apply sys_inv_keeps. keeps. }
    intros _. apply sys_inv_bind;
      [apply nonneg_keeps_late, keeps_late_check_extradata | intros _].
    apply sys_inv_bind.
    { unfold check_preroll. apply sys_inv_if; [ | apply sys_inv_keeps; auto with keeps].
      apply sys_inv_bind; [exact Hzero | intros _].
      apply sys_inv_keeps. auto with keeps. }
    intros [pr dp].
    apply sys_inv_bind; [apply nonneg_drop_always | intros _].
    apply sys_inv_bind; [apply nonneg_drop_late | intros dp'].
    apply sys_inv_keeps. auto with keeps.
  - intros [pr dp].
    apply sys_inv_bind; [apply sys_inv_keeps, keeps_sys_push_block | intros _].
    apply sys_inv_bind; [unfold release_block; apply sys_inv_keeps; keeps | intros _].
    unfold output. apply sys_inv_bind; [apply nonneg_drain | ].
    intros [image pts]. apply sys_inv_keeps, keeps_sys_materialize.
Qed.

(** X3: A [Decode] call never makes the late-frame counter negative: every
    decrement sits behind a test that the counter is positive, so from a
    session started by [Open] (counter 0) the counter stays at 0 or above. *)
Theorem late_frames_never_negative (fuel : nat) (dec : decoder_t) (s s' : state W)
    (r : option picture_t) :
  0 <= late_frames (st_sys s) ->
  Decode fuel dec s = Some (r, s') ->
  0 <= late_frames (st_sys s').
Proof.
  intros HQ Hd. unfold Decode in Hd.
  destruct (st_block s) as [block | ]; [ | inversion Hd; subst; exact HQ].
  pose proof (nonneg_Decode_block fuel dec block s HQ) as H. unfold nonneg in H.
  destruct (Decode_block fuel dec block s) as [pic s1 | s1 | r1 s1 | s1];
    cbn in Hd, H; inversion Hd; subst; try exact H.
  unfold at_error. destruct (st_block s1); exact H.
Qed.

End Counter.

(** ** What [Decode] changes in the session *)

Section Config.

Context {W : Type} {ext : External W}.

Let cfg := fun s : state W => config (st_sys s).

Lemma keeps_compose {X Y A} (proj : state W -> X) (g : X -> Y) (m : M (W := W) A) :
  keeps proj m -> keeps (fun s => g (proj s)) m.
Proof. intros H s. cbn. rewrite (H s). reflexivity. Qed.

Lemma keeps_cfg_drain (inner : nat) (prerolling drawpicture : bool) (fuel : nat) :
  keeps cfg (drain fuel inner prerolling drawpicture).
Proof.
  induction fuel as [ | f IH]; cbn [drain];
    unfold msg_Err, lateness_step, display_date_of, account_late, is_late; keeps;
    apply (@keeps_compose _ _ _ st_sys config), keeps_sys_next_image.
Qed.

(** Everything in [Decode] after the extradata probe leaves the engine
    handle, the length size, the packetized flag and the extradata flag
    alone. *)
Lemma keeps_cfg_rest (fuel : nat) (dec : decoder_t) (block : block_t) :
  keeps cfg
    (bind (bind (check_preroll block)
             (fun pd : bool * bool =>
                let (prerolling, drawpicture) := pd in
                bind (drop_always dec)
                  (fun _ => bind (drop_late dec drawpicture)
                              (fun dp => ret (prerolling, dp)))))
       (fun pd : bool * bool =>
          let (prerolling, drawpicture) := pd in
          bind (push_block fuel block)
            (fun _ => bind (release_block block)
                        (fun _ => output fuel prerolling drawpicture)))).
Proof.
  unfold check_preroll, drop_always, drop_late, push_block, release_block, output,
    materialize, update_geometry, set_block, set_video, msg_Err, msg_Warn.
  keeps;
    first [ apply (@keeps_compose _ _ _ st_sys config), keeps_sys_push_NALs
          | apply keeps_cfg_drain
          | intros s; reflexivity ].
Qed.

Lemma keeps_ctx_Decode_block (fuel : nat) (dec : decoder_t) (block : block_t) :
  keeps (fun s => ctx (st_sys s)) (Decode_block (W := W) fuel dec block).
Proof.
  intros s. unfold Decode_block, admission. rewrite bind_assoc.
  assert (Hf : keeps (fun s => ctx (st_sys s)) (check_flags (W := W) block))
    by (unfold check_flags; keeps).
  assert (He : keeps (fun s => ctx (st_sys s)) (check_extradata (W := W) fuel dec))
    by (unfold check_extradata, probe_extradata, msg_Err, msg_Dbg; keeps;
        apply keeps_ctx_decode_extra).
  unfold bind at 1. specialize (Hf s).
  destruct (check_flags block s) as [[] s0 | s0 | r0 s0 | s0]; cbn [flow_state] in *;
    try exact Hf.
  rewrite bind_assoc. unfold bind at 1. specialize (He s0).
  destruct (check_extradata fuel dec s0) as [[] s1 | s1 | r1 s1 | s1];
    cbn [flow_state] in *; try congruence.
  pose proof (keeps_cfg_rest fuel dec block s1) as H. unfold cfg, config in H.
  injection H as Hctx _ _ _. congruence.
Qed.

(** X4: [Decode] never replaces the engine handle, and once the extradata has
    been examined it changes nothing in the session but the two late-frame
    fields: length size, packetized flag and extradata flag stay as they
    are, whatever the block and whatever the engine answers. *)
Theorem Decode_keeps_config (fuel : nat) (dec : decoder_t) (s s' : state W)
    (r : option picture_t) :
  Decode fuel dec s = Some (r, s') ->
  ctx (st_sys s') = ctx (st_sys s)
  /\ (check_extra (st_sys s) = false -> config (st_sys s') = config (st_sys s)).
Proof.
  intros Hd. unfold Decode in Hd.
  destruct (st_block s) as [block | ]; [ | inversion Hd; subst; split; reflexivity].
  assert (Hstate : st_sys s' = st_sys (flow_state (Decode_block fuel dec block s))).
  { destruct (Decode_block fuel dec block s) as [pic s1 | s1 | r1 s1 | s1];
      cbn in Hd; inversion Hd; subst; try reflexivity.
    unfold at_error. destruct (st_block s1); reflexivity. }
  rewrite Hstate. split; [apply keeps_ctx_Decode_block | ].
  intros Hc. unfold Decode_block, admission. rewrite !bind_assoc.
  assert (Hflags : keeps cfg (check_flags block)) by (unfold check_flags; keeps).
  unfold bind at 1. specialize (Hflags s).
  destruct (check_flags block s) as [[] s0 | s0 | r0 s0 | s0]; cbn [flow_state] in *;
    try exact Hflags.
  assert (Hc0 : check_extra (st_sys s0) = false)
    by (unfold cfg, config in Hflags; congruence).
  rewrite bind_assoc. unfold bind at 1. unfold check_extradata. unfold bind at 1.
  cbn [get_sys]. rewrite Hc0. cbn [ret].
  pose proof (keeps_cfg_rest fuel dec block s0) as H. unfold cfg in H, Hflags.
  rewrite H. exact Hflags.
Qed.

End Config.

(** ** From [Open] to [Close] *)

Section Lifecycle.

Context {W : Type} {ext : External W}.

Lemma Decode_ctx (fuel : nat) (dec : decoder_t) (s s' : state W) (r : option picture_t) :
  Decode fuel dec s = Some (r, s') -> ctx (st_sys s') = ctx (st_sys s).
Proof.
  intros Hd. unfold Decode in Hd.
  destruct (st_block s) as [block | ]; [ | inversion Hd; subst; reflexivity].
  pose proof (keeps_ctx_Decode_block fuel dec block s) as H. cbn in H.
  destruct (Decode_block fuel dec block s) as [pic s1 | s1 | r1 s1 | s1];
    cbn in Hd, H; inversion Hd; subst; try exact H.
  unfold at_error. destruct (st_block s1); exact H.
Qed.

Lemma Decode_blocks_ctx (fuel : nat) (dec : decoder_t) (blocks : list block_t) :
  forall (s s' : state W) (rs : list (option picture_t)),
  Decode_blocks fuel dec s blocks = Some (rs, s') -> ctx (st_sys s') = ctx (st_sys s).
Proof.
  induction blocks as [ | b rest IH]; intros s s' rs H; cbn [Decode_blocks] in H.
  - inversion H; subst. reflexivity.
  - destruct (Decode fuel dec (offer b s)) as [[r s1] | ] eqn:Hd; [ | discriminate].
    destruct (Decode_blocks fuel dec s1 rest) as [[rs' s2] | ] eqn:Hr; [ | discriminate].
    inversion H; subst.
    rewrite (IH _ _ _ Hr), (Decode_ctx _ _ _ Hd). reflexivity.
Qed.

Lemma Open_ctx (dec dec' : decoder_t) (w w' : W) (t t' : list event)
    (sys : decoder_sys_t) :
  Open dec w t = (VLC_SUCCESS, dec', Some sys, w', t') ->
  fst (de265_new_decoder (snd (malloc_sys w))) = Some (ctx sys).
Proof.
  unfold Open.
  destruct (negb (i_codec (fmt_in dec) =? VLC_CODEC_HEVC)); [discriminate | ].
  destruct (malloc_sys w) as [[sys0 | ] w1]; [ | discriminate].
  cbn [snd].
  destruct (de265_new_decoder w1) as [[c | ] w2]; [ | discriminate].
  destruct (thread_count w2) as [[threads w3] t_cpu].
  destruct (de265_start_worker_threads c _ w3) as [err w4].
  intros H. inversion H; subst. reflexivity.
Qed.

(** X5: Whatever blocks are decoded between a successful [Open] and [Close],
    [Close] hands to [de265_free_decoder] the very handle that
    [de265_new_decoder] returned in [Open], and frees the session after the
    engine. *)
Theorem Close_frees_opened_engine (fuel : nat) (dec dec' : decoder_t) (w w1 : W)
    (t t1 : list event) (sys : decoder_sys_t) (v : video_format_t)
    (blocks : list block_t) (rs : list (option picture_t)) (s' : state W)
    (de265_free_decoder : de265_decoder_context -> W -> de265_error * W) :
  Open dec w t = (VLC_SUCCESS, dec', Some sys, w1, t1) ->
  Decode_blocks fuel dec' (mkState sys v None w1 t1) blocks = Some (rs, s') ->
  exists c,
    fst (de265_new_decoder (snd (malloc_sys w))) = Some c
    /\ snd (Close de265_free_decoder (st_sys s') (st_ext s'))
       = [Cl_free_decoder c; Cl_free_sys].
Proof.
  intros Ho Hd. exists (ctx sys). split; [exact (Open_ctx _ _ _ Ho) | ].
  pose proof (Decode_blocks_ctx _ _ _ _ Hd) as Hc. cbn [st_sys] in Hc.
  unfold Close. destruct (de265_free_decoder (ctx (st_sys s')) (st_ext s')) as [e w2].
  cbn [snd]. rewrite Hc. reflexivity.
Qed.

End Lifecycle.

(** ** The rest of the late-frame policy *)

Section PolicyMore.

Context {W : Type} {ext : External W}.

(** X6: When the host leaves pacing to the decoder, at least one late frame is
    counted and the clock is more than 5 seconds past [late_frames_start],
    a plain block is dropped whatever the count is (even a single late
    frame): no picture, the block released, no engine call, the count
    lowered by one.  The age of the window, [mdate() - late_frames_start],
    and the 5 seconds in clock units are [int64_t] values: the subtraction
    and the product of line 163 do not overflow. *)
Theorem stale_window_drops (fuel : nat) (dec : decoder_t) (s : state W) (block : block_t) :
  st_block s = Some block ->
  plain_block block ->
  b_pace_control dec = false ->
  check_extra (st_sys s) = false ->
  0 < late_frames (st_sys s) ->
  int64_range (fst (mdate (st_ext s)) - late_frames_start (st_sys s)) ->
  int64_range (LATE_FRAMES_DROP_ALWAYS_AGE * CLOCK_FREQ) ->
  LATE_FRAMES_DROP_ALWAYS_AGE * CLOCK_FREQ
    < fst (mdate (st_ext s)) - late_frames_start (st_sys s) ->
  Decode fuel dec s =
  Some (None,
        mkState (set_late_frames (late_frames (st_sys s) - 1) (st_sys s))
                (st_video s) None (snd (mdate (st_ext s)))
                (st_trace s
                 ++ [Ev_mdate;
                     Ev_msg Err "more than %d seconds of late video -> dropping frame (computer too slow ?)";
                     Ev_block_Release block])).
Proof.
  intros Hb Hp Hpace Hc Hl _ _ Hage.
  unfold Decode. rewrite Hb. unfold Decode_block.
  unfold bind at 1. rewrite (admission_plain fuel dec s Hp Hc).
  unfold drop_always, bind, get_sys, extern, modify_sys, msg_Err, emit, goto_error.
  rewrite Hpace. cbn.
  destruct (Z.gtb_spec (late_frames (st_sys s)) 0) as [_ | Hn]; [ | lia].
  destruct (mdate (st_ext s)) as [now w] eqn:E. cbn in *.
  destruct (Z.gtb_spec (now - late_frames_start (st_sys s))
              (LATE_FRAMES_DROP_ALWAYS_AGE * CLOCK_FREQ)) as [_ | Hn]; [ | lia].
  cbn. unfold at_error. cbn. rewrite Hb, <- !app_assoc. reflexivity.
Qed.



Let zero := fun y : decoder_sys_t => late_frames y = 0.

Lemma zero_drop_always (dec : decoder_t) : sys_inv zero (drop_always (W := W) dec).
Proof.
  intros s HQ. unfold zero in *.
  unfold drop_always, bind, get_sys, extern, modify_sys, msg_Err, emit, goto_error, ret.
  rewrite HQ. rewrite andb_false_r. exact HQ.
Qed.

Lemma zero_drop_late (dec : decoder_t) (drawpicture : bool) :
  sys_inv zero (drop_late (W := W) dec drawpicture).
Proof.
  intros s HQ. unfold zero in *.
  unfold drop_late, bind, get_sys, modify_sys, msg_Warn, emit, goto_error, ret.
  rewrite HQ. rewrite andb_false_r. exact HQ.
Qed.

Lemma zero_drain_preroll (inner : nat) (drawpicture : bool) (fuel : nat) :
  sys_inv zero (drain (W := W) fuel inner true drawpicture).
Proof.
  induction fuel as [ | f IH]; cbn [drain]; [intros s HQ; exact HQ | ].
  apply sys_inv_bind; [apply sys_inv_keeps, keeps_sys_next_image | ].
  intros [image | ]; [ | apply sys_inv_keeps; auto with keeps].
  apply sys_inv_if.
  - unfold msg_Err. apply sys_inv_keeps. keeps.
  - apply sys_inv_bind.
    + intros s _. reflexivity.
    + intros _. apply sys_inv_if; [exact IH | apply sys_inv_keeps; auto with keeps].
Qed.

Lemma sys_inv_bind_yields {A B} (Q : decoder_sys_t -> Prop) (P : A -> Prop)
    (m : M (W := W) A) (k : A -> M B) :
  sys_inv Q m -> yields P m -> (forall a, P a -> sys_inv Q (k a)) ->
  sys_inv Q (bind m k).
Proof.
  intros Hm Hy Hk s HQ. unfold bind. specialize (Hm s HQ). specialize (Hy s).
  destruct (m s) as [a s1 | s1 | r s1 | s1]; cbn in *; try exact Hm.
  apply (Hk a (Hy a s1 eq_refl)). exact Hm.
Qed.

(** Everything behind the preroll test, for a preroll block. *)
Lemma zero_after_preroll (fuel : nat) (dec : decoder_t) (block : block_t) :
  sys_inv zero
    (bind (bind (drop_always (W := W) dec)
             (fun _ => bind (drop_late dec false) (fun dp => ret (true, dp))))
       (fun pd : bool * bool =>
          let (prerolling, drawpicture) := pd in
          bind (push_block fuel block)
            (fun _ => bind (release_block block)
                        (fun _ => output fuel prerolling drawpicture)))).
Proof.
  apply sys_inv_bind_yields with (P := fun pd : bool * bool => fst pd = true).
  - apply sys_inv_bind; [apply zero_drop_always | intros _].
    apply sys_inv_bind; [apply zero_drop_late | intros dp].
    apply sys_inv_keeps. auto with keeps.
  - apply yields_bind. intros _. apply yields_bind. intros dp s x s' H.
    inversion H; subst. reflexivity.
  - intros [pr dp] Hpr. cbn in Hpr. subst pr.
    apply sys_inv_bind; [apply sys_inv_keeps, keeps_sys_push_block | intros _].
    apply sys_inv_bind; [unfold release_block; apply sys_inv_keeps; keeps | intros _].
    unfold output. apply sys_inv_bind; [apply zero_drain_preroll | ].
    intros [image pts]. apply sys_inv_keeps, keeps_sys_materialize.
Qed.

End PolicyMore.

Section Preroll.

Context {W : Type} {ext : External W}.

Lemma Decode_final_sys (fuel : nat) (dec : decoder_t) (s s' : state W) (block : block_t)
    (r : option picture_t) :
  st_block s = Some block ->
  Decode fuel dec s = Some (r, s') ->
  st_sys s' = st_sys (flow_state (Decode_block fuel dec block s)).
Proof.
  intros Hb Hd. unfold Decode in Hd. rewrite Hb in Hd.
  destruct (Decode_block fuel dec block s) as [pic s1 | s1 | r1 s1 | s1];
    cbn in Hd; inversion Hd; subst; try reflexivity.
  unfold at_error. destruct (st_block s1); reflexivity.
Qed.

(** X8: A preroll block never shows a picture and leaves the late-frame counter
    at 0: the flag resets the counter, the drain loop skips every image the
    engine has, and each skipped image resets the counter again. *)
Theorem preroll_block_hidden (fuel : nat) (dec : decoder_t) (s s' : state W)
    (block : block_t) (r : option picture_t) :
  st_block s = Some block ->
  Z.land (i_flags block) BLOCK_FLAG_PREROLL <> 0 ->
  extra_checked (st_sys s) ->
  Decode fuel dec s = Some (r, s') ->
  r = None /\ late_frames (st_sys s') = 0.
Proof.
  intros Hb Hpre Hinv Hd. split.
  - destruct (@Decode_outcome W ext fuel dec s s' block r Hb Hd)
      as [(s1 & _ & Hr & _) | (pr & dp & s0 & s2 & Ea & Ep & Hout)];
      [exact Hr | ].
    destruct Hout as [(pic & Ho & _) | (_ & Hr)]; [ | exact Hr].
    exfalso. destruct dp.
    + destruct (admission_shows _ _ _ _ Ea) as ((_ & _ & Hp) & _).
      contradiction.
    + unfold output in Ho. unfold bind in Ho.
      destruct (drain fuel fuel pr false (released block s2)) as [ip s3 | | | ] eqn:Edr;
        try discriminate.
      eapply (drain_hidden fuel pr fuel). exact Edr.
  - rewrite (@Decode_final_sys fuel dec s s' block r Hb Hd).
    unfold Decode_block, admission. rewrite bind_assoc. unfold bind at 1.
    unfold check_flags.
    destruct (flag_set (i_flags block)
                (Z.lor BLOCK_FLAG_DISCONTINUITY BLOCK_FLAG_CORRUPTED)).
    { unfold bind, modify_sys, get_sys, extern, goto_error, ret.
      destruct (flag_set (i_flags block) BLOCK_FLAG_DISCONTINUITY); cbn;
        [destruct (de265_reset _ _) | ]; reflexivity. }
    cbn [ret]. rewrite bind_assoc. unfold bind at 1.
    pose proof (keeps_late_check_extradata fuel dec s) as Hlate. cbn beta in Hlate.
    assert (Hnext : forall s1,
              check_extradata fuel dec s = Next tt s1 ->
              late_frames (st_sys (flow_state
                (bind (bind (check_preroll block)
                         (fun pd : bool * bool =>
                            let (prerolling, drawpicture) := pd in
                            bind (drop_always dec)
                              (fun _ => bind (drop_late dec drawpicture)
                                          (fun dp => ret (prerolling, dp)))))
                   (fun pd : bool * bool =>
                      let (prerolling, drawpicture) := pd in
                      bind (push_block fuel block)
                        (fun _ => bind (release_block block)
                                    (fun _ => output fuel prerolling drawpicture)))
                   s1))) = 0).
    { intros s1 _. rewrite bind_assoc. unfold bind at 1. unfold check_preroll.
      rewrite (proj2 (flag_set_true _ _) Hpre).
      unfold bind at 1. cbn [modify_sys]. cbn [ret].
      apply (zero_after_preroll fuel dec block). reflexivity. }
    destruct (check_extra (st_sys s)) eqn:Hc.
    + destruct Hinv as [Hz | Hf]; [ | congruence].
      destruct (check_extradata fuel dec s) as [[] s1 | s1 | r1 s1 | s1] eqn:Ec;
        cbn [flow_state] in *; try congruence.
      apply Hnext. reflexivity.
    + assert (Ec : check_extradata fuel dec s = Next tt s)
        by (unfold check_extradata; unfold bind at 1; cbn [get_sys]; rewrite Hc;
            reflexivity).
      rewrite Ec. apply Hnext. exact Ec.
Qed.

End Preroll.

(** ** Handing the block over: raw blocks, trailing bytes, refused units *)

Section HandOver.

Context {W : Type} {ext : External W}.

Lemma not_push_of_output (e : event) : output_event e = true -> not_push e = true.
Proof. destruct e; cbn; congruence. Qed.

(** Fewer bytes than a length prefix are left: the loop ends there. *)
Lemma push_NALs_short (fuel : nat) (pts : mtime_t) (s : state W) (ls : nat)
    (tail : list byte) :
  length_size (st_sys s) = Z.of_nat ls ->
  (1 <= ls <= 4)%nat ->
  (List.length tail < ls)%nat ->
  push_NALs (S fuel) pts tail s = Next tt s.
Proof.
  intros Hls Hrange Hshort. cbn [push_NALs]. unfold bind at 1. cbn [get_sys].
  rewrite Hls, to_size_t_small by lia.
  destruct (Z.leb_spec (Z.of_nat ls) (Z.of_nat (List.length tail))) as [H | _];
    [lia | reflexivity].
Qed.

(** X9: In a session that is not packetized a block with bytes is handed to
    the engine whole, in a single [de265_push_data] call with the block's
    timestamp, before anything else is asked of the engine, and nothing is
    pushed after it; a refusal abandons the block. *)
Theorem raw_block_pushed_whole (fuel : nat) (dec : decoder_t) (s s1 : state W)
    (block : block_t) (prerolling drawpicture : bool) :
  st_block s = Some block ->
  p_buffer block <> [] ->
  admission fuel dec block s = Next (prerolling, drawpicture) s1 ->
  packetized (st_sys s1) = false ->
  let push := Ev_push_data (p_buffer block) (i_pts block) in
  let w2 := snd (de265_push_data (ctx (st_sys s1)) (p_buffer block) (i_pts block)
                                 (st_ext s1)) in
  (if de265_isOK (fst (de265_push_data (ctx (st_sys s1)) (p_buffer block)
                                       (i_pts block) (st_ext s1)))
   then
     Decode fuel dec s =
     finish (output fuel prerolling drawpicture
               (mkState (st_sys s1) (st_video s1) None w2
                        (st_trace s1 ++ [push; Ev_block_Release block])))
   else
     Decode fuel dec s =
     Some (None,
           mkState (st_sys s1) (st_video s1) None w2
                   (st_trace s1 ++ [push; Ev_msg Err "Failed to push data: %s (%d)";
                                    Ev_block_Release block])))
  /\ (forall r s', Decode fuel dec s = Some (r, s') ->
      exists evs, st_trace s' = st_trace s1 ++ push :: evs
                  /\ forallb not_push evs = true).
Proof.
  intros Hb Hne Ha Hpk push w2. subst push.
  assert (Hb1 : st_block s1 = Some block) by (eapply admission_block; eassumption).
  assert (Hlen : (i_buffer block >? 0) = true).
  { unfold i_buffer. destruct (p_buffer block); [congruence | ].
    cbn [List.length]. apply Z.gtb_lt. lia. }
  assert (Hrun : Decode fuel dec s
                 = finish (bind (push_block fuel block)
                             (fun _ => bind (release_block block)
                                         (fun _ => output fuel prerolling drawpicture)) s1)).
  { unfold Decode. rewrite Hb. unfold Decode_block. unfold bind at 1. rewrite Ha.
    reflexivity. }
  unfold push_block in Hrun. unfold bind at 1 2 in Hrun. cbn [get_sys] in Hrun.
  rewrite Hlen, Hpk in Hrun. unfold bind at 1 in Hrun. unfold extern at 1 in Hrun.
  subst w2.
  destruct (de265_push_data (ctx (st_sys s1)) (p_buffer block) (i_pts block) (st_ext s1))
    as [err w2] eqn:E.
  cbn [fst snd].
  destruct (de265_isOK err) eqn:Hok; cbn [negb] in Hrun.
  - cbn [ret] in Hrun. unfold release_block, bind at 1 2, emit, set_block in Hrun.
    cbn [st_sys st_video st_block st_ext st_trace] in Hrun.
    rewrite <- app_assoc in Hrun. cbn [app] in Hrun.
    split; [exact Hrun | ].
    intros r s' Hd. rewrite Hrun in Hd.
    set (s2 := mkState (st_sys s1) (st_video s1) None w2
                       (st_trace s1 ++ [Ev_push_data (p_buffer block) (i_pts block);
                                        Ev_block_Release block])) in *.
    destruct (calls_output fuel prerolling drawpicture s2) as (evs & Ht & HP).
    assert (Hs' : st_trace s' = st_trace (flow_state
                                  (output fuel prerolling drawpicture s2))).
    { pose proof (exits_output fuel prerolling drawpicture s2) as Hx.
      destruct (output fuel prerolling drawpicture s2) as [pic s3 | s3 | r3 s3 | s3] eqn:Eo;
        cbn [finish] in Hd; try discriminate Hd.
      - inversion Hd; subst. reflexivity.
      - discriminate Hx.
      - inversion Hd; subst. reflexivity. }
    exists (Ev_block_Release block :: evs). rewrite Hs', Ht. subst s2. cbn [st_trace].
    rewrite <- app_assoc. split; [reflexivity | ].
    cbn [forallb]. apply andb_true_iff. split; [reflexivity | ].
    rewrite forallb_forall in *. intros e He. apply not_push_of_output. auto.
  - unfold bind, msg_Err, emit, goto_error in Hrun. cbn [finish] in Hrun.
    unfold at_error in Hrun. cbn [st_sys st_video st_block st_ext st_trace] in Hrun.
    rewrite Hb1, <- !app_assoc in Hrun. cbn [app] in Hrun.
    split; [exact Hrun | ].
    intros r s' Hd. rewrite Hrun in Hd. inversion Hd; subst. cbn [st_trace].
    eexists. split; reflexivity.
Qed.

(** X10: In a packetized session, up to [length_size - 1] bytes left behind the
    last unit of a block are ignored: the units are pushed, the loop ends
    normally, and no error is raised for the leftover. *)
Theorem trailing_bytes_ignored (fuel : nat) (block : block_t) (s1 : state W) (ls : nat)
    (nals : list (list byte)) (tail : list byte) :
  packetized (st_sys s1) = true ->
  length_size (st_sys s1) = Z.of_nat ls ->
  (1 <= ls <= 4)%nat ->
  p_buffer block = frame ls nals ++ tail ->
  p_buffer block <> [] ->
  (List.length tail < ls)%nat ->
  Forall (fits ls) nals ->
  accepts_all (ctx (st_sys s1)) (i_pts block) nals (st_ext s1) = true ->
  (List.length nals < fuel)%nat ->
  push_block fuel block s1 = Next tt (pushed (i_pts block) nals s1).
Proof.
  intros Hpk Hls Hrange Hbuf Hne Hshort Hfits Hacc Hfuel.
  unfold push_block. unfold bind at 1. cbn [get_sys].
  assert (Hlen : (i_buffer block >? 0) = true).
  { unfold i_buffer. destruct (p_buffer block); [congruence | ].
    cbn [List.length]. apply Z.gtb_lt. lia. }
  rewrite Hlen, Hpk, Hbuf.
  replace fuel with (List.length nals + S (fuel - List.length nals - 1))%nat by lia.
  rewrite push_NALs_frame by assumption.
  apply push_NALs_short with (ls := ls); [exact Hls | exact Hrange | exact Hshort].
Qed.

(** X11: When the engine refuses a unit of a packetized block, after taking the
    units before it, [Decode] stops behind the refused unit: the error is
    logged, the units after it are not pushed, no decode step is made, the
    block is released and no picture is returned. *)
Theorem refused_unit_stops_block (fuel : nat) (dec : decoder_t) (s s1 : state W)
    (block : block_t) (prerolling drawpicture : bool) (ls : nat)
    (before : list (list byte)) (nal : list byte) (rest : list byte) :
  st_block s = Some block ->
  admission fuel dec block s = Next (prerolling, drawpicture) s1 ->
  packetized (st_sys s1) = true ->
  length_size (st_sys s1) = Z.of_nat ls ->
  (1 <= ls <= 4)%nat ->
  p_buffer block = frame ls before ++ frame_nal ls nal ++ rest ->
  Forall (fits ls) before -> fits ls nal ->
  accepts_all (ctx (st_sys s1)) (i_pts block) before (st_ext s1) = true ->
  de265_isOK (fst (de265_push_NAL (ctx (st_sys s1)) nal (i_pts block)
                     (after_pushes (ctx (st_sys s1)) (i_pts block) before (st_ext s1))))
  = false ->
  (List.length before < fuel)%nat ->
  Decode fuel dec s =
  Some (None,
        mkState (st_sys s1) (st_video s1) None
                (snd (de265_push_NAL (ctx (st_sys s1)) nal (i_pts block)
                        (after_pushes (ctx (st_sys s1)) (i_pts block) before
                                      (st_ext s1))))
                (st_trace s1
                 ++ map (fun n => Ev_push_NAL n (i_pts block)) before
                 ++ [Ev_push_NAL nal (i_pts block);
                     Ev_msg Err "Failed to push data: %s (%d)";
                     Ev_block_Release block])).
Proof.
  intros Hb Ha Hpk Hls Hrange Hbuf Hfits Hfit Hacc Hrej Hfuel.
  assert (Hb1 : st_block s1 = Some block) by (eapply admission_block; eassumption).
  unfold Decode. rewrite Hb. unfold Decode_block. unfold bind at 1. rewrite Ha.
  unfold bind at 1. unfold push_block. unfold bind at 1. cbn [get_sys].
  unfold i_buffer. rewrite Hbuf.
  destruct (Z.gtb_spec
              (Z.of_nat (List.length (frame ls before ++ frame_nal ls nal ++ rest))) 0)
    as [_ | H0];
    [ | unfold frame_nal in H0; rewrite !length_app, length_be_bytes in H0; lia].
  rewrite Hpk.
  replace fuel with (List.length before + S (fuel - List.length before - 1))%nat by lia.
  rewrite push_NALs_frame by assumption.
  rewrite push_NALs_step by (cbn [pushed st_sys]; assumption).
  unfold pushed. cbn [st_sys st_video st_block st_ext st_trace].
  unfold bind at 1. unfold extern.
  cbn [st_sys st_video st_block st_ext st_trace].
  destruct (de265_push_NAL (ctx (st_sys s1)) nal (i_pts block)
              (after_pushes (ctx (st_sys s1)) (i_pts block) before (st_ext s1)))
    as [err w2].
  cbn [fst snd] in *. rewrite Hrej. cbn [negb].
  unfold bind, msg_Err, emit, goto_error. cbn [finish]. unfold at_error.
  cbn [st_sys st_video st_block st_ext st_trace].
  rewrite Hb1, <- !app_assoc. reflexivity.
Qed.

End HandOver.

(** ** [Open]: threads, failures, and what is left allocated *)

Section OpenMore.

Context {W : Type} {ext : External W}.

Lemma to_int_small (y : Z) : 0 <= y < 2 ^ 31 -> to_int y = y.
Proof. unfold to_int. intros H. rewrite Z.mod_small; lia. Qed.

(** What line 351 computes, from the two readings of the CPU count. *)
Lemma thread_count_run (w : W) :
  let first := fst (vlc_GetCPUCount w) in
  let second := fst (vlc_GetCPUCount (snd (vlc_GetCPUCount w))) in
  thread_count w
  = if uint32 (first * 2) <? MAX_THREAD_COUNT then
      (to_int (uint32 (second * 2)), snd (vlc_GetCPUCount (snd (vlc_GetCPUCount w))),
       [Ev_GetCPUCount; Ev_GetCPUCount])
    else (MAX_THREAD_COUNT, snd (vlc_GetCPUCount w), [Ev_GetCPUCount]).
Proof.
  unfold thread_count. destruct (vlc_GetCPUCount w) as [cpus w1]. cbn [fst snd].
  destruct (uint32 (cpus * 2) <? MAX_THREAD_COUNT); [ | reflexivity].
  destruct (vlc_GetCPUCount w1) as [cpus' w2]. reflexivity.
Qed.

(** X14: For an HEVC format, once the session record is allocated and the
    engine is created, [Open] succeeds whatever [de265_start_worker_threads]
    answers.  It asks once for worker threads.  The count asked for comes
    from the [__MIN] macro of line 351: when twice the first reading of the
    CPU count is below MAX_THREAD_COUNT, the count is read a second time and
    twice the second reading is passed on as it is, else MAX_THREAD_COUNT is
    passed; so the count is read twice or once, and the number asked for is
    between 0 and MAX_THREAD_COUNT when the two readings agree.  [Open]
    frees nothing; the decoder it leaves has the callback installed, needs
    packetized input, announces I420 video of the input's width and height,
    and points at the session record. *)
Theorem Open_ignores_thread_failure (dec : decoder_t) (w : W) (sys0 : decoder_sys_t)
    (c : de265_decoder_context) :
  i_codec (fmt_in dec) = VLC_CODEC_HEVC ->
  fst (malloc_sys w) = Some sys0 ->
  fst (de265_new_decoder (snd (malloc_sys w))) = Some c ->
  let r := Open dec w [] in
  let w2 := snd (de265_new_decoder (snd (malloc_sys w))) in
  let first := fst (vlc_GetCPUCount w2) in
  let second := fst (vlc_GetCPUCount (snd (vlc_GetCPUCount w2))) in
  open_status r = VLC_SUCCESS
  /\ thread_requests (open_trace r)
     = [if uint32 (first * 2) <? MAX_THREAD_COUNT then to_int (uint32 (second * 2))
        else MAX_THREAD_COUNT]
  /\ List.length (filter cpu_count_event (open_trace r))
     = (if uint32 (first * 2) <? MAX_THREAD_COUNT then 2%nat else 1%nat)
  /\ (second = first ->
      exists n, thread_requests (open_trace r) = [n] /\ 0 <= n <= MAX_THREAD_COUNT)
  /\ filter free_event (open_trace r) = []
  /\ pf_decode_video (open_dec r) = true
  /\ b_need_packetized (open_dec r) = true
  /\ i_cat (fmt_out (open_dec r)) = VIDEO_ES
  /\ i_codec (fmt_out (open_dec r)) = VLC_CODEC_I420
  /\ i_width (video (fmt_out (open_dec r))) = i_width (video (fmt_in dec))
  /\ i_height (video (fmt_out (open_dec r))) = i_height (video (fmt_in dec))
  /\ fmt_in (open_dec r) = fmt_in dec
  /\ p_sys (open_dec r) = Ptr_malloc.
Proof.
  intros Hc Hm Hn r w2 first second. subst r.
  unfold Open, open_status, open_trace, open_dec.
  rewrite Hc, Z.eqb_refl. cbn [negb].
  destruct (malloc_sys w) as [m w1]. cbn [fst snd] in Hm, Hn, w2. subst m.
  destruct (de265_new_decoder w1) as [n w2'] eqn:En. cbn [fst snd] in Hn, w2.
  subst n w2.
  pose proof (thread_count_run w2') as Htc. cbn zeta in Htc. fold first second in Htc.
  rewrite Htc. clear Htc.
  assert (Hreq : forall threads t_cpu lastev,
             forallb (fun e => match e with Ev_GetCPUCount => true | _ => false end) t_cpu
             = true ->
             match lastev with Ev_msg _ _ => True | _ => False end ->
             thread_requests
               (([] ++ [Ev_malloc; Ev_msg Dbg "using libde265 version %s"])
                ++ [Ev_new_decoder] ++ t_cpu ++ [Ev_start_worker_threads threads; lastev])
             = [threads]
             /\ List.length (filter cpu_count_event
                   (([] ++ [Ev_malloc; Ev_msg Dbg "using libde265 version %s"])
                    ++ [Ev_new_decoder] ++ t_cpu
                    ++ [Ev_start_worker_threads threads; lastev]))
                = List.length t_cpu
             /\ filter free_event
                  (([] ++ [Ev_malloc; Ev_msg Dbg "using libde265 version %s"])
                   ++ [Ev_new_decoder] ++ t_cpu
                   ++ [Ev_start_worker_threads threads; lastev]) = []).
  { intros threads t_cpu lastev Hcpu Hlast. cbn [app].
    unfold thread_requests. cbn [flat_map filter cpu_count_event free_event app List.length].
    induction t_cpu as [ | e t_cpu IH].
    - destruct lastev; try contradiction. cbn. repeat split.
    - cbn [forallb] in Hcpu. apply andb_true_iff in Hcpu. destruct Hcpu as [He Hcpu].
      destruct e; try discriminate. specialize (IH Hcpu).
      cbn [app flat_map filter cpu_count_event free_event List.length] in *.
      destruct IH as (IH1 & IH2 & IH3).
      split; [exact IH1 | split; [ | exact IH3]]. f_equal. exact IH2. }
  destruct (Z.ltb_spec (uint32 (first * 2)) MAX_THREAD_COUNT) as [Hlt | Hge].
  - destruct (de265_start_worker_threads c (to_int (uint32 (second * 2)))
                (snd (vlc_GetCPUCount (snd (vlc_GetCPUCount w2'))))) as [err w4].
    cbn [fst snd].
    destruct (Hreq (to_int (uint32 (second * 2))) [Ev_GetCPUCount; Ev_GetCPUCount]
                (if negb (de265_isOK err)
                 then Ev_msg Err "Failed to start worker threads: %s (%d)"
                 else Ev_msg Dbg "started %d worker threads") eq_refl
                ltac:(destruct (negb (de265_isOK err)); exact I))
      as (H1 & H2 & H3).
    split; [reflexivity | ]. split; [exact H1 | ]. split; [exact H2 | ].
    split.
    + intros Hsame. eexists. split; [exact H1 | ]. rewrite Hsame.
      assert (0 <= uint32 (first * 2)) by (unfold uint32; apply Z.mod_pos_bound; lia).
      rewrite to_int_small; unfold MAX_THREAD_COUNT in *; lia.
    + split; [exact H3 | ]. cbn. repeat (split; [reflexivity | ]). reflexivity.
  - destruct (de265_start_worker_threads c MAX_THREAD_COUNT (snd (vlc_GetCPUCount w2')))
      as [err w4].
    cbn [fst snd].
    destruct (Hreq MAX_THREAD_COUNT [Ev_GetCPUCount]
                (if negb (de265_isOK err)
                 then Ev_msg Err "Failed to start worker threads: %s (%d)"
                 else Ev_msg Dbg "started %d worker threads") eq_refl
                ltac:(destruct (negb (de265_isOK err)); exact I))
      as (H1 & H2 & H3).
    split; [reflexivity | ]. split; [exact H1 | ]. split; [exact H2 | ].
    split.
    + intros _. eexists. split; [exact H1 | ]. unfold MAX_THREAD_COUNT. lia.
    + split; [exact H3 | ]. cbn. repeat (split; [reflexivity | ]). reflexivity.
Qed.

(** X15: When [Open] fails, no session record is left allocated and no worker
    thread was asked for.  For input that is not HEVC, and when [malloc]
    fails, the decoder is left as it was.  When [de265_new_decoder] fails,
    the record that had been allocated is freed, once, and the decoder is
    left as it was except for [p_sys], which still holds the address of the
    freed record (line 339 stores it, line 344 frees the record, nothing
    resets the field). *)
Theorem Open_failure_frees_record (dec : decoder_t) (w : W) :
  let r := Open dec w [] in
  let allocated :=
    (i_codec (fmt_in dec) =? VLC_CODEC_HEVC)
    && match fst (malloc_sys w) with Some _ => true | None => false end in
  open_status r <> VLC_SUCCESS ->
  open_p_sys r = None
  /\ thread_requests (open_trace r) = []
  /\ open_dec r = (if allocated then set_p_sys Ptr_malloc dec else dec)
  /\ filter free_event (open_trace r) = (if allocated then [Ev_free] else [])
  /\ open_status r = (if allocated then VLC_EGENERIC
                      else if i_codec (fmt_in dec) =? VLC_CODEC_HEVC then VLC_ENOMEM
                           else VLC_EGENERIC).
Proof.
  intros r allocated. subst r allocated.
  unfold Open, open_status, open_trace, open_dec, open_p_sys.
  destruct (i_codec (fmt_in dec) =? VLC_CODEC_HEVC); cbn [negb andb].
  - destruct (malloc_sys w) as [[sys0 | ] w1]; cbn [fst snd].
    + destruct (de265_new_decoder w1) as [[c | ] w2].
      * destruct (thread_count w2) as [[threads w3] t_cpu].
        destruct (de265_start_worker_threads c threads w3) as [err w4].
        cbn [fst snd]. intros H. exfalso. apply H. reflexivity.
      * cbn. intros _. repeat (split; [reflexivity | ]). reflexivity.
    + cbn. intros _. repeat (split; [reflexivity | ]). reflexivity.
  - cbn. intros _. repeat (split; [reflexivity | ]). reflexivity.
Qed.

End OpenMore.

(** ** The output picture *)

Section Geometry.

Context {W : Type} {ext : External W}.

Lemma to_int_uint32 (x : Z) : int_range x -> to_int (uint32 x) = x.
Proof.
  unfold int_range, to_int, uint32. intros H.
  rewrite Zplus_mod_idemp_l. rewrite Z.mod_small; lia.
Qed.

Lemma update_geometry_run (image : de265_image) (s : state W) :
  exists v,
    update_geometry image s
    = Next tt (mkState (st_sys s) v (st_block s) (st_ext s) (st_trace s))
    /\ (int_range (image_width image) -> int_range (image_height image) ->
        format_size v = image_size image)
    /\ (format_size (st_video s) = image_size image -> v = st_video s).
Proof.
  unfold update_geometry, bind, get_video, set_video.
  eexists. split; [reflexivity | ]. unfold format_size, image_size. split.
  - intros Hw Hh.
    destruct (Z.eqb_spec (image_width image) (to_int (i_width (st_video s)))) as [E1 | E1];
      destruct (Z.eqb_spec (image_height image) (to_int (i_height (st_video s))))
        as [E2 | E2]; cbn [negb orb i_width i_height i_visible_width i_visible_height];
      (destruct (Z.eqb_spec (image_width image) (to_int (i_visible_width (st_video s))))
         as [E3 | E3];
       destruct (Z.eqb_spec (image_height image) (to_int (i_visible_height (st_video s))))
         as [E4 | E4]; cbn [negb orb i_width i_height i_visible_width i_visible_height];
       rewrite ?to_int_uint32 by assumption; congruence).
  - intros H. injection H as H1 H2 H3 H4.
    rewrite H1, H2, !Z.eqb_refl. cbn [negb orb].
    rewrite H3, H4, !Z.eqb_refl. reflexivity.
Qed.

(** X16: Building the picture for an image whose width and height are C [int]s:
    the output format is first brought to the image's size, in all four
    fields, and left alone when it has that size already; the host is asked
    once for a picture, of that format, and for nothing else; the session is
    not touched.  If the host has a picture, it is returned progressive and
    dated with the image's timestamp; if it has none, [Decode] returns
    NULL. *)
Theorem materialize_requests_image_size (image : de265_image) (pts : mtime_t)
    (s : state W) :
  int_range (image_width image) ->
  int_range (image_height image) ->
  let f := materialize image pts s in
  let v := st_video (flow_state f) in
  format_size v = image_size image
  /\ (format_size (st_video s) = image_size image -> v = st_video s)
  /\ st_trace (flow_state f) = st_trace s ++ [Ev_NewPicture v]
  /\ st_sys (flow_state f) = st_sys s
  /\ match f with
     | Next pic _ =>
         fst (decoder_NewPicture v (st_ext s)) <> None
         /\ date pic = pts /\ b_progressive pic = true
     | Return r _ => fst (decoder_NewPicture v (st_ext s)) = None /\ r = None
     | _ => False
     end.
Proof.
  intros Hw Hh f v. subst v f.
  destruct (update_geometry_run image s) as (v & Hg & Hsize & Hsame).
  assert (Hm : materialize image pts s
               = let s1 w1 := mkState (st_sys s) v (st_block s) w1
                                      (st_trace s ++ [Ev_NewPicture v]) in
                 match decoder_NewPicture v (st_ext s) with
                 | (Some pic, w1) =>
                     Next (mkPicture (fst (copy_planes image 0 (p pic))) true pts) (s1 w1)
                 | (None, w1) => Return None (s1 w1)
                 end).
  { unfold materialize, bind. rewrite Hg. unfold get_video, extern.
    cbn [st_sys st_video st_block st_ext st_trace].
    destruct (decoder_NewPicture v (st_ext s)) as [[pic | ] w1]; [ | reflexivity].
    destruct (copy_planes image 0 (p pic)) as [planes log]. reflexivity. }
  rewrite Hm. cbn zeta.
  destruct (decoder_NewPicture v (st_ext s)) as [[pic | ] w1] eqn:E;
    cbn [flow_state st_video st_trace st_sys date b_progressive];
    rewrite ?E; cbn [fst];
    (split; [auto | ]); (split; [exact Hsame | ]);
    repeat (split; [reflexivity | ]).
  - split; [discriminate | ]. split; reflexivity.
  - split; reflexivity.
Qed.

(** An image handed on by the inner loop is what the last
    [de265_get_next_picture] call of the loop returned, right after a
    [de265_decode] step. *)
Lemma next_image_pulled (fuel : nat) :
  forall (s sb : state W) (image : de265_image),
  next_image fuel s = Next (Some image) sb ->
  exists w,
    de265_get_next_picture (ctx (st_sys s)) (snd (de265_decode (ctx (st_sys s)) w))
    = (Some image, st_ext sb)
    /\ exists t, st_trace sb = t ++ [Ev_decode; Ev_get_next_picture].
Proof.
  induction fuel as [ | f IH]; intros s sb image H; [discriminate | ].
  cbn [next_image] in H. unfold bind at 1 in H. cbn [get_sys] in H.
  unfold bind at 1 in H. unfold extern at 1 in H.
  destruct (de265_decode (ctx (st_sys s)) (st_ext s)) as [[err more] w1] eqn:Ed.
  set (s1 := mkState (st_sys s) (st_video s) (st_block s) w1 (st_trace s ++ [Ev_decode]))
    in *.
  assert (Hpull : forall can_decode_more,
             bind (extern Ev_get_next_picture (de265_get_next_picture (ctx (st_sys s))))
               (fun image0 =>
                  match image0 with
                  | None => if negb (can_decode_more =? 0) then next_image f else ret None
                  | Some _ => ret image0
                  end) s1 = Next (Some image) sb ->
             exists w,
               de265_get_next_picture (ctx (st_sys s))
                 (snd (de265_decode (ctx (st_sys s)) w))
               = (Some image, st_ext sb)
               /\ exists t, st_trace sb = t ++ [Ev_decode; Ev_get_next_picture]).
  { intros cdm Hrun. unfold bind, extern in Hrun. subst s1.
    cbn [st_sys st_video st_block st_ext st_trace] in Hrun.
    destruct (de265_get_next_picture (ctx (st_sys s)) w1) as [[img | ] w2] eqn:Eg.
    - cbn [ret] in Hrun. inversion Hrun; subst. cbn [st_ext st_trace].
      exists (st_ext s). rewrite Ed. cbn [snd]. split; [exact Eg | ].
      exists (st_trace s). rewrite <- app_assoc. reflexivity.
    - destruct (negb (cdm =? 0)); [ | discriminate].
      apply IH in Hrun. cbn [st_sys] in Hrun. exact Hrun. }
  destruct err as [ | | | code].
  - unfold bind at 1 in H. cbn [ret] in H. apply (Hpull more H).
  - unfold bind at 1 in H. cbn [ret] in H. apply (Hpull 0 H).
  - unfold bind at 1 in H. cbn [ret] in H. apply (Hpull 0 H).
  - destruct (negb (de265_isOK (DE265_other code))).
    + unfold bind, msg_Err, emit, return_ in H. discriminate.
    + unfold bind at 1 in H. cbn [ret] in H. apply (Hpull more H).
Qed.

(** X17: A [Decode] call that returns a picture went through all of its
    stages: the block was admitted to be shown and handed over, and the
    inner decode loop, run once, ended on an image that
    [de265_get_next_picture] returned for the session's engine right after
    a [de265_decode] step, the last two calls before the accounting.  That
    image
    is in 4:2:0; it was accounted for lateness; the host then gave a picture
    for the output format, which has the image's size (width and height
    being C [int]s); and the picture returned is the host's picture with
    the image's planes copied into it, marked progressive and dated with
    the image's timestamp.  Asking the host was the last call made. *)
Theorem picture_from_420_image (fuel : nat) (dec : decoder_t) (s s' : state W)
    (block : block_t) (pic : picture_t) :
  st_block s = Some block ->
  Decode fuel dec s = Some (Some pic, s') ->
  exists prerolling s0 s2 image sb s3 w pic0,
    admission fuel dec block s = Next (prerolling, true) s0
    /\ push_block fuel block s0 = Next tt s2
    /\ next_image fuel (released block s2) = Next (Some image) sb
    /\ de265_get_next_picture (ctx (st_sys s)) (snd (de265_decode (ctx (st_sys s)) w))
       = (Some image, st_ext sb)
    /\ (exists t, st_trace sb = t ++ [Ev_decode; Ev_get_next_picture])
    /\ is_420 (image_chroma image) = true
    /\ lateness_step prerolling (image_PTS image) sb = Next tt s3
    /\ decoder_NewPicture (st_video s') (st_ext s3) = (Some pic0, st_ext s')
    /\ pic = mkPicture (fst (copy_planes image 0 (p pic0))) true (image_PTS image)
    /\ st_trace s' = st_trace s3 ++ [Ev_NewPicture (st_video s')]
    /\ (int_range (image_width image) -> int_range (image_height image) ->
        format_size (st_video s') = image_size image).
Proof.
  intros Hb Hd.
  destruct (@Decode_outcome W ext fuel dec s s' block (Some pic) Hb Hd)
    as [(s1 & _ & Hr & _) | (pr & dp & s0 & s2 & Ha & Hp & Hout)]; [discriminate | ].
  destruct Hout as [(pic' & Ho & Hr) | (_ & Hr)]; [ | discriminate].
  inversion Hr; subst pic'. clear Hr.
  unfold output in Ho. unfold bind at 1 in Ho.
  destruct dp.
  2: { exfalso.
       destruct (drain fuel fuel pr false (released block s2)) as [ip s3 | | | ] eqn:Ed;
         try discriminate.
       exact (drain_hidden fuel pr fuel _ Ed). }
  destruct fuel as [ | f]; [discriminate | ].
  cbn [drain] in Ho. unfold bind at 1 in Ho.
  destruct (next_image (S f) (released block s2)) as [[image | ] sb | | | ] eqn:En;
    try discriminate.
  destruct (is_420 (image_chroma image)) eqn:Hc; cbn [negb] in Ho;
    [ | unfold bind, msg_Err, emit, return_ in Ho; discriminate].
  unfold bind at 1 in Ho.
  destruct (lateness_step pr (image_PTS image) sb) as [[] s3 | | | ] eqn:El;
    try discriminate.
  cbn [ret] in Ho.
  destruct (next_image_pulled (S f) _ En) as (w & Hw & Htr).
  assert (Hctx : ctx (st_sys (released block s2)) = ctx (st_sys s)).
  { cbn [released st_sys].
    pose proof (keeps_sys_push_block (S f) block s0) as H1. rewrite Hp in H1.
    cbn [flow_state] in H1. rewrite H1.
    pose proof (keeps_ctx_admission (S f) dec block s) as H2. rewrite Ha in H2.
    exact H2. }
  rewrite Hctx in Hw.
  destruct (update_geometry_run image s3) as (v & Hg & Hsize & _).
  unfold materialize, bind in Ho. rewrite Hg in Ho. unfold get_video, extern in Ho.
  cbn [st_sys st_video st_block st_ext st_trace] in Ho.
  destruct (decoder_NewPicture v (st_ext s3)) as [[pic0 | ] w1] eqn:Enp; [ | discriminate].
  destruct (copy_planes image 0 (p pic0)) as [planes log] eqn:Ecp.
  cbn [ret] in Ho. inversion Ho; subst pic s'. cbn [st_trace st_video st_ext].
  exists pr, s0, s2, image, sb, s3, w, pic0.
  split; [exact Ha | ]. split; [exact Hp | ]. split; [exact En | ].
  split; [exact Hw | ]. split; [exact Htr | ]. split; [exact Hc | ].
  split; [exact El | ].
  split; [exact Enp | ]. split; [rewrite Ecp; reflexivity | ].
  split; [reflexivity | exact Hsize].
Qed.

End Geometry.

(** ** The extradata: examined once, forwarded only when raw *)

Section ExtradataMore.

Context {W : Type} {ext : External W}.

Lemma filter_push_none (evs : list event) :
  forallb not_push evs = true -> filter push_event evs = [].
Proof.
  induction evs as [ | e evs IH]; cbn; [reflexivity | ].
  intros H. apply andb_true_iff in H. destruct H as [He Hevs].
  unfold not_push in He. apply negb_true_iff in He. rewrite He. apply IH. exact Hevs.
Qed.

(** What a continuation adds to the trace comes behind what was added
    before it. *)
Lemma trace_bind {A B} (P : event -> bool) (m : M (W := W) A) (k : A -> M B)
    (s : state W) (evs1 : list event) :
  st_trace (flow_state (m s)) = st_trace s ++ evs1 ->
  (forall a, emits_only P (k a)) ->
  exists evs2,
    st_trace (flow_state (bind m k s)) = st_trace s ++ evs1 ++ evs2
    /\ forallb P evs2 = true.
Proof.
  intros Hm Hk. unfold bind.
  destruct (m s) as [a s1 | s1 | r s1 | s1]; cbn [flow_state] in *;
    try (exists []; rewrite app_nil_r; split; [exact Hm | reflexivity]).
  destruct (Hk a s1) as (evs2 & Ht & HP).
  exists evs2. rewrite Ht, Hm, app_assoc. split; [reflexivity | exact HP].
Qed.

Lemma emits_not_push_decode_extra (fuel : nat) :
  emits_only not_push (decode_extra (W := W) fuel).
Proof.
  induction fuel as [ | f IH]; cbn [decode_extra]; unfold msg_Err; emits.
Qed.

Lemma emits_not_push_policy (dec : decoder_t) (block : block_t) :
  emits_only not_push
    (bind (check_preroll (W := W) block)
       (fun pd => let (prerolling, drawpicture) := (pd : bool * bool) in
                  bind (drop_always dec)
                    (fun _ => bind (drop_late dec drawpicture)
                                (fun drawpicture => ret (prerolling, drawpicture))))).
Proof.
  unfold check_preroll, drop_always, drop_late, msg_Err, msg_Warn. emits.
Qed.

Lemma emits_not_push_check_flags (block : block_t) :
  emits_only not_push (check_flags (W := W) block).
Proof. unfold check_flags. emits. Qed.

(** The first lines of the probe on a raw, non-empty extradata: the
    classification, the debug message and the push. *)
Lemma check_extradata_raw (fuel : nat) (dec : decoder_t) (s : state W) :
  check_extra (st_sys s) = true ->
  p_extra (fmt_in dec) <> [] ->
  looks_packetized (p_extra (fmt_in dec)) = false ->
  let extra := p_extra (fmt_in dec) in
  let push := de265_push_data (ctx (st_sys s)) extra 0 (st_ext s) in
  let s1 := mkState (set_packetized false (set_check_extra false (st_sys s)))
                    (st_video s) (st_block s) (snd push)
                    (st_trace s ++ [Ev_msg Dbg "Assuming non-packetized data";
                                    Ev_push_data extra 0]) in
  check_extradata fuel dec s
  = (if negb (de265_isOK (fst push)) then
       bind (msg_Err "Failed to push extra data: %s (%d)") (fun _ => goto_error)
     else
       bind (if 0x00070000 <=? LIBDE265_NUMERIC_VERSION then
               extern Ev_push_end_of_NAL (de265_push_end_of_NAL (ctx (st_sys s)))
             else ret tt)
            (fun _ => decode_extra fuel)) s1.
Proof.
  intros Hc Hne Hraw extra push s1. subst s1 push extra.
  unfold check_extradata. unfold bind at 1. cbn [get_sys]. rewrite Hc.
  assert (Hlen : (i_extra (fmt_in dec) >? 0) = true).
  { unfold i_extra. destruct (p_extra (fmt_in dec)); [congruence | ].
    cbn [List.length]. apply Z.gtb_lt. lia. }
  rewrite Hlen. unfold probe_extradata. rewrite Hraw.
  unfold bind, modify_sys, get_sys, msg_Dbg, emit, extern.
  cbn [st_sys st_video st_block st_ext st_trace ctx set_packetized set_check_extra].
  destruct (de265_push_data (ctx (st_sys s)) (p_extra (fmt_in dec)) 0 (st_ext s))
    as [err w1].
  cbn [fst snd]. rewrite <- app_assoc. cbn [app].
  destruct (negb (de265_isOK err)); reflexivity.
Qed.

Lemma bind_ext_at {A B} (m m' : M (W := W) A) (k k' : A -> M B) (s : state W) :
  m s = m' s ->
  (forall a s1, m s = Next a s1 -> k a s1 = k' a s1) ->
  bind m k s = bind m' k' s.
Proof.
  intros Hm Hk. unfold bind. rewrite <- Hm.
  destruct (m s) as [a s1 | s1 | r s1 | s1]; try reflexivity.
  apply Hk. reflexivity.
Qed.

Lemma check_flags_next (block : block_t) (s s1 : state W) (u : unit) :
  check_flags block s = Next u s1 -> s1 = s.
Proof.
  unfold check_flags.
  destruct (flag_set (i_flags block)
              (Z.lor BLOCK_FLAG_DISCONTINUITY BLOCK_FLAG_CORRUPTED)).
  - unfold bind, modify_sys, get_sys, extern, goto_error, ret.
    destruct (flag_set (i_flags block) BLOCK_FLAG_DISCONTINUITY);
      [destruct (de265_reset _ _) | ]; discriminate.
  - cbn [ret]. intros H. inversion H. reflexivity.
Qed.

Lemma check_extradata_examined (fuel : nat) (dec : decoder_t) (s : state W) :
  check_extra (st_sys s) = false -> check_extradata fuel dec s = Next tt s.
Proof.
  intros Hc. unfold check_extradata. unfold bind at 1. cbn [get_sys].
  rewrite Hc. reflexivity.
Qed.

Lemma admission_examined (fuel : nat) (dec dec' : decoder_t) (block : block_t)
    (s : state W) :
  check_extra (st_sys s) = false ->
  b_pace_control dec = b_pace_control dec' ->
  admission fuel dec block s = admission fuel dec' block s.
Proof.
  intros Hc Hp. unfold admission.
  apply bind_ext_at; [reflexivity | ]. intros u s1 H1.
  apply check_flags_next in H1. subst s1.
  apply bind_ext_at; [rewrite !check_extradata_examined by exact Hc; reflexivity | ].
  intros u' s1 H1. rewrite check_extradata_examined in H1 by exact Hc.
  inversion H1; subst. unfold drop_always, drop_late. rewrite Hp. reflexivity.
Qed.

(** X18: Once the extradata has been examined, [Decode] does not look at the
    input format again: two decoders that agree on [b_pace_control] give the
    same result in the same state, whatever their formats hold. *)
Theorem extradata_examined_once (fuel : nat) (dec dec' : decoder_t) (s : state W) :
  check_extra (st_sys s) = false ->
  b_pace_control dec = b_pace_control dec' ->
  Decode fuel dec s = Decode fuel dec' s.
Proof.
  intros Hc Hp. unfold Decode. destruct (st_block s) as [block | ]; [ | reflexivity].
  f_equal. unfold Decode_block.
  apply bind_ext_at; [apply admission_examined; assumption | reflexivity].
Qed.

(** X19: Before the block's own bytes are handed over, [Decode] pushes at most
    one thing to the engine: the extradata, whole, with timestamp 0, and
    before anything else is asked of the engine.  That happens only on a
    block without the discontinuity and corrupted flags, in a session whose
    extradata has not been examined, when the extradata is not empty and
    does not look packetized; extradata that looks packetized is never
    forwarded. *)
Theorem extradata_forwarded_only_raw (fuel : nat) (dec : decoder_t) (block : block_t)
    (s : state W) :
  let extra := p_extra (fmt_in dec) in
  exists evs,
    st_trace (flow_state (admission fuel dec block s)) = st_trace s ++ evs
    /\ (filter push_event evs = []
        \/ (filter push_event evs = [Ev_push_data extra 0]
            /\ filter engine_event evs = Ev_push_data extra 0
                                         :: tl (filter engine_event evs)
            /\ unflagged block
            /\ check_extra (st_sys s) = true
            /\ extra <> []
            /\ looks_packetized extra = false)).
Proof.
  intros extra. subst extra.
  set (policy := bind (check_preroll (W := W) block)
       (fun pd => let (prerolling, drawpicture) := (pd : bool * bool) in
                  bind (drop_always dec)
                    (fun _ => bind (drop_late dec drawpicture)
                                (fun drawpicture => ret (prerolling, drawpicture))))).
  assert (Hadm : admission fuel dec block s
                 = bind (check_flags block)
                     (fun _ => bind (check_extradata fuel dec) (fun _ => policy)) s)
    by reflexivity.
  rewrite Hadm.
  destruct (flag_set (i_flags block)
              (Z.lor BLOCK_FLAG_DISCONTINUITY BLOCK_FLAG_CORRUPTED)) eqn:Hf.
  - (* abandoned at line 102 *)
    destruct (emits_not_push_check_flags block s) as (evs & Ht & HP).
    exists evs. split; [ | left; apply filter_push_none; exact HP].
    rewrite <- Ht. unfold bind at 1. unfold check_flags. rewrite Hf.
    unfold bind, modify_sys, get_sys, extern, goto_error, ret.
    destruct (flag_set (i_flags block) BLOCK_FLAG_DISCONTINUITY);
      [destruct (de265_reset _ _) | ]; reflexivity.
  - unfold bind at 1. unfold check_flags. rewrite Hf. cbn [ret].
    destruct (check_extra (st_sys s)) eqn:Hc.
    + destruct (looks_packetized (p_extra (fmt_in dec))) eqn:Hraw.
      * (* packetized extradata: classified, not forwarded *)
        assert (He : emits_only not_push
                       (bind (check_extradata (W := W) fuel dec) (fun _ => policy))).
        { apply emits_only_bind; [ | intros _; apply emits_not_push_policy].
          unfold check_extradata, probe_extradata, msg_Dbg. rewrite Hraw.
          emits. apply emits_not_push_decode_extra. }
        destruct (He s) as (evs & Ht & HP).
        exists evs. split; [exact Ht | left; apply filter_push_none; exact HP].
      * destruct (p_extra (fmt_in dec)) as [ | b0 extra] eqn:Hextra.
        -- (* no extradata *)
           assert (He : emits_only not_push
                          (bind (check_extradata (W := W) fuel dec) (fun _ => policy))).
           { apply emits_only_bind; [ | intros _; apply emits_not_push_policy].
             unfold check_extradata, i_extra. rewrite Hextra. cbn [List.length].
             change (Z.of_nat 0 >? 0) with false. emits. }
           destruct (He s) as (evs & Ht & HP).
           exists evs. split; [exact Ht | left; apply filter_push_none; exact HP].
        -- (* raw extradata: pushed *)
           rewrite <- Hextra in *.
           assert (Hne : p_extra (fmt_in dec) <> []) by (rewrite Hextra; discriminate).
           pose proof (check_extradata_raw fuel dec s Hc Hne Hraw) as Hrun.
           cbn zeta in Hrun.
           set (s1 := mkState (set_packetized false (set_check_extra false (st_sys s)))
                        (st_video s) (st_block s)
                        (snd (de265_push_data (ctx (st_sys s)) (p_extra (fmt_in dec)) 0
                                (st_ext s)))
                        (st_trace s ++ [Ev_msg Dbg "Assuming non-packetized data";
                                        Ev_push_data (p_extra (fmt_in dec)) 0])) in *.
           assert (He : exists evs1,
                      st_trace (flow_state (check_extradata fuel dec s))
                      = st_trace s ++ [Ev_msg Dbg "Assuming non-packetized data";
                                       Ev_push_data (p_extra (fmt_in dec)) 0] ++ evs1
                      /\ forallb not_push evs1 = true).
           { rewrite Hrun.
             assert (Hrest : emits_only not_push
                       (if negb (de265_isOK (fst (de265_push_data (ctx (st_sys s))
                                                    (p_extra (fmt_in dec)) 0 (st_ext s))))
                        then bind (msg_Err (W := W) "Failed to push extra data: %s (%d)")
                                  (fun _ => goto_error)
                        else bind (if 0x00070000 <=? LIBDE265_NUMERIC_VERSION
                                   then extern Ev_push_end_of_NAL
                                          (de265_push_end_of_NAL (ctx (st_sys s)))
                                   else ret tt)
                                  (fun _ => decode_extra fuel))).
             { unfold msg_Err. emits. apply emits_not_push_decode_extra. }
             destruct (Hrest s1) as (evs1 & Ht & HP).
             exists evs1. rewrite Ht. subst s1. cbn [st_trace].
             rewrite <- app_assoc. split; [reflexivity | exact HP]. }
           destruct He as (evs1 & Ht1 & HP1).
           destruct (@trace_bind _ _ not_push (check_extradata fuel dec)
                       (fun _ => policy) s _ Ht1
                       (fun _ => emits_not_push_policy dec block))
             as (evs2 & Ht2 & HP2).
           eexists. split; [exact Ht2 | right].
           cbn [app filter push_event engine_event tl].
           split; [ | split; [reflexivity | ]].
           ++ rewrite filter_app, (filter_push_none _ HP1), (filter_push_none _ HP2).
              reflexivity.
           ++ split; [exact Hf | ]. split; [reflexivity | ]. split; [exact Hne | ].
              reflexivity.
    + (* extradata examined before *)
      assert (Hrun : bind (check_extradata fuel dec) (fun _ => policy) s = policy s).
      { unfold bind at 1. unfold check_extradata. unfold bind at 1. cbn [get_sys].
        rewrite Hc. reflexivity. }
      rewrite Hrun.
      destruct (emits_not_push_policy dec block s) as (evs & Ht & HP).
      exists evs. split; [exact Ht | left; apply filter_push_none; exact HP].
Qed.

(** X20: When the engine refuses the raw extradata on the first block, that
    block is abandoned: the error is logged, nothing of the block is
    pushed, it is released, and no picture is returned.  The session is
    left classified raw with its extradata marked as examined, so that the
    extradata is not offered again with a later block. *)
Theorem refused_extradata_abandons_block (fuel : nat) (dec : decoder_t) (s : state W)
    (block : block_t) :
  st_block s = Some block ->
  unflagged block ->
  check_extra (st_sys s) = true ->
  p_extra (fmt_in dec) <> [] ->
  looks_packetized (p_extra (fmt_in dec)) = false ->
  let extra := p_extra (fmt_in dec) in
  let push := de265_push_data (ctx (st_sys s)) extra 0 (st_ext s) in
  de265_isOK (fst push) = false ->
  Decode fuel dec s =
  Some (None,
        mkState (set_packetized false (set_check_extra false (st_sys s)))
                (st_video s) None (snd push)
                (st_trace s ++ [Ev_msg Dbg "Assuming non-packetized data";
                                Ev_push_data extra 0;
                                Ev_msg Err "Failed to push extra data: %s (%d)";
                                Ev_block_Release block])).
Proof.
  intros Hb Hf Hc Hne Hraw extra push Hrej. subst extra push.
  unfold Decode. rewrite Hb. unfold Decode_block, admission. rewrite !bind_assoc.
  unfold bind at 1. unfold check_flags. unfold unflagged in Hf. rewrite Hf. cbn [ret].
  rewrite !bind_assoc. unfold bind at 1.
  rewrite (check_extradata_raw fuel dec s Hc Hne Hraw). cbn zeta.
  rewrite Hrej. cbn [negb].
  unfold bind, msg_Err, emit, goto_error. cbn [finish]. unfold at_error.
  cbn [st_sys st_video st_block st_ext st_trace].
  rewrite Hb, <- !app_assoc. reflexivity.
Qed.

End ExtradataMore.

(** ** The plane copy into the output picture *)

Section MaterializerCopy.

Context {W : Type} {ext : External W}.

Lemma copy_plane_bytes (image : de265_image) (i : nat) (pl : plane_t) :
  0 <= i_visible_lines pl ->
  plane_copied image i pl (fst (copy_plane image i pl)) (snd (copy_plane image i pl)).
Proof.
  intros Hlines.
  destruct (copy_plane_calls image i pl Hlines) as (Hp & Hl & Hlog & Hcount & Hbytes).
  unfold plane_copied.
  split; [exact Hp | ]. split; [exact Hl | ]. split; [exact Hlog | ].
  split; [exact Hcount | ]. split; [exact Hbytes | ].
  intros Hss Hds Hsrc Hdst.
  unfold copy_plane.
  destruct (de265_get_image_plane image i) as [src ss]. cbn [fst snd] in *.
  pose proof (@copy_lines_content x00 (Z.to_nat (i_visible_lines pl))
                (Z.min ss (i_pitch pl)) ss (i_pitch pl) src ltac:(lia) Hss
                0 0 (p_pixels pl) ltac:(lia) ltac:(lia)) as H.
  destruct (copy_lines (Z.to_nat (i_visible_lines pl)) (Z.min ss (i_pitch pl)) ss
              (i_pitch pl) src 0 0 (p_pixels pl)) as [dst log].
  cbn [fst p_pixels] in *.
  destruct H as (Hlen & Hcopied & Hother).
  { intros k Hk. split; nia. }
  split; [exact Hlen | split].
  - intros line j Hline Hj.
    specialize (Hcopied (Z.to_nat line) j ltac:(lia) Hj).
    rewrite Z2Nat.id in Hcopied by lia. exact Hcopied.
  - intros n Hn. apply Hother. intros k Hk.
    specialize (Hn (Z.of_nat k) ltac:(lia)). lia.
Qed.

(** C7: whenever the picture is built, for a decoded image and the picture
    the host allocated for it, the picture returned has the planes of the
    host's picture, and each of them (of a non-negative number of visible
    lines) is the host's plane after the copy from the image plane of the
    same index: [memcpy] is called once per visible line and not once more,
    each time for min(source stride, destination pitch) bytes, line [k]
    reading at [k] source strides and writing at [k] destination pitches, in
    total min(source stride, destination pitch) times the visible lines
    bytes; and in the pixels of the plane returned the first min(source
    stride, destination pitch) bytes of each visible line are those of the
    image's line, and every other byte is what the host had put there: not
    one byte more is written.  The strides are arbitrary, the source's may
    be the smaller or the larger. *)
Theorem materializer_copy_bound (image : de265_image) (pts : mtime_t) (s s' : state W)
    (pic : picture_t) :
  materialize image pts s = Next pic s' ->
  exists pic0,
    fst (decoder_NewPicture (st_video s') (st_ext s)) = Some pic0
    /\ List.length (p pic) = List.length (p pic0)
    /\ forall (i : nat) (pl : plane_t),
         nth_error (p pic0) i = Some pl ->
         0 <= i_visible_lines pl ->
         exists pl' log,
           nth_error (p pic) i = Some pl'
           /\ nth_error (snd (copy_planes image 0 (p pic0))) i = Some log
           /\ plane_copied image i pl pl' log.
Proof.
  intros H.
  destruct (update_geometry_run image s) as (v & Hg & _ & _).
  unfold materialize, bind in H. rewrite Hg in H. unfold get_video, extern in H.
  cbn [st_sys st_video st_block st_ext st_trace] in H.
  destruct (decoder_NewPicture v (st_ext s)) as [[pic0 | ] w1] eqn:Enp; [ | discriminate].
  pose proof (copy_planes_length image (p pic0) 0) as Hlen.
  pose proof (copy_planes_nth image (p pic0) 0) as Hnth.
  destruct (copy_planes image 0 (p pic0)) as [planes logs] eqn:Ecp.
  cbn [ret] in H. inversion H; subst pic s'. cbn [st_video p fst snd] in *.
  rewrite Enp. exists pic0. rewrite Ecp. cbn [snd]. split; [reflexivity | ]. split; [exact Hlen | ].
  intros i pl Hi Hlines.
  destruct (Hnth i pl Hi) as [Hpl Hlog]. cbn [Nat.add] in *.
  exists (fst (copy_plane image i pl)), (snd (copy_plane image i pl)).
  split; [exact Hpl | ]. split; [exact Hlog | ].
  apply copy_plane_bytes. exact Hlines.
Qed.

End MaterializerCopy.

(** ** The late-frame accounting inside the drain loop *)

Section DrainAccounting.

Context {W : Type} {ext : External W}.


End DrainAccounting.

(** ** Runs of the further properties on the scripted world *)

Section FurtherRuns.

Import Mock.


(** Witness for C7: [image0] into pictures whose pitch is 3 more than the
    width, and into pictures whose pitch is the width.  In the first the
    luma plane has pitch 7 over a source stride 6 and the chroma planes
    pitch 5 over a source stride 4: each line takes the whole source line,
    padding included, and keeps its last byte.  In the second the pitches
    are 4 and 2 under the same strides: each line takes the first 4 or 2
    bytes of the source line. *)
Lemma materializer_copy_bound_witness :
  (exists pic s',
     materialize (image0 700) 700 padded_session = Next pic s'
     /\ map p_pixels (p pic)
        = [[x01; x02; x03; x04; xaa; xaa; x00; x05; x06; x07; x08; xaa; xaa; x00];
           [x10; x11; xbb; xbb; x00];
           [x20; x21; xcc; xcc; x00]]
     /\ exists pic0,
          fst (decoder_NewPicture (st_video s') (st_ext padded_session)) = Some pic0
          /\ List.length (p pic) = List.length (p pic0)
          /\ forall (i : nat) (pl : plane_t),
               nth_error (p pic0) i = Some pl ->
               0 <= i_visible_lines pl ->
               exists pl' log,
                 nth_error (p pic) i = Some pl'
                 /\ nth_error (snd (copy_planes (image0 700) 0 (p pic0))) i = Some log
                 /\ plane_copied (image0 700) i pl pl' log)
  /\ (exists pic s',
        materialize (image0 700) 700 (late_session 0 None []) = Next pic s'
        /\ map p_pixels (p pic)
           = [[x01; x02; x03; x04; x05; x06; x07; x08]; [x10; x11]; [x20; x21]]
        /\ exists pic0,
             fst (decoder_NewPicture (st_video s') (st_ext (late_session 0 None [])))
             = Some pic0
             /\ List.length (p pic) = List.length (p pic0)
             /\ forall (i : nat) (pl : plane_t),
                  nth_error (p pic0) i = Some pl ->
                  0 <= i_visible_lines pl ->
                  exists pl' log,
                    nth_error (p pic) i = Some pl'
                    /\ nth_error (snd (copy_planes (image0 700) 0 (p pic0))) i = Some log
                    /\ plane_copied (image0 700) i pl pl' log).
Proof.
  split.
  - do 2 eexists. split; [vm_compute; reflexivity | ].
    split; [vm_compute; reflexivity | ].
    eapply (@materializer_copy_bound world external (image0 700) 700 padded_session _ _).
    vm_compute. reflexivity.
  - do 2 eexists. split; [vm_compute; reflexivity | ].
    split; [vm_compute; reflexivity | ].
    eapply (@materializer_copy_bound world external (image0 700) 700
              (late_session 0 None []) _ _).
    vm_compute. reflexivity.
Defined.


(** The first block of [picture_session] is released once. *)
Lemma Decode_releases_block_once_witness :
  exists r s',
    Decode 4 (dec0 false false config_extra4) picture_session = Some (r, s')
    /\ st_block s' = None
    /\ exists evs, st_trace s' = st_trace picture_session ++ evs
                   /\ filter release_event evs = [Ev_block_Release unit_block].
Proof.
  do 2 eexists. split; [vm_compute; reflexivity | ].
  eapply (@Decode_releases_block_once world external 4 (dec0 false false config_extra4)
           picture_session _ unit_block _); [reflexivity | vm_compute; reflexivity].
Defined.

(** The picture of [picture_session] comes from a plain block, on time. *)
Lemma picture_only_when_shown_witness :
  exists pic s',
    Decode 4 (dec0 false false config_extra4) picture_session = Some (Some pic, s')
    /\ plain_block unit_block
    /\ (b_pace_control (dec0 false false config_extra4) = true
        \/ late_frames (st_sys picture_session) <= LATE_FRAMES_DROP_DECODER)
    /\ b_progressive pic = true.
Proof.
  do 2 eexists. split; [vm_compute; reflexivity | ].
  eapply (@picture_only_when_shown world external 4 (dec0 false false config_extra4)
           picture_session _ unit_block _); [reflexivity | vm_compute; reflexivity].
Defined.

(** One late frame counted, a late image waiting: the counter goes up. *)
Lemma late_frames_never_negative_witness :
  exists r s',
    Decode 3 (dec0 false false []) (late_session 1 (Some raw_block) [image0 700])
    = Some (r, s')
    /\ 0 <= late_frames (st_sys s').
Proof.
  do 2 eexists. split; [vm_compute; reflexivity | ].
  eapply (@late_frames_never_negative world external 3 (dec0 false false [])
           (late_session 1 (Some raw_block) [image0 700]) _ _);
    [vm_compute; discriminate | vm_compute; reflexivity].
Defined.

Lemma Decode_keeps_config_witness :
  exists r s',
    Decode 3 (dec0 false false []) (late_session 2 (Some raw_block) [image0 700])
    = Some (r, s')
    /\ ctx (st_sys s') = 1%N
    /\ (check_extra (st_sys (late_session 2 (Some raw_block) [image0 700])) = false ->
        config (st_sys s') = (1%N, 4, false, false)).
Proof.
  do 2 eexists. split; [vm_compute; reflexivity | ].
  eapply (@Decode_keeps_config world external 3 (dec0 false false [])
           (late_session 2 (Some raw_block) [image0 700]) _ _).
  vm_compute; reflexivity.
Defined.

(** [Open], a raw block and an empty block, [Close]. *)
Lemma Close_frees_opened_engine_witness :
  exists dec' sys w1 t1 rs s',
    Open (dec0 false false []) (world0 [image0 700] DE265_OK) []
    = (VLC_SUCCESS, dec', Some sys, w1, t1)
    /\ Decode_blocks 3 dec' (mkState sys (mkVideo 4 2 4 2) None w1 t1)
                     [raw_block; empty_block] = Some (rs, s')
    /\ exists c,
         fst (de265_new_decoder (snd (malloc_sys (world0 [image0 700] DE265_OK))))
         = Some c
         /\ snd (Close free_decoder (st_sys s') (st_ext s'))
            = [Cl_free_decoder c; Cl_free_sys].
Proof.
  do 6 eexists. split; [vm_compute; reflexivity | ].
  split; [vm_compute; reflexivity | ].
  eapply (@Close_frees_opened_engine world external 3 (dec0 false false []) _
            (world0 [image0 700] DE265_OK) _ [] _ _ (mkVideo 4 2 4 2)
            [raw_block; empty_block] _ _ free_decoder).
  - vm_compute. reflexivity.
  - vm_compute. reflexivity.
Defined.

(** One late frame counted at 900, the clock at six seconds. *)
Lemma stale_window_drops_witness :
  Decode 0 (dec0 false false []) (start0 (sys0 1 900 4 false false) (Some raw_block)
                                         stale_world)
  = Some (None,
          mkState (sys0 0 900 4 false false) (mkVideo 4 2 4 2) None
                  (mkWorld 6000001 1 100 [] DE265_OK 0 O)
                  [Ev_mdate;
                   Ev_msg Err "more than %d seconds of late video -> dropping frame (computer too slow ?)";
                   Ev_block_Release raw_block]).
Proof.
  eapply (@stale_window_drops world external 0 (dec0 false false [])
           (start0 (sys0 1 900 4 false false) (Some raw_block) stale_world) raw_block).
  - reflexivity.
  - repeat split.
  - reflexivity.
  - reflexivity.
  - vm_compute. reflexivity.
  - vm_compute. split; [discriminate | reflexivity].
  - vm_compute. split; [discriminate | reflexivity].
  - vm_compute. reflexivity.
Defined.


Lemma preroll_block_hidden_witness :
  exists r s',
    Decode 3 (dec0 false false []) (late_session 3 (Some preroll_block) [image0 700])
    = Some (r, s')
    /\ r = None /\ late_frames (st_sys s') = 0.
Proof.
  do 2 eexists. split; [vm_compute; reflexivity | ].
  eapply (@preroll_block_hidden world external 3 (dec0 false false [])
           (late_session 3 (Some preroll_block) [image0 700]) _ preroll_block _).
  - reflexivity.
  - vm_compute. discriminate.
  - right. reflexivity.
  - vm_compute. reflexivity.
Defined.

Lemma raw_block_pushed_whole_witness :
  exists r s',
    Decode 3 (dec0 false false []) (late_session 0 (Some raw_block) [image0 700])
    = Some (r, s')
    /\ exists evs,
         st_trace s'
         = st_trace (late_session 0 (Some raw_block) [image0 700])
           ++ Ev_push_data (p_buffer raw_block) (i_pts raw_block) :: evs
         /\ forallb not_push evs = true.
Proof.
  do 2 eexists. split; [vm_compute; reflexivity | ].
  refine (proj2 (@raw_block_pushed_whole world external 3 (dec0 false false [])
                   (late_session 0 (Some raw_block) [image0 700])
                   (late_session 0 (Some raw_block) [image0 700]) raw_block false true
                   _ _ _ _) _ _ _).
  - reflexivity.
  - discriminate.
  - vm_compute. reflexivity.
  - reflexivity.
  - vm_compute. reflexivity.
Defined.

Lemma trailing_bytes_ignored_witness :
  push_block 3 trailing_block (packetized_session (Some trailing_block) DE265_OK)
  = Next tt (pushed 500 [[x41; x42]]
               (packetized_session (Some trailing_block) DE265_OK)).
Proof.
  eapply (@trailing_bytes_ignored world external 3 trailing_block
           (packetized_session (Some trailing_block) DE265_OK) 2 [[x41; x42]] [x00]).
  - reflexivity.
  - reflexivity.
  - lia.
  - reflexivity.
  - discriminate.
  - cbn. lia.
  - repeat constructor.
  - reflexivity.
  - cbn. lia.
Defined.

(** The engine refuses the first unit of [framed_block]. *)
Lemma refused_unit_stops_block_witness :
  Decode 3 (dec0 false false [])
         (packetized_session (Some framed_block) (DE265_other 5))
  = Some (None,
          mkState (sys0 0 900 2 false true) (mkVideo 4 2 4 2) None refusing_world
                  [Ev_push_NAL [x41; x42] 500;
                   Ev_msg Err "Failed to push data: %s (%d)";
                   Ev_block_Release framed_block]).
Proof.
  eapply (@refused_unit_stops_block world external 3 (dec0 false false [])
           (packetized_session (Some framed_block) (DE265_other 5))
           (packetized_session (Some framed_block) (DE265_other 5))
           framed_block false true 2 [] [x41; x42] [x00; x01; x43]).
  - reflexivity.
  - reflexivity.
  - reflexivity.
  - reflexivity.
  - lia.
  - reflexivity.
  - constructor.
  - vm_compute. reflexivity.
  - reflexivity.
  - reflexivity.
  - cbn. lia.
Defined.

Lemma push_NALs_prefix_witness :
  exists k,
    (k <= 2)%nat
    /\ nal_pushes (st_trace (flow_state
          (push_NALs 3 500 [x00; x02; x41; x42; x00; x01; x43]
                     (packetized_session (Some framed_block) DE265_OK))))
       = [] ++ map (fun nal => (nal, 500)) (firstn k [[x41; x42]; [x43]]).
Proof.
  eapply (@push_NALs_prefix world external 2 500 [[x41; x42]; [x43]] 0%nat
           (packetized_session (Some framed_block) DE265_OK)).
  - reflexivity.
  - lia.
  - repeat constructor.
Defined.

(** The luma plane of [image0], stride 6, into a plane of pitch 4. *)
Lemma copy_plane_content_witness :
  List.length (p_pixels (fst (copy_plane (image0 700) 0 (mkPlane (repeat x00 8) 4 2))))
  = 8%nat.
Proof.
  refine (proj1 (@copy_plane_content x00 (image0 700) 0%nat (mkPlane (repeat x00 8) 4 2)
                   _ _ _ _ _)); cbn; lia.
Defined.

(** The CPU count goes from 4 to 100 between the two readings of line 351:
    200 worker threads are asked for. *)
Lemma Open_ignores_thread_failure_witness :
  open_status (Open (ext := cpu_hotplug) fresh_dec (world0 [] DE265_OK) [])
  = VLC_SUCCESS
  /\ thread_requests
       (open_trace (Open (ext := cpu_hotplug) fresh_dec
                         (world0 [] DE265_OK) []))
     = [200].
Proof.
  pose proof (@Open_ignores_thread_failure world cpu_hotplug fresh_dec
                (world0 [] DE265_OK) garbage 1%N eq_refl eq_refl eq_refl) as H.
  cbn zeta in H. destruct H as (H1 & H2 & _).
  split; [exact H1 | ]. rewrite H2. vm_compute. reflexivity.
Defined.

(** The engine cannot be created: the record is freed and [p_sys] dangles. *)
Lemma Open_failure_frees_record_witness :
  open_dec (Open (ext := no_engine) fresh_dec (world0 [] DE265_OK) [])
  = set_p_sys Ptr_malloc fresh_dec
  /\ open_p_sys (Open (ext := no_engine) fresh_dec (world0 [] DE265_OK) [])
     = None
  /\ filter free_event
       (open_trace (Open (ext := no_engine) fresh_dec
                         (world0 [] DE265_OK) []))
     = [Ev_free].
Proof.
  pose proof (@Open_failure_frees_record world no_engine fresh_dec
                (world0 [] DE265_OK)) as H.
  cbn zeta in H.
  destruct H as (H1 & _ & H3 & H4 & _); [vm_compute; discriminate | ].
  split; [exact H3 | split; [exact H1 | exact H4]].
Defined.

Lemma materialize_requests_image_size_witness :
  format_size (st_video (flow_state
     (materialize (image0 700) 700 (late_session 0 None []))))
  = image_size (image0 700).
Proof.
  refine (proj1 (@materialize_requests_image_size world external (image0 700) 700
                   (late_session 0 None []) _ _)); unfold int_range; cbn; lia.
Defined.

(** The picture of [picture_session] is built from [image0 1000]. *)
Lemma picture_from_420_image_witness :
  exists pic s',
    Decode 4 (dec0 false false config_extra4) picture_session = Some (Some pic, s')
    /\ exists prerolling s0 s2 image sb s3 w pic0,
         admission 4 (dec0 false false config_extra4) unit_block picture_session
         = Next (prerolling, true) s0
         /\ push_block 4 unit_block s0 = Next tt s2
         /\ next_image 4 (released unit_block s2) = Next (Some image) sb
         /\ de265_get_next_picture (ctx (st_sys picture_session))
              (snd (de265_decode (ctx (st_sys picture_session)) w))
            = (Some image, st_ext sb)
         /\ (exists t, st_trace sb = t ++ [Ev_decode; Ev_get_next_picture])
         /\ is_420 (image_chroma image) = true
         /\ lateness_step prerolling (image_PTS image) sb = Next tt s3
         /\ decoder_NewPicture (st_video s') (st_ext s3) = (Some pic0, st_ext s')
         /\ pic = mkPicture (fst (copy_planes image 0 (p pic0))) true (image_PTS image)
         /\ st_trace s' = st_trace s3 ++ [Ev_NewPicture (st_video s')]
         /\ (int_range (image_width image) -> int_range (image_height image) ->
             format_size (st_video s') = image_size image).
Proof.
  do 2 eexists. split; [vm_compute; reflexivity | ].
  eapply (@picture_from_420_image world external 4 (dec0 false false config_extra4)
            picture_session _ unit_block _).
  - reflexivity.
  - vm_compute. reflexivity.
Defined.

(** Two decoders with different extradata, after the first block. *)
Lemma extradata_examined_once_witness :
  Decode 3 (dec0 false false config_extra)
         (late_session 0 (Some raw_block) [image0 700])
  = Decode 3 (dec0 false true short_extra)
           (late_session 0 (Some raw_block) [image0 700]).
Proof.
  eapply (@extradata_examined_once world external 3 (dec0 false false config_extra)
           (dec0 false true short_extra) (late_session 0 (Some raw_block) [image0 700]));
    reflexivity.
Defined.

(** The engine refuses the one byte of extradata. *)
Lemma refused_extradata_abandons_block_witness :
  Decode 3 (dec0 false false short_extra)
         (start0 (sys0 0 123456 4 true true) (Some raw_block) refusing_world)
  = Some (None,
          mkState (sys0 0 123456 4 false false) (mkVideo 4 2 4 2) None refusing_world
                  [Ev_msg Dbg "Assuming non-packetized data";
                   Ev_push_data [x01] 0;
                   Ev_msg Err "Failed to push extra data: %s (%d)";
                   Ev_block_Release raw_block]).
Proof.
  eapply (@refused_extradata_abandons_block world external 3
           (dec0 false false short_extra)
           (start0 (sys0 0 123456 4 true true) (Some raw_block) refusing_world)
           raw_block).
  - reflexivity.
  - reflexivity.
  - reflexivity.
  - discriminate.
  - reflexivity.
  - reflexivity.
Defined.

End FurtherRuns.
